(** * TruthPulse claim pipeline: detector, verifier and verification workflow

    A shallow embedding of
      - [src/agents/detector_agent.py]  (module [Detector]),
      - [src/agents/verifier_agent.py]  (module [Verifier]),
      - [src/graph/state.py] and [src/graph/workflow.py] (modules [Workflow]
        and [Utilities]),
      - [src/agents/explainer_agent.py] (module [Explainer]) and
        [src/agents/communicator_agent.py] (module [Communicator]), without
        their voice output,
    together with the part of the Python runtime these files rely on:
    [str] methods (module [Str]), the [re] module (module [Re]), binary64
    floats with [float()] and [round()] (module [Flt]), exceptions and
    [try]/[except] (module [Exn]), and keyword-argument binding at a call.

    Conventions.
      - A Python [str] is a Rocq [string]; a character is a code point below
        256 (the Latin-1 range of Unicode), so [len] is [String.length].
      - A Python [float] is a primitive binary64 [float]; [+] and [*] are the
        IEEE operations Python uses, literals are rounded to the nearest
        double as Python's parser does.
      - A Python [set] of strings is a [gset string] where only membership is
        used, and a list in iteration order where the code iterates over it.
      - A function that may raise returns [Exn.result]; a function that calls
        an external collaborator runs in the monad [Eff.M], which also records
        the calls that were made.  A function that may raise AttributeError
        returns [Raised.result].
      - Calls to the logger are not modelled. *)

From Stdlib Require Import ZArith NArith String Ascii List Bool Lia DecimalString Sorted.
From Stdlib Require Import Floats.
From stdpp Require Import gmap strings.
Import ListNotations.

#[local] Set Warnings "-inexact-float".
#[local] Open Scope string_scope.
#[local] Open Scope list_scope.

(* ===================================================================== *)
(** ** Python strings *)
(* ===================================================================== *)

Module Str.

(** Code point of a character, and the character classes of Python 3 for
    code points below 256. *)
Definition ord (c : ascii) : N := N_of_ascii c.
Definition chr (n : N) : ascii := ascii_of_N n.

Definition between (lo hi : N) (c : ascii) : bool :=
  (lo <=? ord c)%N && (ord c <=? hi)%N.

(** [str.isspace] on one character; also the class [\s] of [re]. *)
Definition isspace (c : ascii) : bool :=
  between 9 13 c || between 28 32 c || (ord c =? 133)%N || (ord c =? 160)%N.

(** [\d] of [re]: the decimal digits. *)
Definition isdigit (c : ascii) : bool := between 48 57 c.

Definition is_upper_az (c : ascii) : bool := between 65 90 c.
Definition is_lower_az (c : ascii) : bool := between 97 122 c.

(** [\w] of [re] for [str] patterns: alphanumeric characters and the
    underscore. *)
Definition isword (c : ascii) : bool :=
  isdigit c || is_upper_az c || is_lower_az c || (ord c =? 95)%N
  || (ord c =? 170)%N || (ord c =? 178)%N || (ord c =? 179)%N
  || (ord c =? 181)%N || (ord c =? 185)%N || (ord c =? 186)%N
  || between 188 190 c || between 192 214 c || between 216 246 c
  || between 248 255 c.

(** [str.lower] on one character. *)
Definition lower_char (c : ascii) : ascii :=
  if is_upper_az c || (between 192 222 c && negb (ord c =? 215)%N)
  then chr (ord c + 32) else c.

Definition chars (s : string) : list ascii := list_ascii_of_string s.
Definition of_chars (l : list ascii) : string := string_of_list_ascii l.

(** [s.lower()] *)
Definition lower (s : string) : string := of_chars (map lower_char (chars s)).

Fixpoint lstrip_chars (l : list ascii) : list ascii :=
  match l with
  | c :: l' => if isspace c then lstrip_chars l' else l
  | [] => []
  end.

(** [s.strip()] *)
Definition strip (s : string) : string :=
  of_chars (rev (lstrip_chars (rev (lstrip_chars (chars s))))).

(** [len(s)] *)
Definition len (s : string) : nat := String.length s.

(** [s.index(sub)]: offset of the first occurrence, [None] for ValueError. *)
Definition index (sub s : string) : option nat := String.index 0 sub s.

(** [sub in s] *)
Definition contains (sub s : string) : bool :=
  match index sub s with Some _ => true | None => false end.

(** [s.startswith(p)], and [s.startswith((p1, ..., pn))] *)
Definition startswith (s p : string) : bool := String.prefix p s.
Definition startswith_any (s : string) (ps : list string) : bool :=
  existsb (startswith s) ps.

(** [s[:n]] and [s[i:j]] for [0 <= i <= j] *)
Definition take (n : nat) (s : string) : string := substring 0 n s.
Definition slice (i j : nat) (s : string) : string := substring i (j - i) s.

(** [bool(s)] *)
Definition truthy (s : string) : bool :=
  match s with EmptyString => false | _ => true end.

(** [a or b] on strings *)
Definition or_else (a b : string) : string := if truthy a then a else b.

(** [sep.join(l)] *)
Fixpoint join (sep : string) (l : list string) : string :=
  match l with
  | [] => ""
  | [x] => x
  | x :: l' => x +:+ sep +:+ join sep l'
  end.

(** [s.split()]: the maximal runs of non-whitespace characters.  [cur] is
    the run being read, in reverse. *)
Fixpoint split_ws_from (cur : list ascii) (l : list ascii) : list string :=
  match l with
  | [] => match cur with [] => [] | _ => [of_chars (rev cur)] end
  | c :: l' =>
      if isspace c
      then match cur with
           | [] => split_ws_from [] l'
           | _ => of_chars (rev cur) :: split_ws_from [] l'
           end
      else split_ws_from (c :: cur) l'
  end.

Definition split_ws (s : string) : list string := split_ws_from [] (chars s).

(** [s.split(sep)] for a one-character separator: every piece, empty ones
    included. *)
Fixpoint split_on_from (sep : ascii) (cur : list ascii) (l : list ascii)
  : list string :=
  match l with
  | [] => [of_chars (rev cur)]
  | c :: l' =>
      if Ascii.eqb c sep
      then of_chars (rev cur) :: split_on_from sep [] l'
      else split_on_from sep (c :: cur) l'
  end.

Definition split_on (sep : ascii) (s : string) : list string :=
  split_on_from sep [] (chars s).

(** The double quote, as a one-character string. *)
Definition dquote : string := String (chr 34) EmptyString.

End Str.

(* ===================================================================== *)
(** ** Python's [re]: a backtracking matcher *)
(* ===================================================================== *)

Module Re.

(** The patterns of the program use literals, classes, sequence, ordered
    alternation, greedy repetition, the word boundary [\b] and at most one
    capturing group; [(?:...)] needs no constructor. *)
Inductive regex : Type :=
| Eps
| Cls (p : ascii -> bool)
| Seq (a b : regex)
| Alt (a b : regex)
| Star (a : regex)
| Group (a : regex)
| WordB.

(** Derived forms. *)
Definition Chr (c : ascii) : regex := Cls (Ascii.eqb c).
Definition ChrI (c : ascii) : regex :=
  Cls (fun x => Ascii.eqb (Str.lower_char x) (Str.lower_char c)).
Definition AnyChar : regex := Cls (fun _ => true).
Definition Plus (a : regex) : regex := Seq a (Star a).
Definition Opt (a : regex) : regex := Alt a Eps.

Fixpoint Lit (s : string) : regex :=
  match s with
  | EmptyString => Eps
  | String c EmptyString => Chr c
  | String c s' => Seq (Chr c) (Lit s')
  end.

(** A literal under [re.I]. *)
Fixpoint LitI (s : string) : regex :=
  match s with
  | EmptyString => Eps
  | String c EmptyString => ChrI c
  | String c s' => Seq (ChrI c) (LitI s')
  end.

Fixpoint Seqs (l : list regex) : regex :=
  match l with
  | [] => Eps
  | [a] => a
  | a :: l' => Seq a (Seqs l')
  end.

(** [a1|a2|...|an], tried from left to right; the list is not empty. *)
Fixpoint Alts (l : list regex) : regex :=
  match l with
  | [] => Cls (fun _ => false)
  | [a] => a
  | a :: l' => Alt a (Alts l')
  end.

Definition digit : regex := Cls Str.isdigit.
Definition space : regex := Cls Str.isspace.
Definition upper_az : regex := Cls Str.is_upper_az.
Definition lower_az : regex := Cls Str.is_lower_az.

(** State of a match attempt: the offset reached, the character before it
    (for [\b]), the text still to read, and the span of group 1. *)
Record mstate : Type := MState {
  pos : nat;
  prev : option ascii;
  rest : list ascii;
  grp : option (nat * nat)
}.

Definition is_word_opt (o : option ascii) : bool :=
  match o with Some c => Str.isword c | None => false end.

(** [\b]: exactly one side of the position is a word character. *)
Definition at_boundary (st : mstate) : bool :=
  xorb (is_word_opt (prev st)) (is_word_opt (head (rest st))).

(** [run r st k]: match [r] at [st], then continue with [k]; the first
    success in the order of a backtracking matcher is returned.  A [Star]
    iterates at most once per remaining character, and an iteration that
    reads nothing ends the repetition. *)
Fixpoint run (r : regex) (st : mstate) (k : mstate -> option mstate)
  {struct r} : option mstate :=
  match r with
  | Eps => k st
  | Cls p =>
      match rest st with
      | c :: l => if p c then k (MState (S (pos st)) (Some c) l (grp st)) else None
      | [] => None
      end
  | Seq a b => run a st (fun st' => run b st' k)
  | Alt a b =>
      match run a st k with
      | Some st' => Some st'
      | None => run b st k
      end
  | Star a =>
      (fix loop (fuel : nat) (st0 : mstate) {struct fuel} : option mstate :=
         match fuel with
         | O => k st0
         | S fuel' =>
             match run a st0 (fun st' =>
                      if (pos st0 <? pos st')%nat then loop fuel' st' else None)
             with
             | Some st' => Some st'
             | None => k st0
             end
         end) (length (rest st)) st
  | Group a =>
      run a st (fun st' => k (MState (pos st') (prev st') (rest st')
                                     (Some (pos st, pos st'))))
  | WordB => if at_boundary st then k st else None
  end.

(** The texts a pattern can match, read without the context that [\b]
    looks at: what [run] consumes between its start and the call of its
    continuation is such a text. *)
Inductive matches : regex -> list ascii -> Prop :=
| M_Eps : matches Eps []
| M_Cls (p : ascii -> bool) (c : ascii) : p c = true -> matches (Cls p) [c]
| M_Seq (a b : regex) (u v : list ascii) :
    matches a u -> matches b v -> matches (Seq a b) (u ++ v)
| M_AltL (a b : regex) (u : list ascii) : matches a u -> matches (Alt a b) u
| M_AltR (a b : regex) (u : list ascii) : matches b u -> matches (Alt a b) u
| M_StarNil (a : regex) : matches (Star a) []
| M_StarCons (a : regex) (u v : list ascii) :
    matches a u -> matches (Star a) v -> matches (Star a) (u ++ v)
| M_Group (a : regex) (u : list ascii) : matches a u -> matches (Group a) u
| M_WordB : matches WordB [].

(** A match object: the span of the whole match and of group 1. *)
Record rmatch : Type := RMatch {
  m_start : nat;
  m_end : nat;
  m_group : option (nat * nat)
}.

(** Leftmost match starting at offset [p] or later; [l] is the text from
    [p] on and [pv] the character before it. *)
Fixpoint search_from (r : regex) (p : nat) (pv : option ascii)
  (l : list ascii) {struct l} : option rmatch :=
  match run r (MState p pv l None) Some with
  | Some st => Some (RMatch p (pos st) (grp st))
  | None =>
      match l with
      | [] => None
      | c :: l' => search_from r (S p) (Some c) l'
      end
  end.

(** [re.search(r, s)] *)
Definition search (r : regex) (s : string) : option rmatch :=
  search_from r 0 None (Str.chars s).

(** [bool(m)] for the result of [re.search] *)
Definition is_match (o : option rmatch) : bool :=
  match o with Some _ => true | None => false end.

(** [m.group(0)] and [m.group(1)] for a match [m] in [s]; a group that did
    not take part is the empty text here (the program only reads groups
    that always take part). *)
Definition group0 (s : string) (m : rmatch) : string :=
  Str.slice (m_start m) (m_end m) s.
Definition group1 (s : string) (m : rmatch) : string :=
  match m_group m with
  | Some (i, j) => Str.slice i j s
  | None => ""
  end.

(** [re.finditer(r, s)]: the non-overlapping matches from left to right.
    The patterns of the program never match the empty text; should one do
    so, the scan resumes one character further. *)
Fixpoint finditer_from (fuel : nat) (r : regex) (p : nat)
  (pv : option ascii) (l : list ascii) {struct fuel} : list rmatch :=
  match fuel with
  | O => []
  | S fuel' =>
      match search_from r p pv l with
      | None => []
      | Some m =>
          let q := Nat.max (m_end m) (S (m_start m)) in
          let pv' := match nth_error l (q - p - 1) with
                     | Some c => Some c
                     | None => pv
                     end in
          m :: finditer_from fuel' r q pv' (skipn (q - p) l)
      end
  end.

Definition finditer (r : regex) (s : string) : list rmatch :=
  finditer_from (S (Str.len s)) r 0 None (Str.chars s).

(** [re.split(r, s)] for a pattern without groups: the text between the
    matches, empty pieces included. *)
Fixpoint pieces (s : string) (from : nat) (ms : list rmatch) : list string :=
  match ms with
  | [] => [Str.slice from (Str.len s) s]
  | m :: ms' => Str.slice from (m_start m) s :: pieces s (m_end m) ms'
  end.

Definition split (r : regex) (s : string) : list string :=
  pieces s 0 (finditer r s).

End Re.

(* ===================================================================== *)
(** ** Exceptions and results *)
(* ===================================================================== *)

Module Exn.

(** The exceptions that occur, all of them subclasses of [Exception], so
    that [except Exception] catches each one.  [External] stands for an
    error raised inside a collaborator (network, service, library). *)
Inductive exn : Type :=
| ValueError (msg : string)
| TypeError (msg : string)
| IndexError (msg : string)
| KeyError (msg : string)
| GraphRecursionError (msg : string)
| External (msg : string).

(** [str(e)] *)
Definition str (e : exn) : string :=
  match e with
  | ValueError m | TypeError m | IndexError m | KeyError m
  | GraphRecursionError m | External m => m
  end.

(** The outcome of a call: it returns a value or raises. *)
Inductive result (A : Type) : Type :=
| Ok (a : A)
| Raise (e : exn).
Arguments Ok {A} a.
Arguments Raise {A} e.

Definition rbind {A B : Type} (r : result A) (f : A -> result B) : result B :=
  match r with
  | Ok a => f a
  | Raise e => Raise e
  end.

End Exn.

(* ===================================================================== *)
(** ** Python floats *)
(* ===================================================================== *)

Module Flt.

#[local] Open Scope float_scope.

(** The double nearest to the fraction [n/d] (ties to even), computed by
    the IEEE division of the specification on exact integer operands. *)
Definition nearest (n d : positive) : float :=
  SF2Prim (SFdiv prec emax (S754_finite false n 0) (S754_finite false d 0)).

(** [float(z)] for an integer [z]. *)
Definition of_Z (z : Z) : float := SF2Prim (binary_normalize prec emax z 0 false).
Definition of_nat (n : nat) : float := of_Z (Z.of_nat n).

(** [min(a, b)] and [max(a, b)]: the first argument unless the second is
    strictly smaller (larger). *)
Definition min (a b : float) : float := if b <? a then b else a.
Definition max (a b : float) : float := if a <? b then b else a.

(** [a <= x <= b] *)
Definition within (a b x : float) : bool := (a <=? x) && (x <=? b).

Definition digit_value (c : ascii) : N := (Str.ord c - 48)%N.

Fixpoint decimal_value (acc : N) (l : list ascii) : N :=
  match l with
  | [] => acc
  | c :: l' => decimal_value (10 * acc + digit_value c) l'
  end.

Fixpoint span_digits (l : list ascii) : list ascii * list ascii :=
  match l with
  | c :: l' =>
      if Str.isdigit c
      then let (d, r) := span_digits l' in (c :: d, r)
      else ([], l)
  | [] => ([], [])
  end.

Definition of_fraction (n : N) (scale : nat) : float :=
  match n with
  | N0 => 0
  | Npos p => nearest p (Pos.pow 10 (Pos.of_nat scale))
  end.

Definition of_digits (int_part frac_part : list ascii) : float :=
  match frac_part with
  | [] => of_Z (Z.of_N (decimal_value 0 int_part))
  | _ => of_fraction (decimal_value 0 (int_part ++ frac_part)) (length frac_part)
  end.

(** [float(s)] for a text [s] made of digits with at most one point and at
    least one digit, which is all the program converts: the double nearest
    to the decimal number.  Any other text is reported as the ValueError of
    [float]. *)
Definition of_str (s : string) : Exn.result float :=
  let bad := Exn.Raise (Exn.ValueError ("could not convert string to float: '" +:+ s +:+ "'")) in
  let (ip, r) := span_digits (Str.chars s) in
  match r with
  | [] => match ip with [] => bad | _ => Exn.Ok (of_digits ip []) end
  | c :: r' =>
      if Ascii.eqb c "."
      then let (fp, r'') := span_digits r' in
           match r'', ip ++ fp with
           | [], _ :: _ => Exn.Ok (of_digits ip fp)
           | _, _ => bad
           end
      else bad
  end.

(** The integer nearest to [m * 2^e * 1000], ties to even. *)
Definition scaled_thousandths (m : positive) (e : Z) : Z :=
  let n := (1000 * Zpos m)%Z in
  match e with
  | Zneg p =>
      let d := Z.pow 2 (Zpos p) in
      let q := (n / d)%Z in
      let r := (n mod d)%Z in
      match (2 * r ?= d)%Z with
      | Lt => q
      | Gt => (q + 1)%Z
      | Eq => if Z.even q then q else (q + 1)%Z
      end
  | _ => (n * Z.pow 2 e)%Z
  end.

(** [round(x, 3)]: the exact value of [x] is rounded to three decimals,
    ties to even, and the double nearest to that decimal is returned;
    zeros, infinities and NaN are returned unchanged. *)
Definition round3 (x : float) : float :=
  match Prim2SF x with
  | S754_finite s m e =>
      match scaled_thousandths m e with
      | Zpos p => let r := nearest p 1000 in if s then - r else r
      | _ => if s then -0 else 0
      end
  | _ => x
  end.

End Flt.

(* ===================================================================== *)
(** ** The detector agent ([src/agents/detector_agent.py]) *)
(* ===================================================================== *)

Module Detector.

Import Re.

(** [Domain = Literal[...]] *)
Inductive Domain : Type :=
| health | politics | travel | disaster | finance | technology | general.

Definition Domain_eqb (a b : Domain) : bool :=
  match a, b with
  | health, health | politics, politics | travel, travel
  | disaster, disaster | finance, finance | technology, technology
  | general, general => true
  | _, _ => false
  end.

Record StructuredClaim : Type := {
  subject : option string;
  action : option string;
  location : option string;
  time : option string;
  sc_entities : list string
}.

(** [DetectionResult].  The field [notes] is display text that no other
    part of the pipeline reads; it contains a character outside the range
    of this development's strings and is left out. *)
Record DetectionResult : Type := {
  claim : string;
  domain : Domain;
  claim_type : string;
  entities : list string;
  keywords : list string;
  structured_claim : StructuredClaim;
  search_queries : list string;
  risk_score : float;
  confidence : float;
  claim_complexity : string;
  supporting_evidence_types : list string;
  temporal_indicators : list string;
  quantitative_elements : list string
}.

(** *** Class constants *)

(** A dict is an association list in insertion order.  The keyword sets
    below are iterated only under [any(...)], where the order of iteration
    cannot be observed; they are written in source order. *)
Definition DOMAIN_KEYWORDS : list (Domain * list string) :=
  [ (health,
      ["virus"; "covid"; "pandemic"; "vaccine"; "mask"; "outbreak"; "hospital";
       "fever"; "infection"; "symptom"; "treatment"; "patient"; "doctor"]);
    (politics,
      ["election"; "minister"; "president"; "policy"; "parliament"; "government";
       "vote"; "campaign"; "bill"; "law"; "diplomat"; "ambassador"]);
    (travel,
      ["airport"; "flight"; "train"; "railway"; "visa"; "border"; "airline";
       "runway"; "luggage"; "passport"; "tourism"; "cruise"]);
    (disaster,
      ["flood"; "cyclone"; "earthquake"; "tsunami"; "landslide"; "storm";
       "wildfire"; "evacuation"; "relief"; "rescue"; "damage"]);
    (finance,
      ["stock"; "market"; "crore"; "billion"; "rupee"; "dollar"; "inflation";
       "interest"; "budget"; "bank"; "investment"; "economy"]);
    (technology,
      ["ai"; "cyber"; "hack"; "malware"; "data leak"; "server"; "chip";
       "software"; "app"; "internet"; "network"; "gadget"]);
    (general, []) ].

Definition EMERGENCY_WORDS : list string :=
  ["breaking"; "urgent"; "alert"; "warning"; "emergency"; "crisis"; "panic";
   "chaos"; "collapse"; "failure"; "disaster"].

Definition ACTION_PATTERNS : list string :=
  ["flight cancelled"; "flight canceled"; "airport closed"; "airport shutdown";
   "school closed"; "lockdown"; "virus outbreak"; "cases rising";
   "explosive spread"; "power outage"; "internet shutdown"; "bank closed";
   "market crash"; "train derailed"; "bridge collapsed"].

(** Only membership is asked of this set. *)
Definition STOPWORDS : gset string :=
  list_to_set
    ["the"; "and"; "that"; "this"; "with"; "from"; "have"; "been"; "will";
     "about"; "over"; "into"; "after"; "before"; "today"; "news"; "claims";
     "claim"; "says"; "said"; "according"; "reports"; "reported"; "source"].

(** A run of capitalised words: [[A-Z][a-z]+(?:\s[A-Z][a-z]+)*] *)
Definition capitalised : regex := Seq upper_az (Plus lower_az).
Definition capitalised_run : regex :=
  Seq capitalised (Star (Seq space capitalised)).

(** [\b[A-Z][a-z]+(?:\s[A-Z][a-z]+)*\b] *)
Definition ENTITY_PATTERN : regex := Seqs [WordB; capitalised_run; WordB].

(** [\d+], [(?:\.\d+)?] and a word with an optional last letter, as in
    [cases?]. *)
Definition digits : regex := Plus digit.
Definition opt_decimals : regex := Opt (Seq (Chr ".") digits).
Definition word_opt (stem : string) (last : ascii) : regex :=
  Seq (Lit stem) (Opt (Chr last)).

Definition degree_sign : ascii := Str.chr 176.

Definition QUANTITATIVE_PATTERNS : list regex :=
  [ (* \b\d+(?:\.\d+)?%\s *)
    Seqs [WordB; digits; opt_decimals; Chr "%"; space];
    (* \b\d{1,3}(?:,\d{3})*(?:\.\d+)?\s*(?:billion|million|thousand|crore|lakh)\b *)
    Seqs [WordB; digit; Opt (Seq digit (Opt digit));
          Star (Seqs [Chr ","; digit; digit; digit]); opt_decimals; Star space;
          Alts [Lit "billion"; Lit "million"; Lit "thousand"; Lit "crore"; Lit "lakh"];
          WordB];
    (* \b\d+\s*(?:cases?|deaths?|patients?|tests?|infections?)\b *)
    Seqs [WordB; digits; Star space;
          Alts [word_opt "case" "s"; word_opt "death" "s"; word_opt "patient" "s";
                word_opt "test" "s"; word_opt "infection" "s"];
          WordB];
    (* \b\d+\s*(?:people?|persons?|individuals?|victims?)\b *)
    Seqs [WordB; digits; Star space;
          Alts [word_opt "peopl" "e"; word_opt "person" "s";
                word_opt "individual" "s"; word_opt "victim" "s"];
          WordB];
    (* \b\d+\s*(?:flights?|trains?|vehicles?|ships?)\b *)
    Seqs [WordB; digits; Star space;
          Alts [word_opt "flight" "s"; word_opt "train" "s";
                word_opt "vehicle" "s"; word_opt "ship" "s"];
          WordB];
    (* \b\d+\s*(?:rupees?|dollars?|euros?)\b *)
    Seqs [WordB; digits; Star space;
          Alts [word_opt "rupee" "s"; word_opt "dollar" "s"; word_opt "euro" "s"];
          WordB];
    (* \b\d+(?:\.\d+)?\s*(?:degrees?|°C|°F)\b, the sign being U+00B0 *)
    Seqs [WordB; digits; opt_decimals; Star space;
          Alts [word_opt "degree" "s"; Seq (Chr degree_sign) (Chr "C");
                Seq (Chr degree_sign) (Chr "F")];
          WordB] ].

Definition TEMPORAL_INDICATORS : list (string * list string) :=
  [ ("immediate", ["breaking"; "just now"; "moments ago"; "right now"; "live"]);
    ("short_term",
      ["today"; "tonight"; "tomorrow"; "yesterday"; "this morning";
       "this evening"; "this week"; "next few hours"]);
    ("medium_term",
      ["past 24 hours"; "past few days"; "last week"; "recent"; "this month";
       "past month"; "next week"]);
    ("long_term",
      ["past year"; "over the past"; "several months"; "this year";
       "last year"; "coming months"]) ].

Definition SUPPORT_EVIDENCE_INDICATORS : list (string * list string) :=
  [ ("official",
      ["official"; "government"; "authorities"; "spokesperson"; "statement";
       "press release"; "ministry"; "agency"; "department"]);
    ("statistical",
      ["study"; "research"; "data"; "survey"; "statistics"; "figures";
       "analysis"; "report"; "metrics"; "numbers"]);
    ("eyewitness",
      ["resident"; "witness"; "local"; "on the ground"; "firsthand";
       "eyewitness"; "passerby"; "neighbor"]);
    ("media",
      ["reported by"; "according to"; "sources say"; "media reports";
       "journalist"; "correspondent"; "broadcast"]);
    ("expert",
      ["expert"; "scientist"; "doctor"; "professor"; "analyst";
       "specialist"; "researcher"]) ].

(** [d[key]] for a dict written as an association list. *)
Fixpoint lookup_str {A : Type} (key : string) (d : list (string * A)) : option A :=
  match d with
  | [] => None
  | (k, v) :: d' => if String.eqb k key then Some v else lookup_str key d'
  end.

(** [x in l] for a list of strings. *)
Definition mem (x : string) (l : list string) : bool := existsb (String.eqb x) l.

(** [any(w in text for w in words)] *)
Definition any_in (words : list string) (text : string) : bool :=
  existsb (fun w => Str.contains w text) words.

(** Truth value of an [Optional[str]]. *)
Definition truthy_opt (o : option string) : bool :=
  match o with Some s => Str.truthy s | None => false end.

(** [bool(l)] for a list *)
Definition nonempty {A : Type} (l : list A) : bool :=
  match l with [] => false | _ => true end.

(** [l.sort(key=lambda x: x[0])]: a stable sort on the first component. *)
Fixpoint insert_by_key (x : nat * string) (l : list (nat * string))
  : list (nat * string) :=
  match l with
  | [] => [x]
  | y :: l' => if (fst y <=? fst x)%nat then y :: insert_by_key x l' else x :: l
  end.

Definition sort_by_key (l : list (nat * string)) : list (nat * string) :=
  fold_left (fun acc x => insert_by_key x acc) l [].

Section Methods.

(** The order in which the Python process iterates over a [set] holding the
    given elements.  The language leaves it unspecified (it follows the
    hashes of the elements); the methods that iterate over a set take it as
    a parameter. *)
Variable iter_set : list string -> list string.

(** *** Core analysis methods *)

Definition _detect_domain (claim_lower : string) : Domain :=
  match find (fun dk => any_in (snd dk) claim_lower) DOMAIN_KEYWORDS with
  | Some dk => fst dk
  | None => general
  end.

Definition _classify_claim (claim_lower : string) : string :=
  if Str.contains "?" claim_lower
     || Str.startswith_any claim_lower ["did"; "is"; "are"; "can"; "does"; "has"]
  then "question"
  else if is_match (search digit claim_lower) then "numerical_claim"
  else if existsb (fun phrase => Str.contains phrase claim_lower) ACTION_PATTERNS
  then "action_claim"
  else "narrative_claim".

(** [(index, entity)] for each entity of the set that [claim.index] finds. *)
Fixpoint indexed (claim : string) (matches : list string) : list (nat * string) :=
  match matches with
  | [] => []
  | entity :: rest =>
      match Str.index entity claim with
      | Some index => (index, entity) :: indexed claim rest
      | None => indexed claim rest
      end
  end.

Definition _extract_entities (claim : string) : list string :=
  let matches :=
    iter_set (remove_dups (map (fun m => Str.strip (group0 claim m))
                               (finditer ENTITY_PATTERN claim))) in
  let sorted_entities := sort_by_key (indexed claim matches) in
  map snd (firstn 5 sorted_entities).

(** [[^\w@#]+] *)
Definition token_separator : regex :=
  Plus (Cls (fun c => negb (Str.isword c || Ascii.eqb c "@" || Ascii.eqb c "#"))).

Definition _extract_keywords (claim_lower : string) : list string :=
  let tokens := split token_separator claim_lower in
  let keywords :=
    filter (fun tok => Str.truthy tok && (3 <? Str.len tok)%nat
                       && negb (bool_decide (tok ∈ STOPWORDS))) tokens in
  firstn 8 keywords.

Definition location_patterns : list regex :=
  [ (* \b(?:in|at|near|from|to)\s+([A-Z][a-z]+(?:\s[A-Z][a-z]+)* ) *)
    Seqs [WordB; Alts [Lit "in"; Lit "at"; Lit "near"; Lit "from"; Lit "to"];
          Plus space; Group capitalised_run];
    (* \b([A-Z][a-z]+(?:\s[A-Z][a-z]+)* )\s+(?:airport|hospital|station|city)\b *)
    Seqs [WordB; Group capitalised_run; Plus space;
          Alts [Lit "airport"; Lit "hospital"; Lit "station"; Lit "city"]; WordB] ].

(** The first pattern of the list that matches, with its match. *)
Fixpoint first_match (patterns : list regex) (text : string) : option rmatch :=
  match patterns with
  | [] => None
  | pattern :: rest =>
      match search pattern text with
      | Some m => Some m
      | None => first_match rest text
      end
  end.

Definition _extract_location (claim : string) (entities : list string)
  : option string :=
  match first_match location_patterns claim with
  | Some m => Some (Str.strip (group1 claim m))
  | None => if (1 <? length entities)%nat then nth_error entities 1 else None
  end.

(** [\b(\d{1,2}\s?(?:am|pm))\b] *)
Definition clock_time : regex :=
  Seqs [WordB;
        Group (Seqs [digit; Opt digit; Opt space; Alts [Lit "am"; Lit "pm"]]);
        WordB].

Definition _extract_time_phrase (claim_lower : string) : option string :=
  match search clock_time claim_lower with
  | Some time_match => Some (group1 claim_lower time_match)
  | None =>
      find (fun token => Str.contains token claim_lower)
           ["morning"; "evening"; "tonight"; "today"; "tomorrow"; "yesterday"]
  end.

(** [\b(shut\s+down|cancelled|canceled|closed|delay|postponed|confirmed|
       declared|announced|reported|confirmed|denied|verified)\b] *)
Definition single_word_action : regex :=
  Seqs [WordB;
        Group (Alts [Seqs [Lit "shut"; Plus space; Lit "down"]; Lit "cancelled";
                     Lit "canceled"; Lit "closed"; Lit "delay"; Lit "postponed";
                     Lit "confirmed"; Lit "declared"; Lit "announced";
                     Lit "reported"; Lit "confirmed"; Lit "denied"; Lit "verified"]);
        WordB].

Definition _extract_action (claim_lower : string) : option string :=
  match find (fun phrase => Str.contains phrase claim_lower) ACTION_PATTERNS with
  | Some phrase => Some phrase
  | None =>
      match search single_word_action claim_lower with
      | Some action_match => Some (group1 claim_lower action_match)
      | None => None
      end
  end.

Definition _build_structured_claim (claim : string) (entities : list string)
  : StructuredClaim :=
  let claim_lower := Str.lower claim in
  let subject := head entities in
  let location := _extract_location claim entities in
  let time_phrase := _extract_time_phrase claim_lower in
  let action := _extract_action claim_lower in
  {| subject := subject; action := action; location := location;
     time := time_phrase; sc_entities := entities |}.

(** *** Enhanced analysis methods *)

Definition _extract_quantitative_elements (claim : string) : list string :=
  let quantitative_elements :=
    flat_map (fun pattern =>
                map (fun m => Str.strip (group0 claim m)) (finditer pattern claim))
             QUANTITATIVE_PATTERNS in
  firstn 5 quantitative_elements.

(** [\band\b|\bor\b] and [[,.]\s+[A-Z]] *)
Definition conjunction : regex :=
  Alt (Seqs [WordB; Lit "and"; WordB]) (Seqs [WordB; Lit "or"; WordB]).
Definition clause_break : regex :=
  Seqs [Cls (fun c => Ascii.eqb c "," || Ascii.eqb c "."); Plus space; upper_az].

(** The five signals that [_assess_claim_complexity] computes. *)
Definition word_count (claim : string) : nat := length (Str.split_ws claim).
Definition entity_count (claim : string) : nat := length (_extract_entities claim).
Definition has_conjunctions (claim : string) : bool :=
  is_match (search conjunction (Str.lower claim)).
Definition has_multiple_clauses (claim : string) : bool :=
  is_match (search clause_break claim).
Definition has_quantitative (claim : string) : bool :=
  nonempty (_extract_quantitative_elements claim).

Definition _assess_claim_complexity (claim : string) : string :=
  let word_count := word_count claim in
  let entity_count := entity_count claim in
  let has_conjunctions := has_conjunctions claim in
  let has_multiple_clauses := has_multiple_clauses claim in
  let has_quantitative := has_quantitative claim in
  if (word_count <=? 15)%nat && (entity_count <=? 2)%nat
     && negb has_multiple_clauses && negb has_quantitative
  then "simple"
  else if (word_count <=? 40)%nat && (entity_count <=? 4)%nat
          && negb has_conjunctions
  then "moderate"
  else "complex".

Definition _identify_supporting_evidence_types (claim_lower : string)
  : list string :=
  let evidence_types :=
    map fst (filter (fun ti => any_in (snd ti) claim_lower)
                    SUPPORT_EVIDENCE_INDICATORS) in
  firstn 3 evidence_types.

(** One phrase per category: the first indicator, in the iteration order of
    the category's set, that occurs in the claim. *)
Fixpoint first_per_category (cats : list (string * list string))
  (claim_lower : string) : list string :=
  match cats with
  | [] => []
  | (_, indicators) :: rest =>
      match find (fun indicator => Str.contains indicator claim_lower)
                 (iter_set indicators) with
      | Some indicator => indicator :: first_per_category rest claim_lower
      | None => first_per_category rest claim_lower
      end
  end.

Definition _extract_temporal_indicators (claim_lower : string) : list string :=
  firstn 3 (first_per_category TEMPORAL_INDICATORS claim_lower).

(** [TEMPORAL_INDICATORS[key]] *)
Definition temporal_set (key : string) : list string :=
  match lookup_str key TEMPORAL_INDICATORS with
  | Some indicators => indicators
  | None => []
  end.

Definition _calculate_evidence_confidence
  (supporting_types temporal_indicators : list string) : float :=
  let confidence_bonus := 0%float in
  let confidence_bonus :=
    if mem "official" supporting_types then (confidence_bonus + 0.15)%float
    else if mem "statistical" supporting_types then (confidence_bonus + 0.10)%float
    else if mem "expert" supporting_types then (confidence_bonus + 0.08)%float
    else confidence_bonus in
  let confidence_bonus :=
    if (1 <? length supporting_types)%nat
    then (confidence_bonus
          + 0.05 * Flt.of_Z (Z.of_nat (length supporting_types) - 1))%float
    else confidence_bonus in
  let recent_indicators := temporal_set "immediate" in
  let confidence_bonus :=
    if existsb (fun indicator => mem indicator recent_indicators)
               temporal_indicators
    then (confidence_bonus + 0.08)%float
    else if existsb (fun indicator => mem indicator (temporal_set "short_term"))
                    temporal_indicators
    then (confidence_bonus + 0.04)%float
    else confidence_bonus in
  Flt.min 0.25 confidence_bonus.

(** *** Search query generation *)

Fixpoint dedup_from (seen : gset string) (queries : list string) : list string :=
  match queries with
  | [] => []
  | q :: rest =>
      let normalized := Str.lower (Str.strip q) in
      if negb (Str.truthy normalized) || bool_decide (normalized ∈ seen)
      then dedup_from seen rest
      else Str.strip q :: dedup_from ({[ normalized ]} ∪ seen) rest
  end.

Definition _deduplicate_queries (queries : list string) : list string :=
  dedup_from ∅ queries.

(** [[f(a, b)]] when both optional strings are true, else nothing. *)
Definition when_both (a b : option string) (f : string -> string -> string)
  : list string :=
  match a, b with
  | Some x, Some y => if Str.truthy x && Str.truthy y then [f x y] else []
  | _, _ => []
  end.

Definition spaced (a b : string) : string := a +:+ " " +:+ b.
Definition quoted_then (a b : string) : string :=
  Str.dquote +:+ a +:+ Str.dquote +:+ " " +:+ b.

Definition domain_hints : list (Domain * list string) :=
  [ (health, ["official health update"; "health ministry statement"; "medical report"]);
    (politics, ["fact check"; "official statement"; "government announcement"]);
    (travel, ["status update"; "travel advisory"; "flight information"]);
    (disaster, ["relief update"; "emergency services"; "damage assessment"]);
    (finance, ["market news"; "financial report"; "economic update"]);
    (technology, ["cyber alert"; "security update"; "tech news"]) ].

Definition lookup_domain (d : Domain) (t : list (Domain * list string))
  : option (list string) :=
  option_map snd (find (fun dh => Domain_eqb (fst dh) d) t).

Definition _generate_search_queries (claim : string) (structured : StructuredClaim)
  (entities : list string) (domain : Domain) : list string :=
  let queries := [claim] in
  let queries := queries ++ when_both (subject structured) (action structured) spaced in
  let queries := queries ++ when_both (location structured) (action structured) spaced in
  let queries := queries ++ when_both (location structured) (time structured) spaced in
  let queries :=
    queries ++ flat_map (fun ent =>
                  match action structured with
                  | Some a => if Str.truthy a then [quoted_then ent a] else []
                  | None => []
                  end) (firstn 2 entities) in
  let queries :=
    queries ++ match lookup_domain domain domain_hints, subject structured with
               | Some hints, Some s =>
                   if Str.truthy s
                   then map (fun hint => quoted_then s hint) (firstn 2 hints)
                   else []
               | _, _ => []
               end in
  _deduplicate_queries queries.

Definition evidence_modifiers : list (string * list string) :=
  [ ("official", ["official statement"; "government confirmation"; "press release"; "authorities"]);
    ("statistical", ["study"; "research"; "official data"; "statistics"; "report"]);
    ("eyewitness", ["witness accounts"; "resident reports"; "firsthand accounts"; "local sources"]);
    ("media", ["news report"; "journalist account"; "media coverage"; "broadcast"]);
    ("expert", ["expert analysis"; "specialist opinion"; "professional assessment"]) ].

Definition _generate_contextual_search_queries (structured : StructuredClaim)
  (supporting_types : list string) : list string :=
  flat_map (fun evidence_type =>
              match lookup_str evidence_type evidence_modifiers, subject structured with
              | Some modifiers, Some s =>
                  if Str.truthy s
                  then map (fun modifier => quoted_then s modifier) (firstn 2 modifiers)
                  else []
              | _, _ => []
              end) supporting_types.

(** *** Scoring methods *)

Definition _score_risk (claim claim_type : string) : float :=
  let risk := 0.3%float in
  let claim_lower := Str.lower claim in
  let risk :=
    if String.eqb claim_type "question" then (risk + 0.10)%float
    else if String.eqb claim_type "numerical_claim" then (risk + 0.20)%float
    else if String.eqb claim_type "action_claim" then (risk + 0.15)%float
    else risk in
  let risk := if any_in EMERGENCY_WORDS claim_lower then (risk + 0.25)%float else risk in
  let risk :=
    if is_match (search (Seqs [digit; digit; digit; Star digit]) claim)
    then (risk + 0.15)%float else risk in
  let risk := if (240 <? Str.len claim)%nat then (risk - 0.05)%float else risk in
  let risk :=
    if nonempty (_extract_quantitative_elements claim)
    then (risk + 0.10)%float else risk in
  Flt.max 0.1 (Flt.min 1.0 risk).

Definition _score_confidence (claim_type : string) (risk : float)
  (entity_count : nat) : float :=
  let base := if negb (String.eqb claim_type "narrative_claim") then 0.55%float else 0.4%float in
  let base := (base + 0.08 * Flt.of_nat (Nat.min entity_count 3))%float in
  let base := (base + 0.10 * (risk - 0.3))%float in
  Flt.max 0.35 (Flt.min 0.85 base).

(** *** [detect] *)

Definition detect (claim : string) : Exn.result DetectionResult :=
  let clean_claim := Str.strip (Str.or_else claim "") in
  if (Str.len clean_claim <? 8)%nat
  then Exn.Raise (Exn.ValueError "Claim must be at least 8 characters long")
  else
    let claim_lower := Str.lower clean_claim in
    let claim_type := _classify_claim claim_lower in
    let domain := _detect_domain claim_lower in
    let entities := _extract_entities clean_claim in
    let keywords := _extract_keywords claim_lower in
    let structured := _build_structured_claim clean_claim entities in
    let queries := _generate_search_queries clean_claim structured entities domain in
    let risk := _score_risk clean_claim claim_type in
    let confidence := _score_confidence claim_type risk (length entities) in
    let complexity := _assess_claim_complexity clean_claim in
    let supporting_types := _identify_supporting_evidence_types claim_lower in
    let temporal_indicators := _extract_temporal_indicators claim_lower in
    let quantitative_elements := _extract_quantitative_elements clean_claim in
    let evidence_bonus :=
      _calculate_evidence_confidence supporting_types temporal_indicators in
    let adjusted_confidence := Flt.min 0.95 (confidence + evidence_bonus)%float in
    let contextual_queries :=
      _generate_contextual_search_queries structured supporting_types in
    let all_queries :=
      firstn 8 (_deduplicate_queries (queries ++ contextual_queries)) in
    Exn.Ok {| claim := clean_claim;
              domain := domain;
              claim_type := claim_type;
              entities := entities;
              keywords := keywords;
              structured_claim := structured;
              search_queries := all_queries;
              risk_score := risk;
              confidence := adjusted_confidence;
              claim_complexity := complexity;
              supporting_evidence_types := supporting_types;
              temporal_indicators := temporal_indicators;
              quantitative_elements := quantitative_elements |}.

End Methods.

End Detector.

(* ===================================================================== *)
(** ** Calls to the external collaborators *)
(* ===================================================================== *)

Module Eff.

(** A call that leaves the process: the similarity search over the
    historical corpus, the feed reader, the reasoning service.  The prompt
    sent to the reasoning service is a fixed template around the claim and
    the evidence digest, and the call is recorded by these two. *)
Inductive call : Type :=
| SimilaritySearch (query : string) (k : nat)
| FetchRecent (days max_per_feed : nat)
| ChatCompletion (claim evidence_text : string).

Definition is_reasoning_call (c : call) : bool :=
  match c with ChatCompletion _ _ => true | _ => false end.

(** A computation that may raise and that appends the calls it makes to
    the record of calls made so far. *)
Definition M (A : Type) : Type := list call -> Exn.result A * list call.

Definition ret {A : Type} (a : A) : M A := fun calls => (Exn.Ok a, calls).

Definition raise {A : Type} (e : Exn.exn) : M A := fun calls => (Exn.Raise e, calls).

Definition bind {A B : Type} (m : M A) (f : A -> M B) : M B :=
  fun calls =>
    match m calls with
    | (Exn.Ok a, calls') => f a calls'
    | (Exn.Raise e, calls') => (Exn.Raise e, calls')
    end.

(** [try: m  except Exception as e: h e] *)
Definition try_except {A : Type} (m : M A) (h : Exn.exn -> M A) : M A :=
  fun calls =>
    match m calls with
    | (Exn.Ok a, calls') => (Exn.Ok a, calls')
    | (Exn.Raise e, calls') => h e calls'
    end.

(** Make the call [c], whose outcome is [r]. *)
Definition perform {A : Type} (c : call) (r : Exn.result A) : M A :=
  fun calls => (r, calls ++ [c]).

Definition lift {A : Type} (r : Exn.result A) : M A := fun calls => (r, calls).

(** Run from an empty record. *)
Definition run {A : Type} (m : M A) : Exn.result A * list call := m [].

End Eff.

Declare Scope eff_scope.
Delimit Scope eff_scope with eff.
Notation "x <- m ;; k" := (Eff.bind m (fun x => k))
  (at level 100, m at next level, right associativity) : eff_scope.

(* ===================================================================== *)
(** ** The verifier agent ([src/agents/verifier_agent.py]) *)
(* ===================================================================== *)

Module Verifier.

Import Re.

Inductive Stance : Type := support | refute | neutral.
Inductive Origin : Type := dataset | rss.

Record EvidenceItem : Type := {
  title : string;
  url : string;
  summary : string;
  stance : Stance;
  published : option string;
  source_domain : option string;
  origin : Origin
}.

Record VerificationResult : Type := {
  claim : string;
  verdict : string;
  confidence : float;
  rationale : string;
  evidence : list EvidenceItem
}.

(** A retrieved document: its text and a metadata dict with string values. *)
Record Document : Type := {
  page_content : string;
  metadata : gmap string string
}.

(** The collaborators of the module:
    [faiss_manager.vectorstore.similarity_search_with_score(query, k)],
    [rss_parser.fetch_recent(days, max_per_feed)], and [groq_client], which
    is [None] without an API key and otherwise answers a request with the
    text [resp.choices[0].message.content] or raises.  A similarity score
    is taken as a double. *)
Record Collaborators : Type := {
  similarity_search_with_score :
    string -> nat -> Exn.result (list (Document * float));
  fetch_recent : nat -> nat -> Exn.result (list Document);
  groq_client : option (string -> string -> Exn.result string)
}.

(** [d.get(key, default)] and [d.get(key)] *)
Definition get_or (d : gmap string string) (key default : string) : string :=
  match d !! key with Some v => v | None => default end.

(** [a or b] on optional strings *)
Definition or_opt (a b : option string) : option string :=
  match a with
  | Some s => if Str.truthy s then a else b
  | None => b
  end.

(** [a or d] for an optional string [a] and a string [d] *)
Definition opt_or (a : option string) (d : string) : string :=
  match a with
  | Some s => Str.or_else s d
  | None => d
  end.

(** [url.split("/")[2]], which raises IndexError on fewer than three
    pieces. *)
Definition third_piece (url : string) : Exn.result string :=
  match nth_error (Str.split_on "/" url) 2 with
  | Some piece => Exn.Ok piece
  | None => Exn.Raise (Exn.IndexError "list index out of range")
  end.

Definition newline : string := String (Str.chr 10) EmptyString.

(** [str(n)] for a natural number *)
Definition str_of_nat (n : nat) : string :=
  DecimalString.NilEmpty.string_of_uint (Nat.to_uint n).

Section Agent.

Variable env : Collaborators.

(** The body of [for doc, score in results] under the [try] of one query:
    an exception leaves the loop with the state reached so far. *)
Fixpoint add_results (results : list (Document * float))
  (seen : gset string) (evidence : list EvidenceItem)
  : gset string * list EvidenceItem :=
  match results with
  | [] => (seen, evidence)
  | (doc, score) :: rest =>
      let url := get_or (metadata doc) "url" "" in
      let title := get_or (metadata doc) "title" "" in
      let key := Str.or_else url title in
      if bool_decide (key ∈ seen) || (0.90 <? score)%float
      then add_results rest seen evidence
      else
        let seen := {[ key ]} ∪ seen in
        match (if Str.truthy url
               then Exn.rbind (third_piece url) (fun p => Exn.Ok (Some p))
               else Exn.Ok None) with
        | Exn.Raise _ => (seen, evidence)
        | Exn.Ok domain =>
            add_results rest seen
              (evidence ++
               [{| title := title;
                   url := url;
                   summary := Str.take 1800 (page_content doc);
                   stance := neutral;
                   published := or_opt (metadata doc !! "published")
                                       (metadata doc !! "date");
                   source_domain := domain;
                   origin := dataset |}])
        end
  end.

(** [for query in all_queries: try: ... except Exception: log] *)
Fixpoint search_all (queries : list string)
  (seen : gset string) (evidence : list EvidenceItem)
  : Eff.M (gset string * list EvidenceItem) :=
  match queries with
  | [] => Eff.ret (seen, evidence)
  | query :: rest =>
      (st <- Eff.try_except
               (results <- Eff.perform (Eff.SimilaritySearch query 50)
                             (similarity_search_with_score env query 50) ;;
                Eff.ret (add_results results seen evidence))
               (fun _ => Eff.ret (seen, evidence)) ;;
       search_all rest (fst st) (snd st))%eff
  end.

Fixpoint add_feed (docs : list Document)
  (seen : gset string) (evidence : list EvidenceItem) : list EvidenceItem :=
  match docs with
  | [] => evidence
  | doc :: rest =>
      let url := get_or (metadata doc) "url" "" in
      if bool_decide (url ∈ seen)
      then add_feed rest seen evidence
      else
        add_feed rest ({[ url ]} ∪ seen)
          (evidence ++
           [{| title := get_or (metadata doc) "title" "News";
               url := url;
               summary := Str.take 1800 (page_content doc);
               stance := neutral;
               published := metadata doc !! "published";
               source_domain := None;
               origin := rss |}])
  end.

(** The numbered block of one evidence item; [i] counts from zero. *)
Definition evidence_block (i : nat) (e : EvidenceItem) : string :=
  "[" +:+ str_of_nat (i + 1) +:+ "] "
  +:+ opt_or (source_domain e) "News"
  +:+ " | " +:+ opt_or (published e) "Recent" +:+ newline
  +:+ title e +:+ newline
  +:+ Str.strip (Str.take 1100 (summary e)).

Fixpoint enumerate_from {A : Type} (i : nat) (l : list A) : list (nat * A) :=
  match l with
  | [] => []
  | x :: l' => (i, x) :: enumerate_from (S i) l'
  end.

Definition evidence_digest (evidence : list EvidenceItem) : string :=
  if Detector.nonempty evidence
  then Str.join (newline +:+ newline)
         (map (fun ie => evidence_block (fst ie) (snd ie))
              (enumerate_from 0 (firstn 20 evidence)))
  else "No credible sources found.".

(** [VERDICT:\s*(TRUE|FALSE|MIXED)] under [re.I],
    [CONFIDENCE:\s*([0-9]*\.?[0-9]+)] and [REASON:\s*(.+)] under
    [re.DOTALL]. *)
Definition verdict_re : regex :=
  Seqs [LitI "VERDICT:"; Star space;
        Group (Alts [LitI "TRUE"; LitI "FALSE"; LitI "MIXED"])].
Definition number_re : regex :=
  Seqs [Star digit; Opt (Chr "."); Plus digit].
Definition confidence_re : regex :=
  Seqs [Lit "CONFIDENCE:"; Star space; Group number_re].
Definition reason_re : regex :=
  Seqs [Lit "REASON:"; Star space; Group (Plus AnyChar)].

(** The three assignments that read the answer of the reasoning service;
    they run under the [try] of the request. *)
Definition parse_output (output : string)
  : Exn.result (string * float * string) :=
  let v := search verdict_re output in
  let c := search confidence_re output in
  let r := search reason_re output in
  let verdict :=
    match v with Some m => Str.lower (group1 output m) | None => "unverified" end in
  Exn.rbind
    (match c with Some m => Flt.of_str (group1 output m) | None => Exn.Ok 0.5%float end)
    (fun confidence =>
       let reason :=
         match r with Some m => Str.strip (group1 output m) | None => "Analysis completed" end in
       Exn.Ok (verdict, confidence, reason)).

Definition extra_queries (claim claim_lower : string) : list string :=
  (if Detector.any_in ["delhi"; "up"; "uttar pradesh"; "maharashtra"; "bihar";
                       "tamil nadu"; "kerala"; "gujarat"; "rajasthan"] claim_lower
   then [claim +:+ " school holiday calendar 2025-26";
         claim +:+ " education department circular"]
   else [])
  ++ (if Str.contains "cbse" claim_lower
      then ["CBSE official circular"; "CBSE datesheet 2026"; "cbseacademic.nic.in"]
      else [])
  ++ (if Str.contains "up board" claim_lower || Str.contains "upmsp" claim_lower
      then ["UP Board official announcement 2025-26"]
      else [])
  ++ (if Str.contains "neet" claim_lower || Str.contains "jee" claim_lower
      then ["NTA official notification"]
      else []).

(** The queries, the search loop and the feed loop: the evidence list at
    the point where the digest is built.  Neither loop lets an exception
    out. *)
Definition collect_evidence (claim : string) : Eff.M (list EvidenceItem) :=
  let base_queries :=
    [claim; claim +:+ " official"; claim +:+ " government announcement";
     claim +:+ " 2025"; claim +:+ " latest update"] in
  let claim_lower := Str.lower claim in
  let all_queries := base_queries ++ extra_queries claim claim_lower in
  (st <- search_all all_queries ∅ [] ;;
   Eff.try_except
     (docs <- Eff.perform (Eff.FetchRecent 120 30) (fetch_recent env 120 30) ;;
      Eff.ret (add_feed docs (fst st) (snd st)))
     (fun _ => Eff.ret (snd st)))%eff.

(** [if not groq_client: ... else: try: ... except Exception: ...]: the
    verdict, the confidence before rounding, and the reason. *)
Definition judge (claim evidence_text : string) : Eff.M (string * float * string) :=
  match groq_client env with
  | None => Eff.ret ("unverified", 0.3%float, "Verification service unavailable")
  | Some create =>
      Eff.try_except
        (content <- Eff.perform (Eff.ChatCompletion claim evidence_text)
                      (create claim evidence_text) ;;
         Eff.lift (parse_output (Str.strip content)))%eff
        (fun _ => Eff.ret ("unverified", 0.3%float, "Service error"))
  end.

(** [VerifierAgent.verify_claim(self, claim)] *)
Definition verify_claim (claim : string) : Eff.M VerificationResult :=
  (evidence <- collect_evidence claim ;;
   let evidence_text := evidence_digest evidence in
   answer <- judge claim evidence_text ;;
   let '(verdict, confidence, reason) := answer in
   Eff.ret {| claim := claim;
              verdict := verdict;
              confidence := Flt.round3 confidence;
              rationale := reason;
              evidence := firstn 20 evidence |})%eff.

(** The evidence digest that a run from an empty record of calls hands
    to the reasoning service. *)
Definition digest_of (claim : string) : string :=
  match fst (Eff.run (collect_evidence claim)) with
  | Exn.Ok evidence => evidence_digest evidence
  | Exn.Raise _ => evidence_digest []
  end.

End Agent.

End Verifier.

(* ===================================================================== *)
(** ** The call protocol: binding arguments to parameters *)
(* ===================================================================== *)

Module Call.

(** A method as its callers see it: its qualified name and the names of
    its parameters after [self]; it takes neither [*args] nor [**kwargs]
    and has no defaults. *)
Record signature : Type := {
  qualname : string;
  params : list string
}.

Definition quote (s : string) : string := "'" +:+ s +:+ "'".

Definition plural (n : nat) : string := if (n =? 1)%nat then "" else "s".

(** ['a'], ['a' and 'b'], ['a', 'b', and 'c'] *)
Definition name_list (names : list string) : string :=
  match rev names with
  | [] => ""
  | [a] => quote a
  | [b; a] => quote a +:+ " and " +:+ quote b
  | z :: others => Str.join ", " (map quote (rev others)) +:+ ", and " +:+ quote z
  end.

(** The keyword arguments are taken in turn: each must name a parameter,
    and one that no positional argument has filled. *)
Fixpoint check_keywords (sig : signature) (n : nat) (keywords : list string)
  : Exn.result unit :=
  match keywords with
  | [] => Exn.Ok tt
  | kw :: rest =>
      if negb (Detector.mem kw (params sig))
      then Exn.Raise (Exn.TypeError
             (qualname sig +:+ "() got an unexpected keyword argument " +:+ quote kw))
      else if Detector.mem kw (firstn n (params sig))
      then Exn.Raise (Exn.TypeError
             (qualname sig +:+ "() got multiple values for argument " +:+ quote kw))
      else check_keywords sig n rest
  end.

(** What Python checks before the body of the method runs, for a call
    with [n] positional arguments after [self] and the keyword arguments
    [keywords]: the keywords, then that no positional argument is left
    over, then that every parameter is filled. *)
Definition bind_arguments (sig : signature) (n : nat) (keywords : list string)
  : Exn.result unit :=
  Exn.rbind (check_keywords sig n keywords) (fun _ =>
    if (length (params sig) <? n)%nat
    then Exn.Raise (Exn.TypeError
           (qualname sig +:+ "() takes " +:+ Verifier.str_of_nat (S (length (params sig)))
            +:+ " positional argument" +:+ plural (S (length (params sig)))
            +:+ " but " +:+ Verifier.str_of_nat (S n) +:+ " were given"))
    else
      match filter (fun p => negb (Detector.mem p keywords)) (skipn n (params sig)) with
      | [] => Exn.Ok tt
      | missing =>
          Exn.Raise (Exn.TypeError
            (qualname sig +:+ "() missing " +:+ Verifier.str_of_nat (length missing)
             +:+ " required positional argument" +:+ plural (length missing)
             +:+ ": " +:+ name_list missing))
      end).

(** The call itself: the body runs only when the arguments bind. *)
Definition call {A : Type} (sig : signature) (n : nat) (keywords : list string)
  (body : Eff.M A) : Eff.M A :=
  (_ <- Eff.lift (bind_arguments sig n keywords) ;; body)%eff.

End Call.

(* ===================================================================== *)
(** ** Workflow state ([src/graph/state.py]) and workflow
       ([src/graph/workflow.py]) *)
(* ===================================================================== *)

Module Workflow.

(** A message of the log: a dict with the keys [role] and [content]. *)
Record Message : Type := {
  role : string;
  content : string
}.

(** [VerificationState]; [evidence_analysis] is never set by the code. *)
Record VerificationState : Type := {
  claim : string;
  user_id : option string;
  detection_result : option Detector.DetectionResult;
  verification_result : option Verifier.VerificationResult;
  should_continue : bool;
  next_node : option string;
  messages : list Message;
  verification_id : option string;
  timestamp : option string;
  search_queries : option (list string);
  retrieved_evidence : option (list Verifier.EvidenceItem);
  evidence_analysis : option (gmap string string)
}.

(** [{**state, "detection_result": ..., "search_queries": ...}] *)
Definition set_detection_result (state : VerificationState)
  (detection_result : Detector.DetectionResult) : VerificationState :=
  {| claim := claim state;
     user_id := user_id state;
     detection_result := Some detection_result;
     verification_result := verification_result state;
     should_continue := should_continue state;
     next_node := next_node state;
     messages := messages state;
     verification_id := verification_id state;
     timestamp := timestamp state;
     search_queries := Some (Detector.search_queries detection_result);
     retrieved_evidence := retrieved_evidence state;
     evidence_analysis := evidence_analysis state |}.

Definition set_verification_result (state : VerificationState)
  (verification_result : Verifier.VerificationResult) : VerificationState :=
  {| claim := claim state;
     user_id := user_id state;
     detection_result := detection_result state;
     verification_result := Some verification_result;
     should_continue := should_continue state;
     next_node := next_node state;
     messages := messages state;
     verification_id := verification_id state;
     timestamp := timestamp state;
     search_queries := search_queries state;
     retrieved_evidence := retrieved_evidence state;
     evidence_analysis := evidence_analysis state |}.

Definition should_continue_execution (state : VerificationState) : bool :=
  should_continue state.

(** The state returned by the [except] branch of a node and of the
    workflow: [{**state, "should_continue": False,
    "verification_result": None, "messages": state["messages"] + [msg]}]. *)
Definition failed (state : VerificationState) (text : string) : VerificationState :=
  {| claim := claim state;
     user_id := user_id state;
     detection_result := detection_result state;
     verification_result := None;
     should_continue := false;
     next_node := next_node state;
     messages := messages state ++ [{| role := "system"; content := text |}];
     verification_id := verification_id state;
     timestamp := timestamp state;
     search_queries := search_queries state;
     retrieved_evidence := retrieved_evidence state;
     evidence_analysis := evidence_analysis state |}.

(** The state returned by the [try] branch of node [detect]:
    [{**updated_state, "should_continue": True, "next_node": "verify"}]. *)
Definition detected (state : VerificationState)
  (detection_result : Detector.DetectionResult) : VerificationState :=
  let updated_state := set_detection_result state detection_result in
  {| claim := claim updated_state;
     user_id := user_id updated_state;
     detection_result := Workflow.detection_result updated_state;
     verification_result := verification_result updated_state;
     should_continue := true;
     next_node := Some "verify";
     messages := messages updated_state;
     verification_id := verification_id updated_state;
     timestamp := timestamp updated_state;
     search_queries := search_queries updated_state;
     retrieved_evidence := retrieved_evidence updated_state;
     evidence_analysis := evidence_analysis updated_state |}.

(** The state returned by the [try] branch of node [verify]:
    [{**updated_state, "should_continue": False,
    "retrieved_evidence": verification_result.evidence}]. *)
Definition verified (state : VerificationState)
  (verification_result : Verifier.VerificationResult) : VerificationState :=
  let updated_state := set_verification_result state verification_result in
  {| claim := claim updated_state;
     user_id := user_id updated_state;
     detection_result := detection_result updated_state;
     verification_result := Workflow.verification_result updated_state;
     should_continue := false;
     next_node := next_node updated_state;
     messages := messages updated_state;
     verification_id := verification_id updated_state;
     timestamp := timestamp updated_state;
     search_queries := search_queries updated_state;
     retrieved_evidence := Some (Verifier.evidence verification_result);
     evidence_analysis := evidence_analysis updated_state |}.

(** The signature of [VerifierAgent.verify_claim(self, claim)]. *)
Definition verify_claim_signature : Call.signature :=
  {| Call.qualname := "VerifierAgent.verify_claim"; Call.params := ["claim"] |}.

Section Nodes.

Variable iter_set : list string -> list string.
Variable env : Verifier.Collaborators.

(** Node [detect]. *)
Definition detect_claim (state : VerificationState) : Eff.M VerificationState :=
  let claim := claim state in
  Eff.try_except
    (detection_result <- Eff.lift (Detector.detect iter_set claim) ;;
     Eff.ret (detected state detection_result))%eff
    (fun e => Eff.ret (failed state ("Detection failed with error: " +:+ Exn.str e))).

(** Node [verify]: the agent is called with the claim as its one
    positional argument and with the keyword argument [detection]. *)
Definition verify_claim (state : VerificationState) : Eff.M VerificationState :=
  let detection_result := detection_result state in
  Eff.try_except
    (verification_result <-
       Call.call verify_claim_signature 1 ["detection"]
         (Verifier.verify_claim env (claim state)) ;;
     Eff.ret (verified state verification_result))%eff
    (fun e => Eff.ret (failed state ("Verification failed with error: " +:+ Exn.str e))).

(** The conditional edge after [detect]. *)
Definition should_verify (state : VerificationState) : string :=
  match detection_result state with
  | None => "detect"
  | Some _ => "verify"
  end.

(** *** The state graph

    The graph library is the program's runtime.  A compiled graph runs
    the entry node on the input state; after a node it follows the node's
    conditional edge (the router's answer looked up in the edge's table) or
    its plain edge; it returns the state when it reaches [END], and raises
    GraphRecursionError when [recursion_limit] nodes have run without
    reaching it.  Every key of the state holds the last value written, so
    a node that returns a whole state replaces the state. *)
Definition END : string := "__end__".

Record StateGraph : Type := {
  nodes : list (string * (VerificationState -> Eff.M VerificationState));
  entry_point : string;
  conditional_edges :
    list (string * ((VerificationState -> string) * list (string * string)));
  edges : list (string * string)
}.

Definition create_verification_workflow : StateGraph :=
  {| nodes := [("detect", detect_claim); ("verify", verify_claim)];
     entry_point := "detect";
     conditional_edges :=
       [("detect", (should_verify, [("detect", "detect"); ("verify", "verify")]))];
     edges := [("verify", END)] |}.

(** Where the graph goes after node [name] has returned [state]. *)
Definition successor (g : StateGraph) (name : string) (state : VerificationState)
  : Exn.result string :=
  match Detector.lookup_str name (conditional_edges g) with
  | Some (router, table) =>
      match Detector.lookup_str (router state) table with
      | Some target => Exn.Ok target
      | None => Exn.Raise (Exn.KeyError (Call.quote (router state)))
      end
  | None =>
      match Detector.lookup_str name (edges g) with
      | Some target => Exn.Ok target
      | None => Exn.Ok END
      end
  end.

Definition recursion_error (limit : nat) : Exn.exn :=
  Exn.GraphRecursionError
    ("Recursion limit of " +:+ Verifier.str_of_nat limit
     +:+ " reached without hitting a stop condition. You can increase the limit by setting the `recursion_limit` config key.").

(** [steps] nodes may still run; [limit] is the configured limit. *)
Fixpoint run_from (g : StateGraph) (limit steps : nat) (name : string)
  (state : VerificationState) {struct steps} : Eff.M VerificationState :=
  match steps with
  | O => Eff.raise (recursion_error limit)
  | S steps' =>
      match Detector.lookup_str name (nodes g) with
      | None => Eff.raise (Exn.KeyError (Call.quote name))
      | Some node =>
          (state' <- node state ;;
           target <- Eff.lift (successor g name state') ;;
           if String.eqb target END
           then Eff.ret state'
           else run_from g limit steps' target state')%eff
      end
  end.

(** [graph.invoke(state)] under the configuration [recursion_limit]. *)
Definition invoke_with (recursion_limit : nat) (g : StateGraph)
  (state : VerificationState) : Eff.M VerificationState :=
  run_from g recursion_limit recursion_limit (entry_point g) state.

(** The limit of a call that passes no configuration. *)
Definition default_recursion_limit : nat := 25.

Definition invoke (g : StateGraph) (state : VerificationState)
  : Eff.M VerificationState :=
  invoke_with default_recursion_limit g state.

Definition initial_state (claim : string) (user_id verification_id : option string)
  : VerificationState :=
  {| claim := claim;
     user_id := user_id;
     detection_result := None;
     verification_result := None;
     should_continue := true;
     next_node := None;
     messages := [];
     verification_id := verification_id;
     timestamp := None;
     search_queries := None;
     retrieved_evidence := None;
     evidence_analysis := None |}.

(** [run_verification_workflow], with the recursion limit of the graph
    made explicit. *)
Definition run_verification_workflow_with (recursion_limit : nat)
  (claim : string) (user_id verification_id : option string)
  : Eff.M VerificationState :=
  let initial_state := initial_state claim user_id verification_id in
  let verification_graph := create_verification_workflow in
  Eff.try_except
    (invoke_with recursion_limit verification_graph initial_state)
    (fun e => Eff.ret (failed initial_state
                         ("Workflow execution failed with error: " +:+ Exn.str e))).

Definition run_verification_workflow (claim : string)
  (user_id verification_id : option string) : Eff.M VerificationState :=
  run_verification_workflow_with default_recursion_limit claim user_id verification_id.

End Nodes.

(** [extract_verification_result], [is_verification_successful] and
    [get_workflow_messages] *)
Definition extract_verification_result (state : VerificationState)
  : option Verifier.VerificationResult := verification_result state.

Definition is_verification_successful (state : VerificationState) : bool :=
  match verification_result state with Some _ => true | None => false end.

Definition get_workflow_messages (state : VerificationState) : list Message :=
  messages state.

End Workflow.

(* ===================================================================== *)
(** ** Sample inputs *)
(* ===================================================================== *)

Module Sample.

(** A set that is iterated in the order of insertion. *)
Definition insertion_order (l : list string) : list string := l.

(** Collaborators that are all out of reach. *)
Definition offline : Verifier.Collaborators :=
  {| Verifier.similarity_search_with_score := fun _ _ => Exn.Raise (Exn.External "unreachable");
     Verifier.fetch_recent := fun _ _ => Exn.Raise (Exn.External "unreachable");
     Verifier.groq_client := None |}.

(** A reasoning service that answers every request with [text]; no
    retrieval source is reachable. *)
Definition answering (text : string) : Verifier.Collaborators :=
  {| Verifier.similarity_search_with_score := fun _ _ => Exn.Raise (Exn.External "unreachable");
     Verifier.fetch_recent := fun _ _ => Exn.Raise (Exn.External "unreachable");
     Verifier.groq_client := Some (fun _ _ => Exn.Ok text) |}.

Definition airport_claim : string := "Is the airport in Delhi really closed?".
Definition schools_claim : string := "All schools in Delhi have been closed for the next two weeks.".
Definition pets_claim : string := "Cats and dogs are friends".

End Sample.

(* ===================================================================== *)
(** ** The complexity rule in the words of the specification *)
(* ===================================================================== *)

Module Specified.

(** "simple exactly when word_count <= 15 and entity_count <= 2 and the
    claim has no multi-clause signal, no conjunction and no quantitative
    element; moderate exactly when it is not simple and word_count <= 40,
    entity_count <= 4 and there is no conjunction; otherwise complex". *)
Definition complexity (word_count entity_count : nat)
  (multi_clause conjunction quantitative : bool) : string :=
  if (word_count <=? 15)%nat && (entity_count <=? 2)%nat
     && negb multi_clause && negb conjunction && negb quantitative
  then "simple"
  else if (word_count <=? 40)%nat && (entity_count <=? 4)%nat && negb conjunction
  then "moderate"
  else "complex".

End Specified.

(* ===================================================================== *)
(** ** The scores as functions of the tests they depend on *)
(* ===================================================================== *)

Module Table.

(** [_score_risk] reads the claim through seven tests, [_score_confidence]
    through one test and a count of at most three, and
    [_calculate_evidence_confidence] through five tests and the number of
    evidence types.  The functions below are the three methods with the
    outcomes of these tests as arguments; every combination of outcomes
    can then be evaluated. *)
Definition risk (question numerical action emergency large long quantitative : bool)
  : float :=
  let risk := 0.3%float in
  let risk :=
    if question then (risk + 0.10)%float
    else if numerical then (risk + 0.20)%float
    else if action then (risk + 0.15)%float
    else risk in
  let risk := if emergency then (risk + 0.25)%float else risk in
  let risk := if large then (risk + 0.15)%float else risk in
  let risk := if long then (risk - 0.05)%float else risk in
  let risk := if quantitative then (risk + 0.10)%float else risk in
  Flt.max 0.1 (Flt.min 1.0 risk).

Definition base_confidence (narrative : bool) (risk : float) (entities : nat) : float :=
  let base := if negb narrative then 0.55%float else 0.4%float in
  let base := (base + 0.08 * Flt.of_nat entities)%float in
  let base := (base + 0.10 * (risk - 0.3))%float in
  Flt.max 0.35 (Flt.min 0.85 base).

Definition bonus (official statistical expert : bool) (types : nat)
  (immediate short_term : bool) : float :=
  let confidence_bonus := 0%float in
  let confidence_bonus :=
    if official then (confidence_bonus + 0.15)%float
    else if statistical then (confidence_bonus + 0.10)%float
    else if expert then (confidence_bonus + 0.08)%float
    else confidence_bonus in
  let confidence_bonus :=
    if (1 <? types)%nat
    then (confidence_bonus + 0.05 * Flt.of_Z (Z.of_nat types - 1))%float
    else confidence_bonus in
  let confidence_bonus :=
    if immediate then (confidence_bonus + 0.08)%float
    else if short_term then (confidence_bonus + 0.04)%float
    else confidence_bonus in
  Flt.min 0.25 confidence_bonus.

(** The bounds on the two scores of a detection result. *)
Definition bounded (question numerical action emergency large long quantitative
                    narrative : bool) (entities : nat)
  (official statistical expert : bool) (types : nat) (immediate short_term : bool)
  : bool :=
  let r := risk question numerical action emergency large long quantitative in
  let c := base_confidence narrative r entities in
  let b := bonus official statistical expert types immediate short_term in
  Flt.within 0.1 1.0 r && Flt.within 0.35 0.95 (Flt.min 0.95 (c + b)%float).

Definition all_bool (f : bool -> bool) : bool := f true && f false.
Definition all_upto3 (f : nat -> bool) : bool := f 0%nat && f 1%nat && f 2%nat && f 3%nat.

End Table.

(* ===================================================================== *)
(** ** Evidence items and further sample collaborators *)
(* ===================================================================== *)

Module Evidence.

(** The key under which [verify_claim] records an item in [seen]: [url or
    title] for an item of the similarity search, [url] for an item of the
    feed. *)
Definition key (e : Verifier.EvidenceItem) : string :=
  match Verifier.origin e with
  | Verifier.dataset => Str.or_else (Verifier.url e) (Verifier.title e)
  | Verifier.rss => Verifier.url e
  end.

(** The queries of [verify_claim], in the order in which they are issued. *)
Definition all_queries (claim : string) : list string :=
  [claim; claim +:+ " official"; claim +:+ " government announcement";
   claim +:+ " 2025"; claim +:+ " latest update"]
  ++ Verifier.extra_queries claim (Str.lower claim).

(** A reasoning service that raises on every request; no retrieval source
    is reachable. *)
Definition failing : Verifier.Collaborators :=
  {| Verifier.similarity_search_with_score := fun _ _ => Exn.Raise (Exn.External "unreachable");
     Verifier.fetch_recent := fun _ _ => Exn.Raise (Exn.External "unreachable");
     Verifier.groq_client := Some (fun _ _ => Exn.Raise (Exn.External "timeout")) |}.

(** The keys of the items collected so far are distinct and all recorded
    in [seen]: the invariant of the loops of [verify_claim]. *)
Definition keys_recorded (seen : gset string) (evidence : list Verifier.EvidenceItem)
  : Prop :=
  List.NoDup (map key evidence)
  /\ forall e, In e evidence -> key e ∈ seen.

(** The shape in which [verify_claim] builds every item: the stance is
    neutral, the summary has at most 1800 characters, and the source domain
    is the third piece of [url.split("/")] for an item of the similarity
    search that has a url, and absent otherwise. *)
Definition as_built (e : Verifier.EvidenceItem) : Prop :=
  Verifier.stance e = Verifier.neutral
  /\ Str.len (Verifier.summary e) <= 1800
  /\ match Verifier.origin e with
     | Verifier.rss => Verifier.source_domain e = None
     | Verifier.dataset =>
         if Str.truthy (Verifier.url e)
         then exists piece,
                Verifier.third_piece (Verifier.url e) = Exn.Ok piece
                /\ Verifier.source_domain e = Some piece
         else Verifier.source_domain e = None
     end.

(** The calls [verify_claim] makes to its retrieval sources. *)
Definition retrieval_calls (claim : string) : list Eff.call :=
  map (fun q => Eff.SimilaritySearch q 50) (all_queries claim)
  ++ [Eff.FetchRecent 120 30].

End Evidence.

(* ===================================================================== *)
(** ** Order of the entities *)
(* ===================================================================== *)

Module Entities.

(** The order in which [sorted_entities.sort(key=lambda x: x[0])] leaves
    two pairs. *)
Definition by_index (a b : nat * string) : Prop := fst a <= fst b.

End Entities.

(* ===================================================================== *)
(** ** Exceptions outside the detector and the verifier *)
(* ===================================================================== *)

Module Raised.

(** AttributeError is raised by reading an attribute that the object does
    not have; the other exceptions are those of [Exn]. *)
Inductive exn : Type :=
| AttributeError (msg : string)
| Builtin (e : Exn.exn).

Inductive result (A : Type) : Type :=
| Ok (a : A)
| Raise (e : exn).

Arguments Ok {A} a.
Arguments Raise {A} e.

Definition rbind {A B : Type} (r : result A) (f : A -> result B) : result B :=
  match r with
  | Ok a => f a
  | Raise e => Raise e
  end.

(** The values of the [Literal] fields, as the strings the code compares
    them with. *)
Definition origin_name (o : Verifier.Origin) : string :=
  match o with Verifier.dataset => "dataset" | Verifier.rss => "rss" end.

Definition stance_name (s : Verifier.Stance) : string :=
  match s with
  | Verifier.support => "support"
  | Verifier.refute => "refute"
  | Verifier.neutral => "neutral"
  end.

(** [sum(1 for e in l if test(e))] and [len([e for e in l if test(e)])] *)
Definition count {A : Type} (test : A -> bool) (l : list A) : nat :=
  length (List.filter test l).

End Raised.

(* ===================================================================== *)
(** ** The explainer ([src/agents/explainer_agent.py]) *)
(* ===================================================================== *)

Module Explainer.

Record ExplanationResult : Type := {
  verdict : string;
  explanation : string;
  key_points : list string;
  sources_summary : string;
  confidence_note : string
}.

Definition _build_explanation (verification : Verifier.VerificationResult)
  (detection : option Detector.DetectionResult) : string :=
  let verdict := Verifier.verdict verification in
  if String.eqb verdict "true"
  then "This claim is correct according to verified sources."
  else if String.eqb verdict "false"
  then "This claim is false. Verified sources show no evidence supporting it."
  else "No reliable information found; be cautious.".

(** [[e.source or e.title for e in evidence if e.origin == "rss" and
    e.reliable]].  An [EvidenceItem] has neither the attribute [reliable]
    nor [source]: the test reads [e.reliable] for the first item whose
    origin is "rss", and raises there. *)
Fixpoint rss_sources (evidence : list Verifier.EvidenceItem)
  : Raised.result (list string) :=
  match evidence with
  | [] => Raised.Ok []
  | e :: rest =>
      if String.eqb (Raised.origin_name (Verifier.origin e)) "rss"
      then Raised.Raise
             (Raised.AttributeError "'EvidenceItem' object has no attribute 'reliable'")
      else rss_sources rest
  end.

Definition origin_is (name : string) (e : Verifier.EvidenceItem) : bool :=
  String.eqb (Raised.origin_name (Verifier.origin e)) name.

Definition _extract_key_points (verification : Verifier.VerificationResult)
  : Raised.result (list string) :=
  let points := [] in
  Raised.rbind (rss_sources (Verifier.evidence verification)) (fun rss_sources =>
    let points :=
      if Detector.nonempty rss_sources
      then points ++ ["Verified sources: " +:+ Str.join ", " rss_sources]
      else points in
    let dataset_count := Raised.count (origin_is "dataset") (Verifier.evidence verification) in
    let rss_count := Raised.count (origin_is "rss") (Verifier.evidence verification) in
    let fact_check_count :=
      Raised.count (origin_is "fact_check") (Verifier.evidence verification) in
    let points :=
      if (0 <? dataset_count)%nat
      then points ++ ["Checked " +:+ Verifier.str_of_nat dataset_count
                      +:+ " historical records"]
      else points in
    let points :=
      if (0 <? rss_count)%nat
      then points ++ ["Reviewed " +:+ Verifier.str_of_nat rss_count
                      +:+ " recent official updates"]
      else points in
    let points :=
      if (0 <? fact_check_count)%nat
      then points ++ ["Examined " +:+ Verifier.str_of_nat fact_check_count
                      +:+ " fact-checking reports"]
      else points in
    Raised.Ok (firstn 4 points)).

Definition _summarize_sources (verification : Verifier.VerificationResult)
  : Raised.result string :=
  Raised.rbind (rss_sources (Verifier.evidence verification)) (fun rss_sources =>
    Raised.Ok
      match rss_sources with
      | [] => "No verified sources available"
      | [a] => "Verified by: " +:+ a
      | [a; b] => "Verified by: " +:+ a +:+ " and " +:+ b
      | _ => "Verified by: " +:+ Str.join ", " (removelast rss_sources)
             +:+ ", and " +:+ List.last rss_sources ""
      end).

Definition _build_confidence_note (confidence : float) : string :=
  if (0.8 <=? confidence)%float
  then "High confidence - multiple reliable sources agree"
  else if (0.6 <=? confidence)%float
  then "Moderate confidence - sources generally agree"
  else if (0.4 <=? confidence)%float
  then "Low confidence - limited evidence available"
  else "Very low confidence - insufficient evidence".

Definition explain (verification : Verifier.VerificationResult)
  (detection : option Detector.DetectionResult) : Raised.result ExplanationResult :=
  let explanation := _build_explanation verification detection in
  Raised.rbind (_extract_key_points verification) (fun key_points =>
  Raised.rbind (_summarize_sources verification) (fun sources_summary =>
    let confidence_note := _build_confidence_note (Verifier.confidence verification) in
    Raised.Ok {| verdict := Verifier.verdict verification;
                 explanation := explanation;
                 key_points := key_points;
                 sources_summary := sources_summary;
                 confidence_note := confidence_note |})).

End Explainer.

(* ===================================================================== *)
(** ** The communicator ([src/agents/communicator_agent.py]) *)
(* ===================================================================== *)

Module Communicator.

Record TailoredExplanation : Type := {
  audience : string;
  explanation : string;
  key_points : list string;
  simple_summary : string;
  confidence_level : string;
  verdict_explanation : string
}.

(** One entry of [audience_strategies]. *)
Record Strategy : Type := {
  tone : string;
  complexity : string;
  confidence_descriptors : list (string * string)
}.

Definition audience_strategies : list (string * Strategy) :=
  [ ("kids",
      {| tone := "simple and friendly"; complexity := "very low";
         confidence_descriptors :=
           [("high", "very sure"); ("medium", "pretty sure");
            ("low", "not completely sure")] |});
    ("elderly",
      {| tone := "clear and respectful"; complexity := "low";
         confidence_descriptors :=
           [("high", "very confident"); ("medium", "reasonably confident");
            ("low", "less certain")] |});
    ("general",
      {| tone := "neutral and factual"; complexity := "moderate";
         confidence_descriptors :=
           [("high", "high confidence"); ("medium", "moderate confidence");
            ("low", "low confidence")] |});
    ("expert",
      {| tone := "precise and technical"; complexity := "high";
         confidence_descriptors :=
           [("high", "high confidence"); ("medium", "moderate confidence");
            ("low", "low confidence")] |}) ].

(** [d.get(key, default)] *)
Definition get (d : list (string * string)) (key default : string) : string :=
  match Detector.lookup_str key d with
  | Some v => v
  | None => default
  end.

Definition _generate_explanation (result : Verifier.VerificationResult)
  (strategy : Strategy) : string :=
  let verdict := Verifier.verdict result in
  let explanations :=
    if String.eqb (complexity strategy) "very low"
    then
      [("true", "This information is true. People checked carefully and found proof that shows this really happened.");
       ("false", "This information is not true. When people looked carefully, they found out that this is wrong.");
       ("unverified", "We don't know yet if this information is true. There isn't enough information to be sure.");
       ("mixed", "Some information says this is true, but other information says it is not true.")]
    else if String.eqb (tone strategy) "clear and respectful"
    then
      [("true", "After careful examination, reliable sources have confirmed that this information is accurate.");
       ("false", "After thorough investigation, reliable sources have determined that this information is incorrect.");
       ("unverified", "There is currently not enough reliable information available to determine whether this information is true or false.");
       ("mixed", "There is conflicting information available, with some sources supporting the claim and others contradicting it.")]
    else if String.eqb (tone strategy) "neutral and factual"
    then
      [("true", "The available evidence supports the claim and confirms its accuracy.");
       ("false", "The available evidence contradicts the claim and shows it to be incorrect.");
       ("unverified", "There is insufficient reliable evidence available to determine whether the claim is true or false.");
       ("mixed", "There is substantial evidence both supporting and contradicting the claim.")]
    else
      [("true", "The verification process has determined that the claim is supported by the available evidence.");
       ("false", "The verification process has determined that the claim is contradicted by the available evidence.");
       ("unverified", "There is insufficient corroborating evidence to establish the veracity of the claim.");
       ("mixed", "The evidence base contains substantial contradictory information regarding the claim.")] in
  let base_explanation :=
    get explanations verdict
        ("The claim has been evaluated and determined to be " +:+ verdict +:+ ".") in
  base_explanation +:+ " " +:+ Verifier.rationale result.

Definition stance_is (name : string) (e : Verifier.EvidenceItem) : bool :=
  String.eqb (Raised.stance_name (Verifier.stance e)) name.

(** ['s' if n > 1 else ''] *)
Definition plural (n : nat) : string := if (1 <? n)%nat then "s" else "".

Definition _generate_key_points (result : Verifier.VerificationResult) : list string :=
  let key_points :=
    ["The claim has been determined to be " +:+ Verifier.verdict result +:+ "."] in
  let supporting_count := Raised.count (stance_is "support") (Verifier.evidence result) in
  let contradicting_count := Raised.count (stance_is "refute") (Verifier.evidence result) in
  if (0 <? supporting_count)%nat
  then
    let evidence_summary :=
      Verifier.str_of_nat supporting_count +:+ " source" +:+ plural supporting_count
      +:+ " support this claim" in
    let evidence_summary :=
      if (0 <? contradicting_count)%nat
      then evidence_summary +:+ " and " +:+ Verifier.str_of_nat contradicting_count
           +:+ " source" +:+ plural contradicting_count +:+ " contradict it"
      else evidence_summary in
    key_points ++ [evidence_summary]
  else if (0 <? contradicting_count)%nat
  then key_points ++ [Verifier.str_of_nat contradicting_count +:+ " source"
                      +:+ plural contradicting_count +:+ " contradict this claim"]
  else key_points ++ ["No conclusive supporting or contradicting evidence was found"].

Definition _generate_simple_summary (result : Verifier.VerificationResult)
  (strategy : Strategy) : string :=
  let summaries :=
    [("true", "The claim has been verified as true.");
     ("false", "The claim has been determined to be false.");
     ("unverified", "There is not enough reliable evidence to verify the claim.");
     ("mixed", "There is conflicting evidence both supporting and contradicting the claim.")] in
  get summaries (Verifier.verdict result) "The claim could not be conclusively verified.".

(** [descriptors[key]]; the three keys are present in every strategy. *)
Definition descriptor (strategy : Strategy) (key : string) : string :=
  get (confidence_descriptors strategy) key "".

Definition _format_confidence (confidence : float) (strategy : Strategy) : string :=
  if (0.8 <=? confidence)%float then descriptor strategy "high"
  else if (0.6 <=? confidence)%float then descriptor strategy "medium"
  else descriptor strategy "low".

Definition _generate_verdict_explanation (result : Verifier.VerificationResult)
  (strategy : Strategy) : string :=
  let explanations :=
    [("true", "This means the available evidence confirms that the information is accurate.");
     ("false", "This means the available evidence shows that the information is incorrect.");
     ("unverified", "This means there is not enough reliable evidence to determine whether the information is true or false.");
     ("mixed", "This means there is reliable evidence both supporting and contradicting the information.")] in
  get explanations (Verifier.verdict result)
      "The determination about the accuracy of the information could not be conclusively established.".

Definition communicate (verification_result : Verifier.VerificationResult)
  (audience : string) : Exn.result TailoredExplanation :=
  match Detector.lookup_str audience audience_strategies with
  | None => Exn.Raise (Exn.ValueError ("Unsupported audience: " +:+ audience))
  | Some strategy =>
      let explanation := _generate_explanation verification_result strategy in
      let key_points := _generate_key_points verification_result in
      let simple_summary := _generate_simple_summary verification_result strategy in
      let confidence_level :=
        _format_confidence (Verifier.confidence verification_result) strategy in
      let verdict_explanation :=
        _generate_verdict_explanation verification_result strategy in
      Exn.Ok {| audience := audience;
                explanation := explanation;
                key_points := key_points;
                simple_summary := simple_summary;
                confidence_level := confidence_level;
                verdict_explanation := verdict_explanation |}
  end.

End Communicator.

(* ===================================================================== *)
(** ** The response built from a final state ([src/graph/workflow.py]) *)
(* ===================================================================== *)

Module Utilities.

(** The dict returned by [create_verification_response]: either the three
    keys of a failure or the four keys of a success.  [model_dump] of a
    verification result is the result itself here. *)
Inductive Response : Type :=
| Failure (message : string) (messages : list Workflow.Message)
| Success (verification_result : Verifier.VerificationResult)
          (messages : list Workflow.Message)
          (evidence : list Verifier.EvidenceItem).

(** [[evidence.model_dump() for evidence in state.get("retrieved_evidence",
    [])]]: the key is present in every state of the workflow, so the
    default is not used; [None] cannot be iterated, and an [EvidenceItem]
    has no method [model_dump]. *)
Definition dump_evidence (retrieved_evidence : option (list Verifier.EvidenceItem))
  : Raised.result (list Verifier.EvidenceItem) :=
  match retrieved_evidence with
  | None => Raised.Raise (Raised.Builtin (Exn.TypeError "'NoneType' object is not iterable"))
  | Some [] => Raised.Ok []
  | Some (_ :: _) =>
      Raised.Raise
        (Raised.AttributeError "'EvidenceItem' object has no attribute 'model_dump'")
  end.

Definition create_verification_response (state : Workflow.VerificationState)
  : Raised.result Response :=
  match Workflow.verification_result state with
  | None =>
      Raised.Ok (Failure "Verification failed to complete"
                         (Workflow.get_workflow_messages state))
  | Some verification_result =>
      Raised.rbind (dump_evidence (Workflow.retrieved_evidence state)) (fun evidence =>
        Raised.Ok (Success verification_result
                           (Workflow.get_workflow_messages state) evidence))
  end.

End Utilities.

(* ===================================================================== *)
(** ** Scenarios *)
(* ===================================================================== *)

Module Scenario.

(** The vector store is out of reach, the feed returns one notice, and no
    reasoning client is configured. *)
Definition notice : Verifier.Document :=
  {| Verifier.page_content := "Schools reopen on Monday";
     Verifier.metadata :=
       <[ "url" := "https://pib.gov.in/notice" ]> (<[ "title" := "Notice" ]> ∅) |}.

Definition feed_only : Verifier.Collaborators :=
  {| Verifier.similarity_search_with_score := fun _ _ => Exn.Raise (Exn.External "unreachable");
     Verifier.fetch_recent := fun _ _ => Exn.Ok [notice];
     Verifier.groq_client := None |}.

(** A document whose url has no scheme. *)
Definition unhosted : Verifier.Document :=
  {| Verifier.page_content := "Schools reopen on Monday";
     Verifier.metadata := <[ "url" := "example.org/page" ]> ∅ |}.

(** A result with one item of each stance that is not neutral. *)
Definition contested : Verifier.VerificationResult :=
  {| Verifier.claim := "The bridge is closed";
     Verifier.verdict := "mixed";
     Verifier.confidence := 0.7%float;
     Verifier.rationale := "Sources disagree.";
     Verifier.evidence :=
       [ {| Verifier.title := "A"; Verifier.url := "a"; Verifier.summary := "";
            Verifier.stance := Verifier.support; Verifier.published := None;
            Verifier.source_domain := None; Verifier.origin := Verifier.dataset |};
         {| Verifier.title := "B"; Verifier.url := "b"; Verifier.summary := "";
            Verifier.stance := Verifier.refute; Verifier.published := None;
            Verifier.source_domain := None; Verifier.origin := Verifier.dataset |} ] |}.

End Scenario.

(* ===================================================================== *)
(** ** Urls *)
(* ===================================================================== *)

Module Url.

(** The number of slashes of a url; [url.split("/")] has one piece
    more. *)
Definition slashes (url : string) : nat :=
  length (List.filter (Ascii.eqb "/") (Str.chars url)).

End Url.

(* ===================================================================== *)
(** ** Properties of the workflow *)
(* ===================================================================== *)

Section WorkflowFacts.

Variable iter_set : list string -> list string.
Variable env : Verifier.Collaborators.

#[local] Abbreviation graph := (Workflow.create_verification_workflow iter_set env).

Lemma or_else_empty (s : string) : Str.or_else s "" = s.
Proof. destruct s; reflexivity. Qed.

(** The length check of [detect] decides alone whether it raises. *)
Lemma detect_short (claim : string) :
  (Str.len (Str.strip claim) < 8)%nat ->
  Detector.detect iter_set claim
  = Exn.Raise (Exn.ValueError "Claim must be at least 8 characters long").
Proof.
  intros Hshort. unfold Detector.detect. rewrite or_else_empty.
  apply Nat.ltb_lt in Hshort. rewrite Hshort. reflexivity.
Qed.

Lemma detect_long (claim : string) :
  (8 <= Str.len (Str.strip claim))%nat ->
  exists r, Detector.detect iter_set claim = Exn.Ok r.
Proof.
  intros Hlong. unfold Detector.detect. rewrite or_else_empty.
  apply Nat.ltb_ge in Hlong. rewrite Hlong. eexists. reflexivity.
Qed.

(** Binding the arguments of the call made by node [verify] fails. *)
Lemma verify_call_does_not_bind :
  Call.bind_arguments Workflow.verify_claim_signature 1 ["detection"]
  = Exn.Raise (Exn.TypeError
      "VerifierAgent.verify_claim() got an unexpected keyword argument 'detection'").
Proof. reflexivity. Qed.

(** Node [verify] takes its [except] branch on every state, and makes no
    call to a collaborator. *)
Lemma verify_node_fails (state : Workflow.VerificationState) (calls : list Eff.call) :
  Workflow.verify_claim env state calls
  = (Exn.Ok (Workflow.failed state
       "Verification failed with error: VerifierAgent.verify_claim() got an unexpected keyword argument 'detection'"),
     calls).
Proof.
  unfold Workflow.verify_claim, Eff.try_except, Call.call, Eff.bind, Eff.lift.
  rewrite verify_call_does_not_bind. reflexivity.
Qed.

Lemma detect_node_ok (state : Workflow.VerificationState) (calls : list Eff.call)
  (d : Detector.DetectionResult) :
  Detector.detect iter_set (Workflow.claim state) = Exn.Ok d ->
  Workflow.detect_claim iter_set state calls = (Exn.Ok (Workflow.detected state d), calls).
Proof.
  intros Hd. unfold Workflow.detect_claim, Eff.try_except, Eff.bind, Eff.lift.
  rewrite Hd. reflexivity.
Qed.

Lemma detect_node_raises (state : Workflow.VerificationState) (calls : list Eff.call)
  (e : Exn.exn) :
  Detector.detect iter_set (Workflow.claim state) = Exn.Raise e ->
  Workflow.detect_claim iter_set state calls
  = (Exn.Ok (Workflow.failed state ("Detection failed with error: " +:+ Exn.str e)), calls).
Proof.
  intros Hd. unfold Workflow.detect_claim, Eff.try_except, Eff.bind, Eff.lift.
  rewrite Hd. reflexivity.
Qed.

(** The edges of the graph. *)
Lemma successor_of_detect (state : Workflow.VerificationState) :
  Workflow.successor graph "detect" state = Exn.Ok (Workflow.should_verify state).
Proof.
  unfold Workflow.successor. cbn. unfold Workflow.should_verify.
  destruct (Workflow.detection_result state); reflexivity.
Qed.

Lemma successor_of_verify (state : Workflow.VerificationState) :
  Workflow.successor graph "verify" state = Exn.Ok Workflow.END.
Proof. reflexivity. Qed.

(** One step of the graph from each of its two nodes. *)
Lemma step_from_detect (limit steps : nat) (state state' : Workflow.VerificationState)
  (calls : list Eff.call) :
  Workflow.detect_claim iter_set state calls = (Exn.Ok state', calls) ->
  Workflow.run_from graph limit (S steps) "detect" state calls
  = Workflow.run_from graph limit steps (Workflow.should_verify state') state' calls.
Proof.
  intros Hnode.
  change (Workflow.run_from graph limit (S steps) "detect" state calls)
    with (Eff.bind (Workflow.detect_claim iter_set state)
            (fun st => Eff.bind (Eff.lift (Workflow.successor graph "detect" st))
               (fun target => if String.eqb target Workflow.END then Eff.ret st
                              else Workflow.run_from graph limit steps target st)) calls).
  unfold Eff.bind at 1. rewrite Hnode.
  unfold Eff.bind, Eff.lift. rewrite successor_of_detect.
  unfold Workflow.should_verify.
  destruct (Workflow.detection_result state'); reflexivity.
Qed.

Lemma step_from_verify (limit steps : nat) (state : Workflow.VerificationState)
  (calls : list Eff.call) :
  Workflow.run_from graph limit (S steps) "verify" state calls
  = (Exn.Ok (Workflow.failed state
       "Verification failed with error: VerifierAgent.verify_claim() got an unexpected keyword argument 'detection'"),
     calls).
Proof.
  change (Workflow.run_from graph limit (S steps) "verify" state calls)
    with (Eff.bind (Workflow.verify_claim env state)
            (fun st => Eff.bind (Eff.lift (Workflow.successor graph "verify" st))
               (fun target => if String.eqb target Workflow.END then Eff.ret st
                              else Workflow.run_from graph limit steps target st)) calls).
  unfold Eff.bind at 1. rewrite verify_node_fails. reflexivity.
Qed.

(** While [detect] raises, the graph stays on node [detect]: the run ends
    with the recursion error, whatever the limit. *)
Lemma detect_loop (claim : string) (e : Exn.exn) (limit : nat) :
  Detector.detect iter_set claim = Exn.Raise e ->
  forall (steps : nat) (state : Workflow.VerificationState) (calls : list Eff.call),
    Workflow.claim state = claim ->
    Workflow.detection_result state = None ->
    Workflow.run_from graph limit steps "detect" state calls
    = (Exn.Raise (Workflow.recursion_error limit), calls).
Proof.
  intros Hraise. induction steps as [|steps IH]; intros state calls Hclaim Hnone.
  - reflexivity.
  - rewrite (step_from_detect limit steps state
               (Workflow.failed state ("Detection failed with error: " +:+ Exn.str e))).
    + unfold Workflow.should_verify. cbn [Workflow.failed Workflow.detection_result].
      rewrite Hnone. apply IH; [exact Hclaim | exact Hnone].
    + apply detect_node_raises. rewrite Hclaim. exact Hraise.
Qed.

(** The two executions of the graph from the initial state, and the two
    runs of the workflow. *)
Lemma invoke_when_detect_raises (claim : string) (e : Exn.exn) (limit : nat)
  (user_id verification_id : option string) (calls : list Eff.call) :
  Detector.detect iter_set claim = Exn.Raise e ->
  Workflow.invoke_with limit graph
    (Workflow.initial_state claim user_id verification_id) calls
  = (Exn.Raise (Workflow.recursion_error limit), calls).
Proof.
  intros Hraise. unfold Workflow.invoke_with.
  cbn [Workflow.entry_point Workflow.create_verification_workflow].
  apply (detect_loop claim e limit Hraise); reflexivity.
Qed.

Lemma invoke_when_detect_returns (claim : string) (d : Detector.DetectionResult)
  (limit : nat) (user_id verification_id : option string) (calls : list Eff.call) :
  Detector.detect iter_set claim = Exn.Ok d ->
  (2 <= limit)%nat ->
  Workflow.invoke_with limit graph
    (Workflow.initial_state claim user_id verification_id) calls
  = (Exn.Ok (Workflow.failed
       (Workflow.detected (Workflow.initial_state claim user_id verification_id) d)
       "Verification failed with error: VerifierAgent.verify_claim() got an unexpected keyword argument 'detection'"),
     calls).
Proof.
  intros Hok Hlimit.
  destruct limit as [|[|steps]]; [lia | lia |].
  unfold Workflow.invoke_with.
  cbn [Workflow.entry_point Workflow.create_verification_workflow].
  rewrite (step_from_detect _ _ _
             (Workflow.detected (Workflow.initial_state claim user_id verification_id) d))
    by (apply detect_node_ok; exact Hok).
  change (Workflow.should_verify
            (Workflow.detected (Workflow.initial_state claim user_id verification_id) d))
    with "verify".
  apply step_from_verify.
Qed.

Lemma run_when_detect_raises (claim : string) (e : Exn.exn) (limit : nat)
  (user_id verification_id : option string) (calls : list Eff.call) :
  Detector.detect iter_set claim = Exn.Raise e ->
  Workflow.run_verification_workflow_with iter_set env limit claim user_id verification_id calls
  = (Exn.Ok (Workflow.failed (Workflow.initial_state claim user_id verification_id)
       ("Workflow execution failed with error: "
        +:+ Exn.str (Workflow.recursion_error limit))),
     calls).
Proof.
  intros Hraise. unfold Workflow.run_verification_workflow_with, Eff.try_except.
  rewrite (invoke_when_detect_raises claim e limit _ _ _ Hraise). reflexivity.
Qed.

Lemma run_when_detect_returns (claim : string) (d : Detector.DetectionResult)
  (limit : nat) (user_id verification_id : option string) (calls : list Eff.call) :
  Detector.detect iter_set claim = Exn.Ok d ->
  (2 <= limit)%nat ->
  Workflow.run_verification_workflow_with iter_set env limit claim user_id verification_id calls
  = (Exn.Ok (Workflow.failed
       (Workflow.detected (Workflow.initial_state claim user_id verification_id) d)
       "Verification failed with error: VerifierAgent.verify_claim() got an unexpected keyword argument 'detection'"),
     calls).
Proof.
  intros Hok Hlimit. unfold Workflow.run_verification_workflow_with, Eff.try_except.
  rewrite (invoke_when_detect_returns claim d limit _ _ _ Hok Hlimit). reflexivity.
Qed.

Lemma default_limit_suffices : (2 <= Workflow.default_recursion_limit)%nat.
Proof. unfold Workflow.default_recursion_limit. lia. Qed.

End WorkflowFacts.

(** C1.  In a run of the workflow whose detect stage succeeds, the call
    that node [verify] makes passes the keyword [detection], which the
    signature [(self, claim)] does not accept: binding the arguments raises
    TypeError, the [except] branch of the node runs, and the run returns a
    state with [verification_result = None] whose log holds one system
    message, which starts with "Verification failed with error".  No run of
    [run_verification_workflow] returns a state with a verification
    result. *)
Theorem verify_stage_always_fails
  (iter_set : list string -> list string) (env : Verifier.Collaborators)
  (claim : string) (user_id verification_id : option string)
  (d : Detector.DetectionResult) :
  Detector.detect iter_set claim = Exn.Ok d ->
  Call.bind_arguments Workflow.verify_claim_signature 1 ["detection"]
  = Exn.Raise (Exn.TypeError
      "VerifierAgent.verify_claim() got an unexpected keyword argument 'detection'")
  /\ (exists st text,
        Eff.run (Workflow.run_verification_workflow iter_set env claim user_id verification_id)
        = (Exn.Ok st, [])
        /\ Workflow.detection_result st = Some d
        /\ Workflow.verification_result st = None
        /\ Workflow.messages st = [{| Workflow.role := "system"; Workflow.content := text |}]
        /\ Str.startswith text "Verification failed with error" = true)
  /\ (forall claim' user_id' verification_id' st calls,
        Eff.run (Workflow.run_verification_workflow iter_set env claim' user_id' verification_id')
        = (Exn.Ok st, calls) ->
        Workflow.verification_result st = None).
Proof.
  intros Hok. split; [reflexivity | split].
  - eexists. eexists. unfold Eff.run, Workflow.run_verification_workflow.
    rewrite (run_when_detect_returns iter_set env claim d _ _ _ _ Hok
               default_limit_suffices).
    repeat split; reflexivity.
  - intros claim' user_id' verification_id' st calls.
    unfold Eff.run, Workflow.run_verification_workflow.
    destruct (Detector.detect iter_set claim') as [d'|e] eqn:Hdetect.
    + rewrite (run_when_detect_returns iter_set env claim' d' _ _ _ _ Hdetect
                 default_limit_suffices).
      intros Hrun. inversion Hrun. reflexivity.
    + rewrite (run_when_detect_raises iter_set env claim' e _ _ _ _ Hdetect).
      intros Hrun. inversion Hrun. reflexivity.
Qed.

Lemma verify_stage_always_fails_witness :
  exists d st,
    Detector.detect Sample.insertion_order Sample.schools_claim = Exn.Ok d
    /\ Eff.run (Workflow.run_verification_workflow Sample.insertion_order Sample.offline
                  Sample.schools_claim None None) = (Exn.Ok st, [])
    /\ Workflow.detection_result st = Some d
    /\ Workflow.verification_result st = None.
Proof.
  eexists.
  assert (Hok : Detector.detect Sample.insertion_order Sample.schools_claim = Exn.Ok _)
    by (vm_compute; reflexivity).
  destruct (verify_stage_always_fails Sample.insertion_order Sample.offline
              Sample.schools_claim None None _ Hok) as (_ & (st & text & Hrun & Hd & Hv & _) & _).
  exists st. repeat split; assumption.
Defined.

(** C2.  [run_verification_workflow] returns a state for every claim and
    every optional user and verification id, and never raises: the run
    ends in the state of the failed verify stage when detection returns,
    and in the error state when the execution of the graph raises, whose
    log then holds the system message "Workflow execution failed with
    error: ..." carrying the text of the exception. *)
Theorem workflow_always_returns_state
  (iter_set : list string -> list string) (env : Verifier.Collaborators)
  (claim : string) (user_id verification_id : option string) :
  exists st calls,
    Eff.run (Workflow.run_verification_workflow iter_set env claim user_id verification_id)
    = (Exn.Ok st, calls)
    /\ (forall e calls',
          Eff.run (Workflow.invoke (Workflow.create_verification_workflow iter_set env)
                     (Workflow.initial_state claim user_id verification_id))
          = (Exn.Raise e, calls') ->
          st = Workflow.failed (Workflow.initial_state claim user_id verification_id)
                 ("Workflow execution failed with error: " +:+ Exn.str e)
          /\ In {| Workflow.role := "system";
                   Workflow.content := "Workflow execution failed with error: " +:+ Exn.str e |}
                (Workflow.messages st))
    /\ match Detector.detect iter_set claim with
       | Exn.Ok d =>
           st = Workflow.failed
                  (Workflow.detected (Workflow.initial_state claim user_id verification_id) d)
                  "Verification failed with error: VerifierAgent.verify_claim() got an unexpected keyword argument 'detection'"
       | Exn.Raise _ =>
           st = Workflow.failed (Workflow.initial_state claim user_id verification_id)
                  ("Workflow execution failed with error: "
                   +:+ Exn.str (Workflow.recursion_error Workflow.default_recursion_limit))
       end.
Proof.
  unfold Eff.run, Workflow.run_verification_workflow, Workflow.invoke.
  destruct (Detector.detect iter_set claim) as [d|e0] eqn:Hdetect.
  - eexists. eexists.
    rewrite (run_when_detect_returns iter_set env claim d _ _ _ _ Hdetect
               default_limit_suffices).
    split; [reflexivity | split; [| reflexivity]].
    intros e calls'.
    rewrite (invoke_when_detect_returns iter_set env claim d _ _ _ _ Hdetect
               default_limit_suffices).
    discriminate.
  - eexists. eexists.
    rewrite (run_when_detect_raises iter_set env claim e0 _ _ _ _ Hdetect).
    split; [reflexivity | split; [| reflexivity]].
    intros e calls'.
    rewrite (invoke_when_detect_raises iter_set env claim e0 _ _ _ _ Hdetect).
    intros Hraise. inversion Hraise. split; [reflexivity |].
    cbn [Workflow.failed Workflow.messages Workflow.initial_state].
    left. reflexivity.
Qed.

(** C3 (the code departs from the claim).  When detection fails on the
    claim "hi", node [detect] returns a state whose log ends with the
    message "Detection failed with error: ...", but the conditional edge
    sends the graph back to [detect]; the run ends in the recursion error
    of the graph, and the caller receives the error state built from the
    initial state: its log holds the workflow message alone, and no
    detection message. *)
Theorem detection_failure_message_is_lost
  (iter_set : list string -> list string) (env : Verifier.Collaborators) :
  Workflow.detect_claim iter_set (Workflow.initial_state "hi" None None) []
  = (Exn.Ok (Workflow.failed (Workflow.initial_state "hi" None None)
       "Detection failed with error: Claim must be at least 8 characters long"), [])
  /\ Workflow.should_verify
       (Workflow.failed (Workflow.initial_state "hi" None None)
          "Detection failed with error: Claim must be at least 8 characters long")
     = "detect"
  /\ exists st,
       Eff.run (Workflow.run_verification_workflow iter_set env "hi" None None)
       = (Exn.Ok st, [])
       /\ Workflow.verification_result st = None
       /\ Workflow.should_continue st = false
       /\ Workflow.messages st
          = [{| Workflow.role := "system";
                Workflow.content :=
                  "Workflow execution failed with error: Recursion limit of 25 reached without hitting a stop condition. You can increase the limit by setting the `recursion_limit` config key." |}]
       /\ existsb (fun m => Str.startswith (Workflow.content m) "Detection failed")
            (Workflow.messages st) = false.
Proof.
  assert (Hraise : Detector.detect iter_set "hi"
                   = Exn.Raise (Exn.ValueError "Claim must be at least 8 characters long"))
    by (apply detect_short; cbv; lia).
  split; [| split].
  - apply (detect_node_raises iter_set (Workflow.initial_state "hi" None None) []
             (Exn.ValueError "Claim must be at least 8 characters long")).
    exact Hraise.
  - reflexivity.
  - eexists. unfold Eff.run, Workflow.run_verification_workflow.
    rewrite (run_when_detect_raises iter_set env "hi" _ _ None None [] Hraise).
    repeat split; reflexivity.
Qed.

(** C4.  A claim whose trimmed form has fewer than 8 characters makes
    [detect] raise ValueError("Claim must be at least 8 characters long"),
    whatever the extraction methods would compute, and a run of the
    workflow on it makes no call to a retrieval or reasoning
    collaborator. *)
Theorem short_claim_is_rejected
  (iter_set : list string -> list string) (env : Verifier.Collaborators)
  (claim : string) (user_id verification_id : option string) :
  (Str.len (Str.strip claim) < 8)%nat ->
  Detector.detect iter_set claim
  = Exn.Raise (Exn.ValueError "Claim must be at least 8 characters long")
  /\ snd (Eff.run (Workflow.run_verification_workflow iter_set env claim
                     user_id verification_id)) = [].
Proof.
  intros Hshort. split; [apply detect_short; exact Hshort |].
  unfold Eff.run, Workflow.run_verification_workflow.
  rewrite (run_when_detect_raises iter_set env claim _ _ _ _ []
             (detect_short iter_set claim Hshort)).
  reflexivity.
Qed.

Lemma short_claim_is_rejected_witness :
  (Str.len (Str.strip "  hello  ") < 8)%nat
  /\ Detector.detect Sample.insertion_order "  hello  "
     = Exn.Raise (Exn.ValueError "Claim must be at least 8 characters long")
  /\ snd (Eff.run (Workflow.run_verification_workflow Sample.insertion_order
                     Sample.offline "  hello  " None None)) = [].
Proof.
  assert (Hshort : (Str.len (Str.strip "  hello  ") < 8)%nat) by (vm_compute; lia).
  split; [exact Hshort |].
  exact (short_claim_is_rejected Sample.insertion_order Sample.offline "  hello  "
           None None Hshort).
Defined.

(* ===================================================================== *)
(** ** Properties of the detector *)
(* ===================================================================== *)

Section DetectorFacts.

Variable iter_set : list string -> list string.

(** The fields of a detection result, as the methods that compute them. *)
Lemma detect_fields (claim : string) (r : Detector.DetectionResult) :
  Detector.detect iter_set claim = Exn.Ok r ->
  let clean_claim := Str.strip claim in
  let claim_lower := Str.lower clean_claim in
  let entities := Detector._extract_entities iter_set clean_claim in
  let structured := Detector._build_structured_claim clean_claim entities in
  let supporting_types := Detector._identify_supporting_evidence_types claim_lower in
  let temporal_indicators := Detector._extract_temporal_indicators iter_set claim_lower in
  let risk := Detector._score_risk clean_claim (Detector._classify_claim claim_lower) in
  (8 <= Str.len clean_claim)%nat
  /\ Detector.claim r = clean_claim
  /\ Detector.domain r = Detector._detect_domain claim_lower
  /\ Detector.claim_type r = Detector._classify_claim claim_lower
  /\ Detector.entities r = entities
  /\ Detector.keywords r = Detector._extract_keywords claim_lower
  /\ Detector.structured_claim r = structured
  /\ Detector.search_queries r
     = firstn 8 (Detector._deduplicate_queries
         (Detector._generate_search_queries clean_claim structured entities
            (Detector._detect_domain claim_lower)
          ++ Detector._generate_contextual_search_queries structured supporting_types))
  /\ Detector.risk_score r = risk
  /\ Detector.confidence r
     = Flt.min 0.95
         (Detector._score_confidence (Detector._classify_claim claim_lower) risk
            (length entities)
          + Detector._calculate_evidence_confidence supporting_types temporal_indicators)%float
  /\ Detector.claim_complexity r = Detector._assess_claim_complexity iter_set clean_claim
  /\ Detector.supporting_evidence_types r = supporting_types
  /\ Detector.temporal_indicators r = temporal_indicators
  /\ Detector.quantitative_elements r = Detector._extract_quantitative_elements clean_claim.
Proof.
  unfold Detector.detect. rewrite or_else_empty.
  destruct (Str.len (Str.strip claim) <? 8)%nat eqn:Hlen; [discriminate |].
  intros Hok. injection Hok as <-. apply Nat.ltb_ge in Hlen.
  cbv zeta. repeat split; try reflexivity. exact Hlen.
Qed.

End DetectorFacts.

(** C10 (counterexample).  On "Is the airport in Delhi really closed?"
    the extracted action is "closed": the phrase "airport closed" does
    not occur in the claim, whose words between "airport" and "closed" keep
    every fixed action phrase from matching, and the single-word pattern
    then finds "closed". *)
Lemma airport_action_is_closed :
  Str.contains "airport closed" (Str.lower Sample.airport_claim) = false
  /\ exists r,
       Detector.detect Sample.insertion_order Sample.airport_claim = Exn.Ok r
       /\ Detector.action (Detector.structured_claim r) = Some "closed"
       /\ Detector.action (Detector.structured_claim r) <> Some "airport closed".
Proof.
  split; [vm_compute; reflexivity |].
  eexists. split; [vm_compute; reflexivity |].
  split; [reflexivity | discriminate].
Qed.

(** C10 (amended).  For the claim "Is the airport in Delhi really
    closed?", [detect] returns a result with claim_type "question",
    domain travel and action "closed", whatever the order in which sets
    are iterated. *)
Theorem airport_example (iter_set : list string -> list string) :
  exists r,
    Detector.detect iter_set Sample.airport_claim = Exn.Ok r
    /\ Detector.claim_type r = "question"
    /\ Detector.domain r = Detector.travel
    /\ Detector.action (Detector.structured_claim r) = Some "closed".
Proof.
  destruct (detect_long iter_set Sample.airport_claim) as [r Hr];
    [vm_compute; lia |].
  exists r. split; [exact Hr |].
  destruct (detect_fields iter_set _ _ Hr)
    as (_ & _ & Hdomain & Htype & _ & _ & Hstructured & _).
  rewrite Htype, Hdomain, Hstructured.
  repeat split; vm_compute; reflexivity.
Qed.

(** C9 (counterexample).  "Cats and dogs are friends" has five words, one
    entity, no clause break and no quantitative element, and it has the
    conjunction "and": the rule as specified makes it complex, the code
    makes it simple, since the test for simple does not read the
    conjunction signal. *)
Lemma conjunction_claim_is_simple :
  Detector.has_conjunctions Sample.pets_claim = true
  /\ Detector._assess_claim_complexity Sample.insertion_order Sample.pets_claim = "simple"
  /\ Specified.complexity
       (Detector.word_count Sample.pets_claim)
       (Detector.entity_count Sample.insertion_order Sample.pets_claim)
       (Detector.has_multiple_clauses Sample.pets_claim)
       (Detector.has_conjunctions Sample.pets_claim)
       (Detector.has_quantitative Sample.pets_claim) = "complex".
Proof. repeat split; vm_compute; reflexivity. Qed.

(** The three outcomes of [_assess_claim_complexity] in terms of the five
    signals. *)
Lemma complexity_cases (iter_set : list string -> list string) (claim : string) :
  let simple_signals :=
    (Detector.word_count claim <= 15)%nat
    /\ (Detector.entity_count iter_set claim <= 2)%nat
    /\ Detector.has_multiple_clauses claim = false
    /\ Detector.has_quantitative claim = false in
  let moderate_signals :=
    (Detector.word_count claim <= 40)%nat
    /\ (Detector.entity_count iter_set claim <= 4)%nat
    /\ Detector.has_conjunctions claim = false in
  (Detector._assess_claim_complexity iter_set claim = "simple" <-> simple_signals)
  /\ (Detector._assess_claim_complexity iter_set claim = "moderate"
      <-> ~ simple_signals /\ moderate_signals)
  /\ (Detector._assess_claim_complexity iter_set claim = "complex"
      <-> ~ simple_signals /\ ~ moderate_signals).
Proof.
  unfold Detector._assess_claim_complexity. cbv zeta.
  destruct (Nat.leb_spec (Detector.word_count claim) 15);
  destruct (Nat.leb_spec (Detector.entity_count iter_set claim) 2);
  destruct (Nat.leb_spec (Detector.word_count claim) 40);
  destruct (Nat.leb_spec (Detector.entity_count iter_set claim) 4);
  destruct (Detector.has_multiple_clauses claim);
  destruct (Detector.has_quantitative claim);
  destruct (Detector.has_conjunctions claim); cbn [andb negb];
  (repeat split; intros; try discriminate; try lia;
   match goal with
   | H : _ /\ _ |- _ => decompose [and] H; try discriminate; try lia
   | |- _ => idtac
   end;
   try (intros (? & ? & ? & ?); try discriminate; lia);
   try (intros (? & ? & ?); try discriminate; lia)).
Qed.

(** C9 (amended).  For every accepted claim, claim_complexity is "simple"
    exactly when word_count <= 15, entity_count <= 2 and the claim has
    neither a multi-clause signal nor a quantitative element (the
    conjunction signal is not read); it is "moderate" exactly when it is
    not simple and word_count <= 40, entity_count <= 4 and there is no
    conjunction; otherwise it is "complex".  The signals are those of the
    trimmed claim. *)
Theorem complexity_rule (iter_set : list string -> list string)
  (claim : string) (r : Detector.DetectionResult) :
  Detector.detect iter_set claim = Exn.Ok r ->
  let text := Detector.claim r in
  let simple_signals :=
    (Detector.word_count text <= 15)%nat
    /\ (Detector.entity_count iter_set text <= 2)%nat
    /\ Detector.has_multiple_clauses text = false
    /\ Detector.has_quantitative text = false in
  let moderate_signals :=
    (Detector.word_count text <= 40)%nat
    /\ (Detector.entity_count iter_set text <= 4)%nat
    /\ Detector.has_conjunctions text = false in
  (Detector.claim_complexity r = "simple" <-> simple_signals)
  /\ (Detector.claim_complexity r = "moderate" <-> ~ simple_signals /\ moderate_signals)
  /\ (Detector.claim_complexity r = "complex" <-> ~ simple_signals /\ ~ moderate_signals)
  /\ (Detector.claim_complexity r = "simple"
      \/ Detector.claim_complexity r = "moderate"
      \/ Detector.claim_complexity r = "complex").
Proof.
  intros Hok.
  destruct (detect_fields iter_set _ _ Hok)
    as (_ & Hclaim & _ & _ & _ & _ & _ & _ & _ & _ & Hcomplexity & _).
  cbv zeta. rewrite Hcomplexity, Hclaim.
  pose proof (complexity_cases iter_set (Str.strip claim)) as Hcases.
  cbv zeta in Hcases. destruct Hcases as (Hs & Hm & Hc).
  split; [exact Hs | split; [exact Hm | split; [exact Hc |]]].
  unfold Detector._assess_claim_complexity. cbv zeta.
  destruct (_ && _ && _ && _); [left; reflexivity |].
  destruct (_ && _ && _); [right; left | right; right]; reflexivity.
Qed.

Lemma complexity_rule_witness :
  exists r,
    Detector.detect Sample.insertion_order Sample.pets_claim = Exn.Ok r
    /\ Detector.claim_complexity r = "simple"
    /\ Detector.has_conjunctions (Detector.claim r) = true.
Proof.
  eexists.
  assert (Hok : Detector.detect Sample.insertion_order Sample.pets_claim = Exn.Ok _)
    by (vm_compute; reflexivity).
  split; [exact Hok |].
  destruct (complexity_rule Sample.insertion_order Sample.pets_claim _ Hok)
    as (Hsimple & _).
  split; [| vm_compute; reflexivity].
  apply Hsimple. repeat split; vm_compute; (reflexivity || lia).
Defined.

(* ===================================================================== *)
(** ** Bounds of a detection result *)
(* ===================================================================== *)

Lemma all_bool_spec (f : bool -> bool) :
  Table.all_bool f = true -> forall b, f b = true.
Proof.
  unfold Table.all_bool. intros H b. apply andb_prop in H.
  destruct b; tauto.
Qed.

Lemma all_upto3_spec (f : nat -> bool) :
  Table.all_upto3 f = true -> forall n, (n <= 3)%nat -> f n = true.
Proof.
  unfold Table.all_upto3. intros H n Hn.
  repeat (apply andb_prop in H; destruct H as [H ?]).
  destruct n as [|[|[|[|n]]]]; try assumption. lia.
Qed.

(** Every combination of outcomes keeps both scores in range; the table
    is evaluated in binary64 arithmetic. *)
Lemma all_bounded_holds :
  Table.all_bool (fun question => Table.all_bool (fun numerical =>
  Table.all_bool (fun action => Table.all_bool (fun emergency =>
  Table.all_bool (fun large => Table.all_bool (fun long =>
  Table.all_bool (fun quantitative => Table.all_bool (fun narrative =>
  Table.all_upto3 (fun entities => Table.all_bool (fun official =>
  Table.all_bool (fun statistical => Table.all_bool (fun expert =>
  Table.all_upto3 (fun types => Table.all_bool (fun immediate =>
  Table.all_bool (fun short_term =>
    Table.bounded question numerical action emergency large long quantitative
      narrative entities official statistical expert types
      immediate short_term))))))))))))))) = true.
Proof. vm_compute. reflexivity. Qed.

Lemma bounded_always
  (question numerical action emergency large long quantitative narrative : bool)
  (entities : nat) (official statistical expert : bool) (types : nat)
  (immediate short_term : bool) :
  (entities <= 3)%nat -> (types <= 3)%nat ->
  Table.bounded question numerical action emergency large long quantitative
    narrative entities official statistical expert types immediate short_term = true.
Proof.
  intros Hentities Htypes.
  pose proof all_bounded_holds as H.
  apply all_bool_spec with (b := question) in H.
  apply all_bool_spec with (b := numerical) in H.
  apply all_bool_spec with (b := action) in H.
  apply all_bool_spec with (b := emergency) in H.
  apply all_bool_spec with (b := large) in H.
  apply all_bool_spec with (b := long) in H.
  apply all_bool_spec with (b := quantitative) in H.
  apply all_bool_spec with (b := narrative) in H.
  apply all_upto3_spec with (n := entities) in H; [| exact Hentities].
  apply all_bool_spec with (b := official) in H.
  apply all_bool_spec with (b := statistical) in H.
  apply all_bool_spec with (b := expert) in H.
  apply all_upto3_spec with (n := types) in H; [| exact Htypes].
  apply all_bool_spec with (b := immediate) in H.
  apply all_bool_spec with (b := short_term) in H.
  exact H.
Qed.

(** The three scoring methods are the functions of the table. *)
Lemma score_risk_table (claim claim_type : string) :
  Detector._score_risk claim claim_type
  = Table.risk (String.eqb claim_type "question")
      (String.eqb claim_type "numerical_claim")
      (String.eqb claim_type "action_claim")
      (Detector.any_in Detector.EMERGENCY_WORDS (Str.lower claim))
      (Re.is_match (Re.search (Re.Seqs [Re.digit; Re.digit; Re.digit; Re.Star Re.digit]) claim))
      (240 <? Str.len claim)%nat
      (Detector.nonempty (Detector._extract_quantitative_elements claim)).
Proof. reflexivity. Qed.

Lemma score_confidence_table (claim_type : string) (risk : float) (entity_count : nat) :
  Detector._score_confidence claim_type risk entity_count
  = Table.base_confidence (String.eqb claim_type "narrative_claim") risk
      (Nat.min entity_count 3).
Proof. reflexivity. Qed.

Lemma evidence_confidence_table (supporting_types temporal_indicators : list string) :
  Detector._calculate_evidence_confidence supporting_types temporal_indicators
  = Table.bonus (Detector.mem "official" supporting_types)
      (Detector.mem "statistical" supporting_types)
      (Detector.mem "expert" supporting_types)
      (length supporting_types)
      (existsb (fun indicator => Detector.mem indicator (Detector.temporal_set "immediate"))
               temporal_indicators)
      (existsb (fun indicator => Detector.mem indicator (Detector.temporal_set "short_term"))
               temporal_indicators).
Proof. reflexivity. Qed.

Lemma firstn_length_le {A : Type} (n : nat) (l : list A) : (length (firstn n l) <= n)%nat.
Proof. rewrite length_firstn. apply Nat.le_min_l. Qed.

(** C5.  For every claim that [detect] accepts, the result has at most 8
    search queries, 5 entities, 8 keywords, 5 quantitative elements, 3
    temporal indicators and 3 supporting evidence types; its risk score
    lies between 0.10 and 1.00 and its confidence between 0.35 and 0.95
    (the bounds are the doubles so written, compared as floats). *)
Theorem detection_result_bounds (iter_set : list string -> list string)
  (claim : string) (r : Detector.DetectionResult) :
  Detector.detect iter_set claim = Exn.Ok r ->
  (length (Detector.search_queries r) <= 8)%nat
  /\ (length (Detector.entities r) <= 5)%nat
  /\ (length (Detector.keywords r) <= 8)%nat
  /\ (length (Detector.quantitative_elements r) <= 5)%nat
  /\ (length (Detector.temporal_indicators r) <= 3)%nat
  /\ (length (Detector.supporting_evidence_types r) <= 3)%nat
  /\ Flt.within 0.10 1.00 (Detector.risk_score r) = true
  /\ Flt.within 0.35 0.95 (Detector.confidence r) = true.
Proof.
  intros Hok.
  destruct (detect_fields iter_set _ _ Hok)
    as (_ & _ & _ & _ & Hentities & Hkeywords & _ & Hqueries & Hrisk & Hconfidence
        & _ & Htypes & Htemporal & Hquantitative).
  rewrite Hqueries, Hentities, Hkeywords, Hquantitative, Htemporal, Htypes.
  assert (Hbounded :
    Flt.within 0.10 1.00 (Detector.risk_score r)
    && Flt.within 0.35 0.95 (Detector.confidence r) = true).
  { rewrite Hrisk, Hconfidence.
    rewrite score_confidence_table, evidence_confidence_table, score_risk_table.
    apply bounded_always.
    - apply Nat.le_min_r.
    - apply firstn_length_le. }
  apply andb_prop in Hbounded. destruct Hbounded as [Hr Hc].
  repeat split; try exact Hr; try exact Hc.
  - apply firstn_length_le.
  - unfold Detector._extract_entities. rewrite length_map. apply firstn_length_le.
  - apply firstn_length_le.
  - apply firstn_length_le.
  - apply firstn_length_le.
  - apply firstn_length_le.
Qed.

Lemma detection_result_bounds_witness :
  exists r,
    Detector.detect Sample.insertion_order Sample.schools_claim = Exn.Ok r
    /\ (length (Detector.search_queries r) <= 8)%nat
    /\ Flt.within 0.10 1.00 (Detector.risk_score r) = true
    /\ Flt.within 0.35 0.95 (Detector.confidence r) = true.
Proof.
  eexists.
  assert (Hok : Detector.detect Sample.insertion_order Sample.schools_claim = Exn.Ok _)
    by (vm_compute; reflexivity).
  split; [exact Hok |].
  destruct (detection_result_bounds Sample.insertion_order Sample.schools_claim _ Hok)
    as (Hq & _ & _ & _ & _ & _ & Hr & Hc).
  repeat split; assumption.
Defined.

(* ===================================================================== *)
(** ** Properties of the verifier *)
(* ===================================================================== *)

Section VerifierFacts.

Variable env : Verifier.Collaborators.

(** The search loop returns, and calls the similarity search only. *)
Lemma search_all_returns (queries : list string) :
  forall (seen : gset string) (evidence : list Verifier.EvidenceItem)
         (calls : list Eff.call),
  exists st made,
    Verifier.search_all env queries seen evidence calls = (Exn.Ok st, calls ++ made)
    /\ existsb Eff.is_reasoning_call made = false.
Proof.
  induction queries as [|query rest IH]; intros seen evidence calls.
  - exists (seen, evidence), []. rewrite app_nil_r. split; reflexivity.
  - cbn [Verifier.search_all].
    unfold Eff.bind at 1, Eff.try_except, Eff.bind, Eff.perform, Eff.ret.
    destruct (Verifier.similarity_search_with_score env query 50) as [results|e].
    + destruct (IH (fst (Verifier.add_results results seen evidence))
                   (snd (Verifier.add_results results seen evidence))
                   (calls ++ [Eff.SimilaritySearch query 50]))
        as (st & made & Hrun & Hmade).
      exists st, (Eff.SimilaritySearch query 50 :: made).
      rewrite Hrun, <- app_assoc. split; [reflexivity | exact Hmade].
    + destruct (IH seen evidence (calls ++ [Eff.SimilaritySearch query 50]))
        as (st & made & Hrun & Hmade).
      exists st, (Eff.SimilaritySearch query 50 :: made).
      cbn [fst snd]. rewrite Hrun, <- app_assoc. split; [reflexivity | exact Hmade].
Qed.

(** So does the whole collection of evidence, which adds the call to the
    feed reader. *)
Lemma collect_evidence_returns (claim : string) (calls : list Eff.call) :
  exists evidence made,
    Verifier.collect_evidence env claim calls = (Exn.Ok evidence, calls ++ made)
    /\ existsb Eff.is_reasoning_call made = false.
Proof.
  unfold Verifier.collect_evidence. cbv zeta.
  match goal with
  | |- context [Verifier.search_all env ?qs ?seen ?ev] =>
      destruct (search_all_returns qs seen ev calls) as (st & made & Hrun & Hmade)
  end.
  unfold Eff.bind at 1. rewrite Hrun.
  unfold Eff.try_except, Eff.bind, Eff.perform, Eff.ret.
  destruct (Verifier.fetch_recent env 120 30) as [docs|e].
  - eexists. exists (made ++ [Eff.FetchRecent 120 30]).
    rewrite app_assoc. split; [reflexivity |].
    rewrite existsb_app, Hmade. reflexivity.
  - eexists. exists (made ++ [Eff.FetchRecent 120 30]).
    rewrite app_assoc. split; [reflexivity |].
    rewrite existsb_app, Hmade. reflexivity.
Qed.

Lemma digest_of_run (claim : string) (evidence : list Verifier.EvidenceItem)
  (made : list Eff.call) :
  Verifier.collect_evidence env claim [] = (Exn.Ok evidence, made) ->
  Verifier.digest_of env claim = Verifier.evidence_digest evidence.
Proof.
  intros Hrun. unfold Verifier.digest_of, Eff.run. rewrite Hrun. reflexivity.
Qed.

End VerifierFacts.

Lemma round3_of_defaults :
  Flt.round3 0.3 = 0.3%float /\ Flt.round3 0.5 = 0.5%float.
Proof. split; vm_compute; reflexivity. Qed.

(** X1.  When the reasoning collaborator is absent ([groq_client] is
    [None]), [verify_claim] returns, for every claim, the verdict
    "unverified", the confidence 0.3 and the rationale "Verification
    service unavailable", and the calls made during the run include no
    request to the reasoning service. *)
Theorem absent_reasoning_service (env : Verifier.Collaborators) (claim : string) :
  Verifier.groq_client env = None ->
  exists evidence calls,
    Eff.run (Verifier.verify_claim env claim)
    = (Exn.Ok {| Verifier.claim := claim;
                 Verifier.verdict := "unverified";
                 Verifier.confidence := 0.3;
                 Verifier.rationale := "Verification service unavailable";
                 Verifier.evidence := evidence |},
       calls)
    /\ existsb Eff.is_reasoning_call calls = false.
Proof.
  intros Habsent.
  destruct (collect_evidence_returns env claim []) as (evidence & made & Hrun & Hmade).
  exists (firstn 20 evidence), made.
  unfold Eff.run, Verifier.verify_claim, Eff.bind at 1. rewrite Hrun.
  unfold Verifier.judge. rewrite Habsent.
  unfold Eff.bind, Eff.ret. cbn [app].
  destruct round3_of_defaults as [-> _].
  split; [reflexivity | exact Hmade].
Qed.

Lemma absent_reasoning_service_witness :
  exists evidence calls,
    Eff.run (Verifier.verify_claim Sample.offline Sample.schools_claim)
    = (Exn.Ok {| Verifier.claim := Sample.schools_claim;
                 Verifier.verdict := "unverified";
                 Verifier.confidence := 0.3;
                 Verifier.rationale := "Verification service unavailable";
                 Verifier.evidence := evidence |},
       calls)
    /\ existsb Eff.is_reasoning_call calls = false.
Proof.
  exact (absent_reasoning_service Sample.offline Sample.schools_claim eq_refl).
Defined.

(* ===================================================================== *)
(** ** The matcher consumes texts of the pattern *)
(* ===================================================================== *)

Lemma run_sound (r : Re.regex) :
  forall (st : Re.mstate) (k : Re.mstate -> option Re.mstate) (res : Re.mstate),
    Re.run r st k = Some res ->
    exists w st',
      Re.matches r w
      /\ Re.rest st = w ++ Re.rest st'
      /\ Re.pos st' = Re.pos st + length w
      /\ k st' = Some res.
Proof.
  induction r as [|p|a IHa b IHb|a IHa b IHb|a IHa|a IHa|];
    intros st k res H; cbn [Re.run] in H.
  - exists [], st. split; [constructor | split; [reflexivity | split; [cbn; lia | exact H]]].
  - destruct (Re.rest st) as [|c l] eqn:Hrest; [discriminate |].
    destruct (p c) eqn:Hp; [| discriminate].
    exists [c], (Re.MState (S (Re.pos st)) (Some c) l (Re.grp st)).
    cbn [Re.rest Re.pos length].
    split; [constructor; exact Hp | split; [reflexivity | split; [lia | exact H]]].
  - apply IHa in H. destruct H as (w1 & st1 & M1 & R1 & P1 & K1).
    apply IHb in K1. destruct K1 as (w2 & st2 & M2 & R2 & P2 & K2).
    exists (w1 ++ w2), st2.
    split; [constructor; assumption |].
    split; [rewrite R1, R2, app_assoc; reflexivity |].
    split; [rewrite length_app; lia | exact K2].
  - destruct (Re.run a st k) as [res'|] eqn:Ha.
    + injection H as <-. apply IHa in Ha. destruct Ha as (w & st' & M & R & P & K).
      exists w, st'. split; [apply Re.M_AltL; exact M | tauto].
    + apply IHb in H. destruct H as (w & st' & M & R & P & K).
      exists w, st'. split; [apply Re.M_AltR; exact M | tauto].
  - remember (length (Re.rest st)) as fuel eqn:Hfuel. clear Hfuel.
    revert st H. induction fuel as [|fuel IHfuel]; intros st H.
    + exists [], st.
      split; [constructor | split; [reflexivity | split; [cbn; lia | exact H]]].
    + match type of H with
      | match ?body with _ => _ end = _ => destruct body as [res'|] eqn:Ha
      end.
      * injection H as <-. apply IHa in Ha.
        destruct Ha as (w1 & st1 & M1 & R1 & P1 & K1).
        destruct (Re.pos st <? Re.pos st1)%nat; [| discriminate].
        apply IHfuel in K1. destruct K1 as (w2 & st2 & M2 & R2 & P2 & K2).
        exists (w1 ++ w2), st2.
        split; [apply Re.M_StarCons; assumption |].
        split; [rewrite R1, R2, app_assoc; reflexivity |].
        split; [rewrite length_app; lia | exact K2].
      * exists [], st.
        split; [constructor | split; [reflexivity | split; [cbn; lia | exact H]]].
  - apply IHa in H. destruct H as (w & st1 & M & R & P & K).
    exists w, (Re.MState (Re.pos st1) (Re.prev st1) (Re.rest st1)
                 (Some (Re.pos st, Re.pos st1))).
    cbn [Re.rest Re.pos]. split; [constructor; exact M | tauto].
  - destruct (Re.at_boundary st); [| discriminate].
    exists [], st.
    split; [constructor | split; [reflexivity | split; [cbn; lia | exact H]]].
Qed.

(** A successful search is a successful match attempt at some offset of
    the text. *)
Lemma search_from_run (r : Re.regex) (l : list ascii) :
  forall (p : nat) (pv : option ascii) (m : Re.rmatch),
    Re.search_from r p pv l = Some m ->
    exists q pv' st,
      (p <= q)%nat
      /\ Re.run r (Re.MState q pv' (skipn (q - p) l) None) Some = Some st
      /\ m = Re.RMatch q (Re.pos st) (Re.grp st).
Proof.
  induction l as [|c l IH]; intros p pv m H; cbn [Re.search_from] in H.
  - destruct (Re.run r (Re.MState p pv [] None) Some) as [st|] eqn:Hrun; [| discriminate].
    injection H as <-. exists p, pv, st. rewrite Nat.sub_diag.
    split; [lia | split; [exact Hrun | reflexivity]].
  - destruct (Re.run r (Re.MState p pv (c :: l) None) Some) as [st|] eqn:Hrun.
    + injection H as <-. exists p, pv, st. rewrite Nat.sub_diag.
      split; [lia | split; [exact Hrun | reflexivity]].
    + apply IH in H. destruct H as (q & pv' & st & Hq & Hrun' & Hm).
      exists q, pv', st. split; [lia | split; [| exact Hm]].
      replace (q - p) with (S (q - S p)) by lia. exact Hrun'.
Qed.

Lemma skipn_after (A : Type) (q : nat) (t u v : list A) :
  skipn q t = u ++ v -> skipn (q + length u) t = v.
Proof.
  intros H. rewrite Nat.add_comm, <- skipn_skipn, H.
  rewrite skipn_app, skipn_all, Nat.sub_diag. reflexivity.
Qed.

Lemma substring_skipn (i : nat) :
  forall (s : string) (w r : list ascii),
    skipn i (Str.chars s) = w ++ r ->
    substring i (length w) s = Str.of_chars w.
Proof.
  induction i as [|i IH]; intros s w r H.
  - cbn [skipn] in H. revert s H. induction w as [|c w IHw]; intros s H.
    + destruct s; reflexivity.
    + destruct s as [|c' s]; [discriminate |].
      cbn in H. injection H as -> H. cbn. f_equal. apply IHw. exact H.
  - destruct s as [|c s].
    + cbn in H. destruct w; [reflexivity | discriminate].
    + cbn in H. cbn. apply (IH s w r). exact H.
Qed.

(** Texts of a repeated class, and of the number pattern. *)
Lemma matches_star_class (p : ascii -> bool) (w : list ascii) :
  Re.matches (Re.Star (Re.Cls p)) w -> forallb p w = true.
Proof.
  intros H. remember (Re.Star (Re.Cls p)) as r eqn:Hr.
  induction H as [| | | | | a |a u v Hu _ Hv IH| |]; try discriminate.
  - reflexivity.
  - injection Hr as ->. inversion Hu; subst.
    cbn. rewrite H0. apply IH. reflexivity.
Qed.

Lemma span_digits_all (u : list ascii) :
  forallb Str.isdigit u = true -> Flt.span_digits u = (u, []).
Proof.
  induction u as [|c u IH]; intros H; [reflexivity |].
  cbn in H. apply andb_prop in H. destruct H as [Hc Hu].
  cbn [Flt.span_digits]. rewrite Hc, (IH Hu). reflexivity.
Qed.

Lemma span_digits_stop (u v : list ascii) (x : ascii) :
  forallb Str.isdigit u = true -> Str.isdigit x = false ->
  Flt.span_digits (u ++ x :: v) = (u, x :: v).
Proof.
  induction u as [|c u IH]; intros H Hx.
  - cbn [app Flt.span_digits]. rewrite Hx. reflexivity.
  - cbn in H. apply andb_prop in H. destruct H as [Hc Hu].
    cbn [app Flt.span_digits]. rewrite Hc, (IH Hu Hx). reflexivity.
Qed.

Lemma chars_of_chars (w : list ascii) : Str.chars (Str.of_chars w) = w.
Proof. apply list_ascii_of_string_of_list_ascii. Qed.

(** [float] accepts every text of [[0-9]*\.?[0-9]+]. *)
Lemma number_parses (w : list ascii) :
  Re.matches Verifier.number_re w ->
  exists x, Flt.of_str (Str.of_chars w) = Exn.Ok x.
Proof.
  unfold Verifier.number_re. cbn [Re.Seqs]. unfold Re.Plus, Re.Opt.
  intros H. inversion H as [| |a b d1 w1 Hd1 Hrest| | | | | |]; subst. clear H.
  inversion Hrest as [| |a b dot w2 Hdot Hfrac| | | | | |]; subst. clear Hrest.
  inversion Hfrac as [| |a b c1 d2 Hc Hd2| | | | | |]; subst. clear Hfrac.
  inversion Hc as [|p c Hdigit| | | | | | |]; subst. clear Hc.
  apply matches_star_class in Hd1, Hd2.
  assert (Hall : forallb Str.isdigit (c :: d2) = true)
    by (cbn; rewrite Hdigit; exact Hd2).
  unfold Flt.of_str. rewrite chars_of_chars.
  inversion Hdot as [| | |a b u Hpoint|a b u Heps| | | |]; subst.
  - inversion Hpoint as [|p x Hx| | | | | | |]; subst.
    apply Ascii.eqb_eq in Hx. subst x. cbn [app].
    rewrite (span_digits_stop d1 (c :: d2) "." Hd1) by reflexivity.
    cbn [Ascii.eqb]. change (Ascii.eqb "." ".") with true. cbv iota.
    rewrite (span_digits_all (c :: d2) Hall).
    destruct (d1 ++ c :: d2) as [|y l] eqn:Happ.
    + apply app_eq_nil in Happ. destruct Happ as [_ Habs]. discriminate Habs.
    + eexists. reflexivity.
  - inversion Heps; subst. cbn [app].
    assert (Hw : forallb Str.isdigit (d1 ++ c :: d2) = true)
      by (rewrite forallb_app, Hd1; exact Hall).
    rewrite (span_digits_all _ Hw).
    destruct (d1 ++ c :: d2) as [|y l] eqn:Happ.
    + apply app_eq_nil in Happ. destruct Happ as [_ Habs]. discriminate Habs.
    + eexists. reflexivity.
Qed.

Lemma run_seq (a b : Re.regex) (st : Re.mstate) (k : Re.mstate -> option Re.mstate) :
  Re.run (Re.Seq a b) st k = Re.run a st (fun st' => Re.run b st' k).
Proof. reflexivity. Qed.

Lemma run_group (a : Re.regex) (st : Re.mstate) (k : Re.mstate -> option Re.mstate) :
  Re.run (Re.Group a) st k
  = Re.run a st (fun st' => k (Re.MState (Re.pos st') (Re.prev st') (Re.rest st')
                                  (Some (Re.pos st, Re.pos st')))).
Proof. reflexivity. Qed.

(** Group 1 of a match of the CONFIDENCE pattern is a text of the number
    pattern. *)
Lemma confidence_capture (output : string) (m : Re.rmatch) :
  Re.search Verifier.confidence_re output = Some m ->
  exists w, Re.matches Verifier.number_re w /\ Re.group1 output m = Str.of_chars w.
Proof.
  unfold Re.search. intros H. apply search_from_run in H.
  destruct H as (q & pv & st & _ & Hrun & ->).
  rewrite Nat.sub_0_r in Hrun.
  unfold Verifier.confidence_re in Hrun. cbn [Re.Seqs] in Hrun.
  rewrite run_seq in Hrun. apply run_sound in Hrun.
  destruct Hrun as (w1 & st1 & _ & R1 & P1 & Hrun). cbn [Re.rest Re.pos] in R1, P1.
  rewrite run_seq in Hrun. apply run_sound in Hrun.
  destruct Hrun as (w2 & st2 & _ & R2 & P2 & Hrun).
  rewrite run_group in Hrun. apply run_sound in Hrun.
  destruct Hrun as (w & st3 & Hw & R3 & P3 & Hres).
  injection Hres as <-.
  exists w. split; [exact Hw |].
  unfold Re.group1, Str.slice. cbn [Re.m_group Re.grp].
  replace (Re.pos st3 - Re.pos st2) with (length w) by lia.
  apply substring_skipn with (r := Re.rest st3).
  rewrite <- R3.
  replace (Re.pos st2) with (q + length w1 + length w2) by lia.
  apply skipn_after. rewrite <- R2. apply skipn_after. exact R1.
Qed.

Lemma confidence_group_parses (output : string) (m : Re.rmatch) :
  Re.search Verifier.confidence_re output = Some m ->
  exists x, Flt.of_str (Re.group1 output m) = Exn.Ok x.
Proof.
  intros H. apply confidence_capture in H. destruct H as (w & Hw & ->).
  apply number_parses. exact Hw.
Qed.

(* ===================================================================== *)
(** ** Floats: comparisons and rounding to three decimals *)
(* ===================================================================== *)

Lemma Prim2SF_one : Prim2SF 1 = S754_finite false 4503599627370496 (-52).
Proof. vm_compute. reflexivity. Qed.

Lemma Prim2SF_zero : Prim2SF 0 = S754_zero false.
Proof. vm_compute. reflexivity. Qed.

(** [x < y] gives [x <= y]. *)
Lemma ltb_leb (x y : float) : (x <? y)%float = true -> (x <=? y)%float = true.
Proof.
  rewrite ltb_spec, leb_spec. unfold SFltb, SFleb.
  destruct (SFcompare (Prim2SF x) (Prim2SF y)) as [[| |]|]; congruence.
Qed.

(** The clamp [max(a, min(b, x))] lies between [a] and [b], whatever [x]
    is, for numbers [a <= b]. *)
Lemma clamp_within (a b x : float) :
  (a <=? a)%float = true -> (b <=? b)%float = true -> (a <=? b)%float = true ->
  Flt.within a b (Flt.max a (Flt.min b x)) = true.
Proof.
  intros Ha Hb Hab. unfold Flt.within, Flt.max, Flt.min.
  destruct (x <? b)%float eqn:Hxb.
  - destruct (a <? x)%float eqn:Hax.
    + rewrite (ltb_leb _ _ Hax), (ltb_leb _ _ Hxb). reflexivity.
    + rewrite Ha, Hab. reflexivity.
  - destruct (a <? b)%float eqn:Hab'.
    + rewrite Hab, Hb. reflexivity.
    + rewrite Ha, Hab. reflexivity.
Qed.

Lemma digits2_pos_bound (m : positive) :
  (Zpos m < 2 ^ Zpos (SpecFloat.digits2_pos m))%Z.
Proof.
  induction m as [m IH|m IH|]; cbn [SpecFloat.digits2_pos].
  - rewrite Pos2Z.inj_succ, Z.pow_succ_r by lia. lia.
  - rewrite Pos2Z.inj_succ, Z.pow_succ_r by lia. lia.
  - reflexivity.
Qed.

Lemma compare_cont_not_gt (p : positive) :
  forall (q : positive) (r : comparison),
    PosDef.Pos.compare_cont r p q <> Gt ->
    (Zpos p <= Zpos q)%Z /\ (r = Gt -> (Zpos p < Zpos q)%Z).
Proof.
  induction p as [p IH|p IH|]; intros [q|q|] r H; cbn [PosDef.Pos.compare_cont] in H.
  - apply IH in H. destruct H as [H1 H2]. split; [lia | intros Hr; specialize (H2 Hr); lia].
  - apply IH in H. destruct H as [H1 H2]. specialize (H2 eq_refl). split; [lia | intros; lia].
  - congruence.
  - apply IH in H. destruct H as [H1 H2]. split; [lia | intros; lia].
  - apply IH in H. destruct H as [H1 H2]. split; [lia | intros Hr; specialize (H2 Hr); lia].
  - congruence.
  - split; [lia | intros; lia].
  - split; [lia | intros; lia].
  - split; [lia | intros ->; congruence].
Qed.

(** A finite double that compares at most one has a value of at most
    one: its mantissa [m] and exponent [e] satisfy [m <= 2^(-e)]. *)
Lemma at_most_one (m : positive) (e : Z) :
  SpecFloat.valid_binary prec emax (S754_finite false m e) = true ->
  SFleb (S754_finite false m e) (Prim2SF 1) = true ->
  (e < 0)%Z /\ (Zpos m <= 2 ^ (- e))%Z.
Proof.
  intros Hvalid Hle. rewrite Prim2SF_one in Hle.
  unfold SpecFloat.valid_binary, SpecFloat.bounded, SpecFloat.canonical_mantissa in Hvalid.
  apply andb_prop in Hvalid. destruct Hvalid as [Hcanon _].
  apply Z.eqb_eq in Hcanon. unfold SpecFloat.fexp, SpecFloat.emin, prec, emax in Hcanon.
  pose proof (digits2_pos_bound m) as Hdigits.
  unfold SFleb, SFcompare in Hle.
  destruct (Z.compare_spec e (-52)) as [He|He|He]; try discriminate.
  - subst e. split; [lia |].
    destruct (compare_cont_not_gt m 4503599627370496%positive Eq) as [Hm _].
    + intros Hgt. rewrite Hgt in Hle. discriminate Hle.
    + exact Hm.
  - split; [lia |].
    assert (Hd : (Z.pos (digits2_pos m) <= 53)%Z) by lia.
    assert (Hpow : (2 ^ Z.pos (digits2_pos m) <= 2 ^ (- e))%Z)
      by (apply Z.pow_le_mono_r; lia).
    lia.
Qed.

(** Rounding a value of at most one to thousandths gives at most 1000. *)
Lemma thousandths_at_most (m : positive) (e : Z) :
  (e < 0)%Z -> (Zpos m <= 2 ^ (- e))%Z ->
  (0 <= Flt.scaled_thousandths m e <= 1000)%Z.
Proof.
  intros He Hm. unfold Flt.scaled_thousandths.
  destruct e as [|p|p]; try lia.
  change (- Z.neg p)%Z with (Z.pos p) in Hm.
  remember (2 ^ Z.pos p)%Z as d eqn:Hd.
  assert (Hdpos : (0 < d)%Z) by (subst d; apply Z.pow_pos_nonneg; lia).
  pose proof (Z.div_mod (1000 * Z.pos m) d ltac:(lia)) as Hdm.
  pose proof (Z.mod_pos_bound (1000 * Z.pos m) d Hdpos) as Hr.
  remember (1000 * Z.pos m / d)%Z as q eqn:Hq.
  remember ((1000 * Z.pos m) mod d)%Z as r eqn:Hrem.
  assert (Hq0 : (0 <= q)%Z) by (subst q; apply Z.div_pos; lia).
  assert (Hqd : (q * d <= 1000 * d)%Z) by lia.
  assert (Hq1000 : (q <= 1000)%Z) by nia.
  destruct (Z.compare_spec (2 * r) d) as [Hc|Hc|Hc].
  - destruct (Z.even q); [lia |].
    assert (q <> 1000)%Z by (intros ->; nia). lia.
  - lia.
  - assert (q <> 1000)%Z by (intros ->; nia). lia.
Qed.

(** The doubles nearest to the thousandths up to one lie between 0 and
    1. *)
Lemma nearest_thousandths_table :
  forallb (fun n => Flt.within 0 1 (Flt.nearest (Pos.of_nat n) 1000)) (seq 1 1000) = true.
Proof. vm_compute. reflexivity. Qed.

Lemma nearest_thousandth_within (p : positive) :
  (Zpos p <= 1000)%Z -> Flt.within 0 1 (Flt.nearest p 1000) = true.
Proof.
  intros Hp. pose proof nearest_thousandths_table as Htable.
  rewrite forallb_forall in Htable.
  specialize (Htable (Pos.to_nat p)). rewrite Pos2Nat.id in Htable.
  apply Htable. apply in_seq. lia.
Qed.

(** [round(x, 3)] keeps a value of the unit interval in the unit
    interval. *)
Lemma round3_unit_interval (x : float) :
  Flt.within 0 1 x = true -> Flt.within 0 1 (Flt.round3 x) = true.
Proof.
  intros Hx. pose proof Hx as Hx'. unfold Flt.within in Hx'.
  apply andb_prop in Hx'. destruct Hx' as [H0 H1].
  rewrite leb_spec in H0, H1. rewrite Prim2SF_zero in H0.
  pose proof (Prim2SF_valid x) as Hvalid.
  unfold Flt.round3.
  destruct (Prim2SF x) as [s|s| |s m e].
  - exact Hx.
  - destruct s; [discriminate H0 |]. rewrite Prim2SF_one in H1. discriminate H1.
  - discriminate H0.
  - destruct s; [discriminate H0 |].
    destruct (at_most_one m e Hvalid H1) as [He Hm].
    pose proof (thousandths_at_most m e He Hm) as Hn.
    destruct (Flt.scaled_thousandths m e) as [|p|p].
    + reflexivity.
    + cbv zeta. apply nearest_thousandth_within. lia.
    + reflexivity.
Qed.

(* ===================================================================== *)
(** ** The verdict, the confidence and the reason of the verifier *)
(* ===================================================================== *)





(** Reading an answer never raises: the confidence is the number of the
    CONFIDENCE match, which [float] accepts, or the default. *)
Lemma parse_output_returns (output : string) :
  exists x,
    Verifier.parse_output output
    = Exn.Ok (match Re.search Verifier.verdict_re output with
              | Some m => Str.lower (Re.group1 output m)
              | None => "unverified"
              end,
              x,
              match Re.search Verifier.reason_re output with
              | Some m => Str.strip (Re.group1 output m)
              | None => "Analysis completed"
              end)
    /\ match Re.search Verifier.confidence_re output with
       | Some m => Flt.of_str (Re.group1 output m) = Exn.Ok x
       | None => x = 0.5%float
       end.
Proof.
  unfold Verifier.parse_output. cbv zeta.
  destruct (Re.search Verifier.confidence_re output) as [m|] eqn:Hc.
  - destruct (confidence_group_parses output m Hc) as [x Hx].
    exists x. rewrite Hx. split; reflexivity.
  - exists 0.5%float. split; reflexivity.
Qed.

Section JudgeFacts.

Variable env : Verifier.Collaborators.

(** The three ways in which [judge] ends. *)
Lemma judge_absent (claim text : string) (calls : list Eff.call) :
  Verifier.groq_client env = None ->
  Verifier.judge env claim text calls
  = (Exn.Ok ("unverified", 0.3%float, "Verification service unavailable"), calls).
Proof. intros H. unfold Verifier.judge. rewrite H. reflexivity. Qed.

Lemma judge_raises (claim text : string) (calls : list Eff.call)
  (create : string -> string -> Exn.result string) (e : Exn.exn) :
  Verifier.groq_client env = Some create ->
  create claim text = Exn.Raise e ->
  Verifier.judge env claim text calls
  = (Exn.Ok ("unverified", 0.3%float, "Service error"),
     calls ++ [Eff.ChatCompletion claim text]).
Proof.
  intros H He. unfold Verifier.judge. rewrite H.
  unfold Eff.try_except, Eff.bind, Eff.perform. rewrite He. reflexivity.
Qed.

Lemma judge_answers (claim text : string) (calls : list Eff.call)
  (create : string -> string -> Exn.result string) (content : string) :
  Verifier.groq_client env = Some create ->
  create claim text = Exn.Ok content ->
  exists answer,
    Verifier.parse_output (Str.strip content) = Exn.Ok answer
    /\ Verifier.judge env claim text calls
       = (Exn.Ok answer, calls ++ [Eff.ChatCompletion claim text]).
Proof.
  intros H Hc. destruct (parse_output_returns (Str.strip content)) as (x & Hparse & _).
  eexists. split; [exact Hparse |].
  unfold Verifier.judge. rewrite H.
  unfold Eff.try_except, Eff.bind, Eff.perform, Eff.lift. rewrite Hc, Hparse. reflexivity.
Qed.

(** A run of [verify_claim] is the collection of evidence followed by
    [judge] on its digest. *)
Lemma verify_claim_run (claim : string) :
  exists evidence made,
    Verifier.collect_evidence env claim [] = (Exn.Ok evidence, made)
    /\ existsb Eff.is_reasoning_call made = false
    /\ Verifier.digest_of env claim = Verifier.evidence_digest evidence
    /\ forall answer made',
         Verifier.judge env claim (Verifier.evidence_digest evidence) made
         = (Exn.Ok answer, made') ->
         Eff.run (Verifier.verify_claim env claim)
         = (Exn.Ok {| Verifier.claim := claim;
                      Verifier.verdict := fst (fst answer);
                      Verifier.confidence := Flt.round3 (snd (fst answer));
                      Verifier.rationale := snd answer;
                      Verifier.evidence := firstn 20 evidence |},
            made').
Proof.
  destruct (collect_evidence_returns env claim []) as (evidence & made & Hrun & Hmade).
  cbn [app] in Hrun.
  exists evidence, made. split; [exact Hrun | split; [exact Hmade | split]].
  - apply (digest_of_run env claim evidence made Hrun).
  - intros [[verdict confidence] reason] made' Hjudge.
    unfold Eff.run, Verifier.verify_claim, Eff.bind at 1. rewrite Hrun.
    cbv zeta. unfold Eff.bind at 1. rewrite Hjudge. reflexivity.
Qed.

End JudgeFacts.

(** Every run of [verify_claim]: the evidence is collected without a
    request to the reasoning service, and [judge] ends in one of its three
    ways. *)
Lemma verify_claim_cases (env : Verifier.Collaborators) (claim : string) :
  exists evidence made answer made',
    Verifier.collect_evidence env claim [] = (Exn.Ok evidence, made)
    /\ existsb Eff.is_reasoning_call made = false
    /\ Verifier.digest_of env claim = Verifier.evidence_digest evidence
    /\ Eff.run (Verifier.verify_claim env claim)
       = (Exn.Ok {| Verifier.claim := claim;
                    Verifier.verdict := fst (fst answer);
                    Verifier.confidence := Flt.round3 (snd (fst answer));
                    Verifier.rationale := snd answer;
                    Verifier.evidence := firstn 20 evidence |},
          made ++ made')
    /\ ((Verifier.groq_client env = None
         /\ answer = ("unverified", 0.3%float, "Verification service unavailable")
         /\ made' = [])
        \/ (exists create e,
              Verifier.groq_client env = Some create
              /\ create claim (Verifier.evidence_digest evidence) = Exn.Raise e
              /\ answer = ("unverified", 0.3%float, "Service error")
              /\ made' = [Eff.ChatCompletion claim (Verifier.evidence_digest evidence)])
        \/ (exists create content,
              Verifier.groq_client env = Some create
              /\ create claim (Verifier.evidence_digest evidence) = Exn.Ok content
              /\ Verifier.parse_output (Str.strip content) = Exn.Ok answer
              /\ made' = [Eff.ChatCompletion claim (Verifier.evidence_digest evidence)])).
Proof.
  destruct (verify_claim_run env claim) as (evidence & made & Hrun & Hmade & Hdigest & Hverify).
  exists evidence, made.
  destruct (Verifier.groq_client env) as [create|] eqn:Hclient.
  - destruct (create claim (Verifier.evidence_digest evidence)) as [content|e] eqn:Hcreate.
    + destruct (judge_answers env claim _ made create content Hclient Hcreate)
        as (answer & Hparse & Hjudge).
      exists answer, [Eff.ChatCompletion claim (Verifier.evidence_digest evidence)].
      split; [exact Hrun | split; [exact Hmade | split; [exact Hdigest | split]]].
      * apply Hverify. exact Hjudge.
      * right. right. exists create, content. tauto.
    + exists ("unverified", 0.3%float, "Service error"),
             [Eff.ChatCompletion claim (Verifier.evidence_digest evidence)].
      split; [exact Hrun | split; [exact Hmade | split; [exact Hdigest | split]]].
      * apply Hverify. apply (judge_raises env claim _ made create e Hclient Hcreate).
      * right. left. exists create, e. tauto.
  - exists ("unverified", 0.3%float, "Verification service unavailable"), [].
    split; [exact Hrun | split; [exact Hmade | split; [exact Hdigest | split]]].
    + apply Hverify. rewrite app_nil_r. apply (judge_absent env claim _ made Hclient).
    + left. tauto.
Qed.

(** X2.  [verify_claim] returns a result for every claim, whatever the
    collaborators do (any of them may raise on any call): the result
    carries the claim unchanged, at most 20 evidence items, and the run
    makes at most one request to the reasoning service. *)
Theorem verify_claim_always_returns (env : Verifier.Collaborators) (claim : string) :
  exists r calls,
    Eff.run (Verifier.verify_claim env claim) = (Exn.Ok r, calls)
    /\ Verifier.claim r = claim
    /\ (length (Verifier.evidence r) <= 20)%nat
    /\ (length (List.filter Eff.is_reasoning_call calls) <= 1)%nat.
Proof.
  destruct (verify_claim_cases env claim)
    as (evidence & made & answer & made' & _ & Hmade & _ & Hrun & Hcases).
  eexists. eexists. split; [exact Hrun |].
  cbn [Verifier.claim Verifier.evidence].
  split; [reflexivity | split; [apply firstn_length_le |]].
  rewrite List.filter_app, length_app.
  assert (Hnone : List.filter Eff.is_reasoning_call made = []).
  { clear -Hmade. induction made as [|c made IH]; [reflexivity |].
    cbn in Hmade. apply orb_false_elim in Hmade. destruct Hmade as [Hc Hrest].
    cbn. rewrite Hc. apply IH. exact Hrest. }
  rewrite Hnone.
  destruct Hcases as [(_ & _ & ->) | [(c1 & e1 & _ & _ & _ & ->) | (c2 & t2 & _ & _ & _ & ->)]];
    cbn; lia.
Qed.


(** X4.  When the request to the reasoning service raises (transport
    error, timeout), [verify_claim] returns the verdict "unverified", the
    confidence 0.3 and the rationale "Service error", and has made the
    request once. *)
Theorem failing_reasoning_service (env : Verifier.Collaborators) (claim : string)
  (create : string -> string -> Exn.result string) (e : Exn.exn) :
  Verifier.groq_client env = Some create ->
  create claim (Verifier.digest_of env claim) = Exn.Raise e ->
  exists evidence calls,
    Eff.run (Verifier.verify_claim env claim)
    = (Exn.Ok {| Verifier.claim := claim;
                 Verifier.verdict := "unverified";
                 Verifier.confidence := 0.3;
                 Verifier.rationale := "Service error";
                 Verifier.evidence := evidence |},
       calls ++ [Eff.ChatCompletion claim (Verifier.digest_of env claim)])
    /\ existsb Eff.is_reasoning_call calls = false.
Proof.
  intros Hclient Hraise.
  destruct (verify_claim_run env claim) as (evidence & made & Hrun & Hmade & Hdigest & Hverify).
  rewrite Hdigest in Hraise |- *.
  exists (firstn 20 evidence), made.
  rewrite (Hverify _ _ (judge_raises env claim _ made create e Hclient Hraise)).
  cbn [fst snd]. destruct round3_of_defaults as [-> _].
  split; [reflexivity | exact Hmade].
Qed.

Lemma failing_reasoning_service_witness :
  exists evidence calls,
    Eff.run (Verifier.verify_claim Evidence.failing Sample.schools_claim)
    = (Exn.Ok {| Verifier.claim := Sample.schools_claim;
                 Verifier.verdict := "unverified";
                 Verifier.confidence := 0.3;
                 Verifier.rationale := "Service error";
                 Verifier.evidence := evidence |},
       calls ++ [Eff.ChatCompletion Sample.schools_claim
                   (Verifier.digest_of Evidence.failing Sample.schools_claim)])
    /\ existsb Eff.is_reasoning_call calls = false.
Proof.
  exact (failing_reasoning_service Evidence.failing Sample.schools_claim
           (fun _ _ => Exn.Raise (Exn.External "timeout")) (Exn.External "timeout")
           eq_refl eq_refl).
Defined.

(** X5.  The three fields read from the answer of the reasoning service
    default independently, and reading them never raises: the verdict is
    the lower-cased VERDICT match or "unverified", the confidence is the
    number of the CONFIDENCE match rounded to three decimals or 0.5, the
    rationale is the trimmed REASON match or "Analysis completed"; each
    field follows its own match whatever the two others do. *)
Theorem answer_fields_default_independently (env : Verifier.Collaborators)
  (claim : string) (create : string -> string -> Exn.result string) (content : string) :
  Verifier.groq_client env = Some create ->
  create claim (Verifier.digest_of env claim) = Exn.Ok content ->
  let output := Str.strip content in
  exists r calls,
    Eff.run (Verifier.verify_claim env claim) = (Exn.Ok r, calls)
    /\ Verifier.verdict r
       = match Re.search Verifier.verdict_re output with
         | Some m => Str.lower (Re.group1 output m)
         | None => "unverified"
         end
    /\ match Re.search Verifier.confidence_re output with
       | Some m => exists x, Flt.of_str (Re.group1 output m) = Exn.Ok x
                             /\ Verifier.confidence r = Flt.round3 x
       | None => Verifier.confidence r = 0.5%float
       end
    /\ Verifier.rationale r
       = match Re.search Verifier.reason_re output with
         | Some m => Str.strip (Re.group1 output m)
         | None => "Analysis completed"
         end.
Proof.
  intros Hclient Hanswer output.
  destruct (verify_claim_run env claim) as (evidence & made & Hrun & Hmade & Hdigest & Hverify).
  rewrite Hdigest in Hanswer.
  destruct (judge_answers env claim _ made create content Hclient Hanswer)
    as (answer & Hparse & Hjudge).
  destruct (parse_output_returns output) as (x & Hparse' & Hx).
  fold output in Hparse. rewrite Hparse' in Hparse. injection Hparse as <-.
  eexists. eexists. split; [apply Hverify; exact Hjudge |].
  cbn [Verifier.verdict Verifier.confidence Verifier.rationale fst snd].
  split; [reflexivity | split; [| reflexivity]].
  destruct (Re.search Verifier.confidence_re output) as [m|].
  - exists x. split; [exact Hx | reflexivity].
  - rewrite Hx. apply round3_of_defaults.
Qed.

Lemma answer_fields_default_independently_witness :
  exists r calls,
    Eff.run (Verifier.verify_claim (Sample.answering "VERDICT: False") Sample.schools_claim)
    = (Exn.Ok r, calls)
    /\ Verifier.verdict r = "false"
    /\ Verifier.confidence r = 0.5%float
    /\ Verifier.rationale r = "Analysis completed".
Proof.
  destruct (answer_fields_default_independently (Sample.answering "VERDICT: False")
              Sample.schools_claim (fun _ _ => Exn.Ok "VERDICT: False") "VERDICT: False"
              eq_refl eq_refl) as (r & calls & Hrun & Hv & Hc & Hr).
  exists r, calls. split; [exact Hrun |].
  split; [rewrite Hv; vm_compute; reflexivity |].
  split; [exact Hc | rewrite Hr; vm_compute; reflexivity].
Defined.

(** X6.  The confidence of every result of [verify_claim] is the parsed
    or defaulted value rounded to three decimals: 0.3 without a reasoning
    service or when its request raises, 0.5 when the answer has no
    CONFIDENCE match, the matched number otherwise.  The value is not
    clamped; the confidence lies between 0 and 1 whenever the value
    does. *)
Theorem confidence_is_rounded_value (env : Verifier.Collaborators) (claim : string) :
  exists r calls value,
    Eff.run (Verifier.verify_claim env claim) = (Exn.Ok r, calls)
    /\ Verifier.confidence r = Flt.round3 value
    /\ match Verifier.groq_client env with
       | None => value = 0.3%float
       | Some create =>
           match create claim (Verifier.digest_of env claim) with
           | Exn.Raise _ => value = 0.3%float
           | Exn.Ok content =>
               match Re.search Verifier.confidence_re (Str.strip content) with
               | Some m => Flt.of_str (Re.group1 (Str.strip content) m) = Exn.Ok value
               | None => value = 0.5%float
               end
           end
       end
    /\ (Flt.within 0 1 value = true -> Flt.within 0 1 (Verifier.confidence r) = true).
Proof.
  destruct (verify_claim_cases env claim)
    as (evidence & made & answer & made' & _ & _ & Hdigest & Hrun & Hcases).
  eexists. eexists. exists (snd (fst answer)).
  split; [exact Hrun |]. cbn [Verifier.confidence].
  split; [reflexivity | split; [| apply round3_unit_interval]].
  rewrite Hdigest.
  destruct Hcases as [(-> & -> & _) | [(create & e & -> & -> & -> & _)
                                      | (create & content & -> & -> & Hparse & _)]].
  - reflexivity.
  - reflexivity.
  - destruct (parse_output_returns (Str.strip content)) as (x & Hparse' & Hx).
    rewrite Hparse' in Hparse. injection Hparse as <-. exact Hx.
Qed.

(* ===================================================================== *)
(** ** The evidence list and the calls of the verifier *)
(* ===================================================================== *)

Section EvidenceFacts.

Variable env : Verifier.Collaborators.

Lemma keys_recorded_grow (seen : gset string) (evidence : list Verifier.EvidenceItem)
  (k : string) :
  Evidence.keys_recorded seen evidence -> Evidence.keys_recorded ({[ k ]} ∪ seen) evidence.
Proof.
  intros [Hnodup Hseen]. split; [exact Hnodup |].
  intros e He. apply elem_of_union_r. apply Hseen. exact He.
Qed.

Lemma keys_recorded_add (seen : gset string) (evidence : list Verifier.EvidenceItem)
  (item : Verifier.EvidenceItem) :
  Evidence.keys_recorded seen evidence ->
  Evidence.key item ∉ seen ->
  Evidence.keys_recorded ({[ Evidence.key item ]} ∪ seen) (evidence ++ [item]).
Proof.
  intros [Hnodup Hseen] Hfresh. split.
  - rewrite map_app. apply List.NoDup_app.
    + exact Hnodup.
    + cbn. constructor; [intros [] | constructor].
    + intros k Hk [Hitem|[]]. subst k.
      apply in_map_iff in Hk. destruct Hk as (e & Hkey & He).
      apply Hfresh. rewrite <- Hkey. apply Hseen. exact He.
  - intros e He. apply in_app_or in He. destruct He as [He|[He|[]]].
    + apply elem_of_union_r. apply Hseen. exact He.
    + subst e. apply elem_of_union_l. apply elem_of_singleton. reflexivity.
Qed.

Lemma add_results_keys (results : list (Verifier.Document * float)) :
  forall seen evidence,
    Evidence.keys_recorded seen evidence ->
    Evidence.keys_recorded (fst (Verifier.add_results results seen evidence))
                  (snd (Verifier.add_results results seen evidence)).
Proof.
  induction results as [|[doc score] results IH]; intros seen evidence Hinv.
  - exact Hinv.
  - cbn [Verifier.add_results]. cbv zeta.
    set (url := Verifier.get_or (Verifier.metadata doc) "url" "").
    set (title := Verifier.get_or (Verifier.metadata doc) "title" "").
    destruct (bool_decide (Str.or_else url title ∈ seen)) eqn:Hseen;
      [cbn [orb]; apply IH; exact Hinv |].
    destruct (0.9 <? score)%float; cbn [orb]; [apply IH; exact Hinv |].
    apply bool_decide_eq_false in Hseen.
    destruct (Str.truthy url).
    + destruct (Verifier.third_piece url) as [piece|e]; cbn [Exn.rbind].
      * apply IH.
        apply (keys_recorded_add seen evidence
                 {| Verifier.title := title; Verifier.url := url;
                    Verifier.summary := Str.take 1800 (Verifier.page_content doc);
                    Verifier.stance := Verifier.neutral;
                    Verifier.published :=
                      Verifier.or_opt (Verifier.metadata doc !! "published")
                                      (Verifier.metadata doc !! "date");
                    Verifier.source_domain := Some piece;
                    Verifier.origin := Verifier.dataset |} Hinv Hseen).
      * cbn [fst snd]. apply keys_recorded_grow. exact Hinv.
    + apply IH.
      apply (keys_recorded_add seen evidence
               {| Verifier.title := title; Verifier.url := url;
                  Verifier.summary := Str.take 1800 (Verifier.page_content doc);
                  Verifier.stance := Verifier.neutral;
                  Verifier.published :=
                    Verifier.or_opt (Verifier.metadata doc !! "published")
                                    (Verifier.metadata doc !! "date");
                  Verifier.source_domain := None;
                  Verifier.origin := Verifier.dataset |} Hinv Hseen).
Qed.

Lemma add_feed_keys (docs : list Verifier.Document) :
  forall seen evidence,
    Evidence.keys_recorded seen evidence ->
    List.NoDup (map Evidence.key (Verifier.add_feed docs seen evidence)).
Proof.
  induction docs as [|doc docs IH]; intros seen evidence Hinv.
  - apply Hinv.
  - cbn [Verifier.add_feed]. cbv zeta.
    set (url := Verifier.get_or (Verifier.metadata doc) "url" "").
    destruct (bool_decide (url ∈ seen)) eqn:Hseen; [apply IH; exact Hinv |].
    apply bool_decide_eq_false in Hseen. apply IH.
    apply (keys_recorded_add seen evidence
             {| Verifier.title := Verifier.get_or (Verifier.metadata doc) "title" "News";
                Verifier.url := url;
                Verifier.summary := Str.take 1800 (Verifier.page_content doc);
                Verifier.stance := Verifier.neutral;
                Verifier.published := Verifier.metadata doc !! "published";
                Verifier.source_domain := None;
                Verifier.origin := Verifier.rss |} Hinv Hseen).
Qed.

(** What the search loop does to the state and to the record of calls:
    one similarity search per query, in order, with [k = 50]. *)
Lemma search_all_spec (P : gset string -> list Verifier.EvidenceItem -> Prop)
  (Hstep : forall query results seen evidence,
      Verifier.similarity_search_with_score env query 50 = Exn.Ok results ->
      P seen evidence ->
      P (fst (Verifier.add_results results seen evidence))
        (snd (Verifier.add_results results seen evidence)))
  (queries : list string) :
  forall seen evidence calls,
    P seen evidence ->
    exists st,
      Verifier.search_all env queries seen evidence calls
      = (Exn.Ok st, calls ++ map (fun q => Eff.SimilaritySearch q 50) queries)
      /\ P (fst st) (snd st).
Proof.
  induction queries as [|query rest IH]; intros seen evidence calls HP.
  - exists (seen, evidence). cbn. rewrite app_nil_r. split; [reflexivity | exact HP].
  - cbn [Verifier.search_all map].
    unfold Eff.bind at 1, Eff.try_except, Eff.bind, Eff.perform, Eff.ret.
    destruct (Verifier.similarity_search_with_score env query 50) as [results|e] eqn:Hsearch.
    + destruct (IH (fst (Verifier.add_results results seen evidence))
                   (snd (Verifier.add_results results seen evidence))
                   (calls ++ [Eff.SimilaritySearch query 50])
                   (Hstep query results seen evidence Hsearch HP)) as (st & Hrun & Hst).
      exists st. rewrite Hrun, <- app_assoc. split; [reflexivity | exact Hst].
    + destruct (IH seen evidence (calls ++ [Eff.SimilaritySearch query 50]) HP)
        as (st & Hrun & Hst).
      exists st. cbn [fst snd]. rewrite Hrun, <- app_assoc.
      split; [reflexivity | exact Hst].
Qed.

(** The collection of evidence in full. *)
Lemma collect_evidence_spec (P : gset string -> list Verifier.EvidenceItem -> Prop)
  (Hstep : forall query results seen evidence,
      Verifier.similarity_search_with_score env query 50 = Exn.Ok results ->
      P seen evidence ->
      P (fst (Verifier.add_results results seen evidence))
        (snd (Verifier.add_results results seen evidence)))
  (claim : string) :
  P ∅ [] ->
  exists seen found evidence,
    P seen found
    /\ match Verifier.fetch_recent env 120 30 with
       | Exn.Ok docs => evidence = Verifier.add_feed docs seen found
       | Exn.Raise _ => evidence = found
       end
    /\ Verifier.collect_evidence env claim []
       = (Exn.Ok evidence,
Evidence.retrieval_calls claim).
Proof.
  intros Hinit. unfold Verifier.collect_evidence, Evidence.retrieval_calls. cbv zeta.
  destruct (search_all_spec P Hstep (Evidence.all_queries claim) ∅ [] [] Hinit)
    as ([seen found] & Hrun & HP).
  unfold Evidence.all_queries in Hrun. unfold Eff.bind at 1. rewrite Hrun.
  unfold Eff.try_except, Eff.bind, Eff.perform, Eff.ret. cbn [fst snd app] in *.
  destruct (Verifier.fetch_recent env 120 30) as [docs|e].
  - exists seen, found, (Verifier.add_feed docs seen found).
    split; [exact HP | split; reflexivity].
  - exists seen, found, found.
    split; [exact HP | split; reflexivity].
Qed.

End EvidenceFacts.

Lemma In_firstn (A : Type) (n : nat) (l : list A) (x : A) :
  In x (firstn n l) -> In x l.
Proof.
  revert n. induction l as [|y l IH]; intros [|n] H; cbn in *; try contradiction.
  destruct H as [H|H]; [left; exact H | right; exact (IH n H)].
Qed.

Lemma NoDup_firstn (A : Type) (n : nat) (l : list A) :
  List.NoDup l -> List.NoDup (firstn n l).
Proof.
  revert n. induction l as [|x l IH]; intros [|n] H; cbn; try constructor.
  - inversion H as [|y l' Hx Hl]; subst. intros Hin. apply Hx.
    exact (In_firstn A n l x Hin).
  - inversion H; subst. apply IH. assumption.
Qed.

Lemma take_length (n : nat) (s : string) : Str.len (Str.take n s) <= n.
Proof.
  unfold Str.len, Str.take. revert n.
  induction s as [|c s IH]; intros [|n]; cbn; try lia.
  specialize (IH n). lia.
Qed.

Lemma add_results_as_built (results : list (Verifier.Document * float)) :
  forall (seen : gset string) evidence,
    Forall Evidence.as_built evidence ->
    Forall Evidence.as_built (snd (Verifier.add_results results seen evidence)).
Proof.
  induction results as [|[doc score] results IH]; intros seen evidence Hall.
  - exact Hall.
  - cbn [Verifier.add_results]. cbv zeta.
    destruct (bool_decide _ || _); [apply IH; exact Hall |].
    destruct (Str.truthy _) eqn:Hurl.
    + destruct (Verifier.third_piece _) as [piece|e] eqn:Hpiece; cbn [Exn.rbind].
      * apply IH. apply Forall_app. split; [exact Hall |].
        constructor; [| constructor].
        split; [reflexivity | split; [apply take_length |]].
        cbn [Verifier.origin Verifier.url Verifier.source_domain]. rewrite Hurl.
        exists piece. split; [exact Hpiece | reflexivity].
      * exact Hall.
    + apply IH. apply Forall_app. split; [exact Hall |].
      constructor; [| constructor].
      split; [reflexivity | split; [apply take_length |]].
      cbn [Verifier.origin Verifier.url Verifier.source_domain]. rewrite Hurl. reflexivity.
Qed.

Lemma add_feed_as_built (docs : list Verifier.Document) :
  forall (seen : gset string) evidence,
    Forall Evidence.as_built evidence ->
    Forall Evidence.as_built (Verifier.add_feed docs seen evidence).
Proof.
  induction docs as [|doc docs IH]; intros seen evidence Hall.
  - exact Hall.
  - cbn [Verifier.add_feed]. cbv zeta.
    destruct (bool_decide _); [apply IH; exact Hall |].
    apply IH. apply Forall_app. split; [exact Hall |].
    constructor; [| constructor].
    split; [reflexivity | split; [apply take_length | reflexivity]].
Qed.

Lemma Forall_firstn (A : Type) (P : A -> Prop) (n : nat) (l : list A) :
  Forall P l -> Forall P (firstn n l).
Proof.
  intros H. apply List.Forall_forall. intros x Hx.
  rewrite List.Forall_forall in H. apply H. exact (In_firstn A n l x Hx).
Qed.

(** The evidence and the calls of a run of [verify_claim]. *)
Lemma verify_claim_evidence (env : Verifier.Collaborators) (claim : string)
  (P : gset string -> list Verifier.EvidenceItem -> Prop)
  (Hstep : forall query results seen evidence,
      Verifier.similarity_search_with_score env query 50 = Exn.Ok results ->
      P seen evidence ->
      P (fst (Verifier.add_results results seen evidence))
        (snd (Verifier.add_results results seen evidence))) :
  P ∅ [] ->
  exists r calls seen found evidence,
    Eff.run (Verifier.verify_claim env claim) = (Exn.Ok r, calls)
    /\ P seen found
    /\ match Verifier.fetch_recent env 120 30 with
       | Exn.Ok docs => evidence = Verifier.add_feed docs seen found
       | Exn.Raise _ => evidence = found
       end
    /\ Verifier.evidence r = firstn 20 evidence
    /\ calls = Evidence.retrieval_calls claim
               ++ match Verifier.groq_client env with
                  | None => []
                  | Some _ => [Eff.ChatCompletion claim (Verifier.digest_of env claim)]
                  end.
Proof.
  intros Hinit.
  destruct (collect_evidence_spec env P Hstep claim Hinit)
    as (seen & found & evidence & HP & Hfeed & Hcollect).
  destruct (verify_claim_cases env claim)
    as (evidence' & made & answer & made' & Hcollect' & _ & Hdigest & Hrun & Hcases).
  rewrite Hcollect in Hcollect'. injection Hcollect' as <- <-.
  eexists. eexists. exists seen, found, evidence.
  split; [exact Hrun |]. split; [exact HP |]. split; [exact Hfeed |].
  split; [reflexivity |]. rewrite Hdigest. f_equal.
  destruct Hcases as [(-> & _ & ->) | [(c1 & e1 & -> & _ & _ & ->) | (c2 & t2 & -> & _ & _ & ->)]];
    reflexivity.
Qed.

(** X7.  No two items of the evidence returned by [verify_claim] have the
    same key, where the key of an item of the similarity search is its url,
    or its title when the url is empty, and the key of an item of the news
    feed is its url. *)
Theorem evidence_keys_are_distinct (env : Verifier.Collaborators) (claim : string) :
  exists r calls,
    Eff.run (Verifier.verify_claim env claim) = (Exn.Ok r, calls)
    /\ List.NoDup (map Evidence.key (Verifier.evidence r)).
Proof.
  destruct (verify_claim_evidence env claim Evidence.keys_recorded)
    as (r & calls & seen & found & evidence & Hrun & Hinv & Hfeed & Hev & _).
  - intros query results seen evidence _. apply add_results_keys.
  - split; [constructor | intros e []].
  - exists r, calls. split; [exact Hrun |].
    rewrite Hev, <- firstn_map. apply NoDup_firstn.
    destruct (Verifier.fetch_recent env 120 30) as [docs|e]; subst evidence.
    + apply add_feed_keys. exact Hinv.
    + apply Hinv.
Qed.

(** X8.  Every item of the evidence returned by [verify_claim] has the
    stance neutral and a summary of at most 1800 characters; an item of the
    news feed has no source domain, an item of the similarity search
    without a url has none either, and one with a url has the third piece
    of [url.split("/")] as its source domain. *)
Theorem evidence_items_as_built (env : Verifier.Collaborators) (claim : string) :
  exists r calls,
    Eff.run (Verifier.verify_claim env claim) = (Exn.Ok r, calls)
    /\ Forall Evidence.as_built (Verifier.evidence r).
Proof.
  destruct (verify_claim_evidence env claim (fun _ evidence => Forall Evidence.as_built evidence))
    as (r & calls & seen & found & evidence & Hrun & Hinv & Hfeed & Hev & _).
  - intros query results seen evidence _. apply add_results_as_built.
  - constructor.
  - exists r, calls. split; [exact Hrun |].
    rewrite Hev. apply Forall_firstn.
    destruct (Verifier.fetch_recent env 120 30) as [docs|e]; subst evidence.
    + apply add_feed_as_built. exact Hinv.
    + exact Hinv.
Qed.


(* ===================================================================== *)
(** ** Further properties of the detector *)
(* ===================================================================== *)

(** A list that does not begin with white space. *)
Lemma lstrip_chars_head (l : list ascii) :
  match Str.lstrip_chars l with [] => True | c :: _ => Str.isspace c = false end.
Proof.
  induction l as [|c l IH]; cbn; [exact I |].
  destruct (Str.isspace c) eqn:Hc; [exact IH | exact Hc].
Qed.

Lemma lstrip_chars_fixed (l : list ascii) :
  match l with [] => True | c :: _ => Str.isspace c = false end ->
  Str.lstrip_chars l = l.
Proof. destruct l as [|c l]; cbn; [reflexivity |]. intros ->. reflexivity. Qed.

Lemma lstrip_chars_suffix (l : list ascii) :
  exists p, l = p ++ Str.lstrip_chars l.
Proof.
  induction l as [|c l [p Hp]]; cbn.
  - exists []. reflexivity.
  - destruct (Str.isspace c).
    + exists (c :: p). cbn. f_equal. exact Hp.
    + exists []. reflexivity.
Qed.

(** The characters of [s.strip()] begin and end with no white space. *)
Lemma strip_chars_fixed (l : list ascii) :
  let m := Str.lstrip_chars (rev (Str.lstrip_chars l)) in
  Str.lstrip_chars (rev m) = rev m /\ Str.lstrip_chars m = m.
Proof.
  intros m. split.
  - apply lstrip_chars_fixed.
    pose proof (lstrip_chars_head l) as Hhead.
    destruct (lstrip_chars_suffix (rev (Str.lstrip_chars l))) as [p Hp].
    fold m in Hp. apply (f_equal (@rev ascii)) in Hp.
    rewrite rev_involutive, rev_app_distr in Hp.
    destruct (rev m) as [|c t]; [exact I |].
    rewrite Hp in Hhead. exact Hhead.
  - apply lstrip_chars_fixed. apply lstrip_chars_head.
Qed.

(** [s.strip().strip() == s.strip()] *)
Lemma strip_idempotent (s : string) : Str.strip (Str.strip s) = Str.strip s.
Proof.
  unfold Str.strip. rewrite chars_of_chars.
  destruct (strip_chars_fixed (Str.chars s)) as [Hfront Hback].
  cbv zeta in Hfront, Hback.
  rewrite Hfront, rev_involutive, Hback. reflexivity.
Qed.

Lemma lower_truthy (s : string) : Str.truthy (Str.lower s) = Str.truthy s.
Proof. destruct s; reflexivity. Qed.

Lemma lower_length (s : string) : Str.len (Str.lower s) = Str.len s.
Proof.
  unfold Str.len, Str.lower, Str.of_chars, Str.chars.
  induction s as [|c s IH]; cbn; [reflexivity | f_equal; exact IH].
Qed.

Section DetectorQueries.

Variable iter_set : list string -> list string.

(** X10.  [detect] reads its argument only through [claim.strip()]: white
    space around the claim changes neither the outcome nor any field of
    the result. *)
Theorem detect_ignores_outer_space (claim : string) :
  Detector.detect iter_set (Str.strip claim) = Detector.detect iter_set claim.
Proof.
  unfold Detector.detect. rewrite !or_else_empty, strip_idempotent. reflexivity.
Qed.

(** The loop of [_deduplicate_queries], from any set [seen]. *)
Lemma dedup_from_spec (queries : list string) :
  forall seen : gset string,
    List.NoDup (map Str.lower (Detector.dedup_from seen queries))
    /\ List.Forall (fun q => (Str.lower q ∉ seen) /\ Str.truthy q = true /\ Str.strip q = q)
                   (Detector.dedup_from seen queries)
    /\ sublist (Detector.dedup_from seen queries) (map Str.strip queries).
Proof.
  induction queries as [|q rest IH]; intros seen; cbn [Detector.dedup_from map].
  - split; [constructor | split; [constructor | constructor]].
  - cbv zeta.
    destruct (Str.truthy (Str.lower (Str.strip q))) eqn:Htruthy; cbn [negb orb].
    + destruct (bool_decide (Str.lower (Str.strip q) ∈ seen)) eqn:Hseen.
      * destruct (IH seen) as (Hnodup & Hall & Hsub).
        split; [exact Hnodup | split; [exact Hall | apply sublist_cons; exact Hsub]].
      * apply bool_decide_eq_false in Hseen.
        destruct (IH ({[ Str.lower (Str.strip q) ]} ∪ seen)) as (Hnodup & Hall & Hsub).
        split; [| split].
        -- cbn [map]. constructor; [| exact Hnodup].
           intros Hin. apply in_map_iff in Hin. destruct Hin as (q' & Hq' & Hin).
           rewrite List.Forall_forall in Hall. destruct (Hall q' Hin) as (Hfresh & _).
           apply Hfresh. rewrite Hq'. apply elem_of_union_l, elem_of_singleton. reflexivity.
        -- constructor.
           ++ split; [exact Hseen | split; [| apply strip_idempotent]].
              rewrite <- lower_truthy. exact Htruthy.
           ++ apply List.Forall_forall. intros q' Hin.
              rewrite List.Forall_forall in Hall. destruct (Hall q' Hin) as (Hfresh & Hrest).
              split; [| exact Hrest].
              intros Hmem. apply Hfresh. apply elem_of_union_r. exact Hmem.
        -- apply sublist_skip. exact Hsub.
    + destruct (IH seen) as (Hnodup & Hall & Hsub).
      split; [exact Hnodup | split; [exact Hall | apply sublist_cons; exact Hsub]].
Qed.

(** X11.  [_deduplicate_queries] keeps the stripped queries in their order,
    drops some of them, and what it returns holds no empty text and no two
    texts that are equal up to case. *)
Theorem deduplicate_queries_spec (queries : list string) :
  sublist (Detector._deduplicate_queries queries) (map Str.strip queries)
  /\ List.NoDup (map Str.lower (Detector._deduplicate_queries queries))
  /\ List.Forall (fun q => Str.truthy q = true /\ Str.strip q = q)
                 (Detector._deduplicate_queries queries).
Proof.
  unfold Detector._deduplicate_queries.
  destruct (dedup_from_spec queries ∅) as (Hnodup & Hall & Hsub).
  split; [exact Hsub | split; [exact Hnodup |]].
  apply List.Forall_forall. intros q Hin.
  rewrite List.Forall_forall in Hall. destruct (Hall q Hin) as (_ & Hq). exact Hq.
Qed.

(** A first query that is not blank is kept, stripped. *)
Lemma dedup_head (q : string) (rest : list string) :
  Str.truthy (Str.strip q) = true ->
  Detector._deduplicate_queries (q :: rest)
  = Str.strip q :: Detector.dedup_from ({[ Str.lower (Str.strip q) ]} ∪ ∅) rest.
Proof.
  intros Htruthy. unfold Detector._deduplicate_queries. cbn [Detector.dedup_from]. cbv zeta.
  rewrite lower_truthy, Htruthy. cbn [negb orb].
  rewrite bool_decide_eq_false_2; [reflexivity | apply not_elem_of_empty].
Qed.

Lemma NoDup_map_firstn (n : nat) (l : list string) :
  List.NoDup (map Str.lower l) -> List.NoDup (map Str.lower (firstn n l)).
Proof. intros H. rewrite <- firstn_map. apply NoDup_firstn. exact H. Qed.

(** X12.  The search queries of every detection result begin with the
    cleaned claim itself, none of them is empty, and no two of them are
    equal up to case. *)
Theorem search_queries_begin_with_claim (claim : string) (r : Detector.DetectionResult) :
  Detector.detect iter_set claim = Exn.Ok r ->
  head (Detector.search_queries r) = Some (Detector.claim r)
  /\ List.NoDup (map Str.lower (Detector.search_queries r))
  /\ List.Forall (fun q => Str.truthy q = true) (Detector.search_queries r).
Proof.
  intros Hok.
  destruct (detect_fields iter_set _ _ Hok)
    as (Hlen & Hclaim & _ & _ & _ & _ & _ & Hqueries & _).
  rewrite Hqueries, Hclaim.
  assert (Htruthy : Str.truthy (Str.strip (Str.strip claim)) = true).
  { rewrite strip_idempotent. unfold Str.len in Hlen.
    destruct (Str.strip claim); [cbn in Hlen; lia | reflexivity]. }
  split; [| split].
  - unfold Detector._generate_search_queries. cbv zeta. cbn [app].
    rewrite (dedup_head _ _ Htruthy), strip_idempotent. cbn [app].
    rewrite (dedup_head _ _ Htruthy), strip_idempotent. reflexivity.
  - apply NoDup_map_firstn. unfold Detector._deduplicate_queries at 1.
    apply dedup_from_spec.
  - apply Forall_firstn. apply List.Forall_forall. intros q Hin.
    unfold Detector._deduplicate_queries at 1 in Hin.
    match type of Hin with
    | In q (Detector.dedup_from ∅ ?l) => destruct (dedup_from_spec l ∅) as (_ & Hall & _)
    end.
    rewrite List.Forall_forall in Hall. apply (Hall q Hin).
Qed.

End DetectorQueries.

Lemma search_queries_begin_with_claim_witness :
  exists r,
    Detector.detect Sample.insertion_order Sample.airport_claim = Exn.Ok r
    /\ head (Detector.search_queries r) = Some Sample.airport_claim.
Proof.
  eexists.
  assert (Hok : Detector.detect Sample.insertion_order Sample.airport_claim = Exn.Ok _)
    by (vm_compute; reflexivity).
  split; [exact Hok |].
  destruct (search_queries_begin_with_claim Sample.insertion_order _ _ Hok) as (Hhead & _).
  exact Hhead.
Defined.

(** [find] returns the first element that passes the test. *)
Lemma find_first {A : Type} (f : A -> bool) (l : list A) (x : A) :
  find f l = Some x ->
  exists before after,
    l = before ++ x :: after
    /\ List.Forall (fun y => f y = false) before
    /\ f x = true.
Proof.
  induction l as [|y l IH]; cbn; [discriminate |].
  destruct (f y) eqn:Hy.
  - intros [= ->]. exists [], l. split; [reflexivity | split; [constructor | exact Hy]].
  - intros Hfind. destruct (IH Hfind) as (before & after & -> & Hbefore & Hx).
    exists (y :: before), after.
    split; [reflexivity | split; [constructor; assumption | exact Hx]].
Qed.

Lemma find_nothing {A : Type} (f : A -> bool) (l : list A) :
  find f l = None -> List.Forall (fun y => f y = false) l.
Proof.
  induction l as [|y l IH]; cbn; [constructor |].
  destruct (f y) eqn:Hy; [discriminate |].
  intros Hfind. constructor; [exact Hy | exact (IH Hfind)].
Qed.

(** X13.  [_detect_domain] returns the first domain, in the order health,
    politics, travel, disaster, finance, technology, one of whose keywords
    occurs in the text, and general when no keyword of any domain does. *)
Theorem detect_domain_is_first_match (claim_lower : string) :
  exists before keywords after,
    Detector.DOMAIN_KEYWORDS
    = before ++ (Detector._detect_domain claim_lower, keywords) :: after
    /\ List.Forall (fun dk => Detector.any_in (snd dk) claim_lower = false) before
    /\ (Detector.any_in keywords claim_lower = true
        \/ (Detector._detect_domain claim_lower = Detector.general /\ after = [])).
Proof.
  unfold Detector._detect_domain.
  destruct (find (fun dk => Detector.any_in (snd dk) claim_lower)
                 Detector.DOMAIN_KEYWORDS) as [[d keywords]|] eqn:Hfind.
  - destruct (find_first _ _ _ Hfind) as (before & after & Hsplit & Hbefore & Hhit).
    exists before, keywords, after.
    split; [exact Hsplit | split; [exact Hbefore | left; exact Hhit]].
  - apply find_nothing in Hfind.
    exists (removelast Detector.DOMAIN_KEYWORDS), [], [].
    split; [reflexivity | split; [| right; split; reflexivity]].
    inversion Hfind as [|? ? H1 Hf1]; subst. clear Hfind.
    inversion Hf1 as [|? ? H2 Hf2]; subst. clear Hf1.
    inversion Hf2 as [|? ? H3 Hf3]; subst. clear Hf2.
    inversion Hf3 as [|? ? H4 Hf4]; subst. clear Hf3.
    inversion Hf4 as [|? ? H5 Hf5]; subst. clear Hf4.
    inversion Hf5 as [|? ? H6 Hf6]; subst. clear Hf5.
    cbn [removelast]. repeat constructor; assumption.
Qed.

(** A text that holds a phrase holds every beginning of the phrase. *)
Lemma substring_shorter (t : string) :
  forall (m : nat) (a b : string),
    substring m (String.length (a +:+ b)) t = a +:+ b ->
    substring m (String.length a) t = a.
Proof.
  induction t as [|c t IH]; intros m a b H.
  - destruct m, a; cbn in *; try reflexivity; try discriminate.
  - destruct m as [|m].
    + clear IH. revert t c H. induction a as [|x a IHa]; intros t c H.
      * reflexivity.
      * cbn in H |- *. injection H as -> H. f_equal.
        destruct t as [|c' t].
        -- destruct a; cbn in *; [reflexivity | discriminate].
        -- apply IHa. exact H.
    + cbn in H |- *. apply (IH m a b). exact H.
Qed.

Lemma contains_beginning (a b t : string) :
  a <> "" ->
  Str.contains (a +:+ b) t = true -> Str.contains a t = true.
Proof.
  intros Ha. unfold Str.contains, Str.index.
  destruct (String.index 0 (a +:+ b) t) as [m|] eqn:Hab; [intros _ | discriminate].
  apply index_correct1 in Hab. apply substring_shorter in Hab.
  destruct (String.index 0 a t) eqn:Hidx; [reflexivity |].
  exfalso. apply (index_correct3 0 m a t Hidx Ha); [lia | exact Hab].
Qed.

(** X14.  The keywords are looked for as substrings, and "bill" is a
    keyword of politics, which is tried before finance: a claim that holds
    "billion" is never given the domain finance (for which "billion" is a
    keyword), it is given health or politics. *)
Theorem billion_is_not_finance (iter_set : list string -> list string)
  (claim : string) (r : Detector.DetectionResult) :
  Detector.detect iter_set claim = Exn.Ok r ->
  Str.contains "billion" (Str.lower (Detector.claim r)) = true ->
  Detector.domain r = Detector.health \/ Detector.domain r = Detector.politics.
Proof.
  intros Hok Hbillion.
  destruct (detect_fields iter_set _ _ Hok) as (_ & Hclaim & Hdomain & _).
  rewrite Hdomain. rewrite Hclaim in Hbillion.
  apply (contains_beginning "bill" "ion") in Hbillion; [| discriminate].
  unfold Detector._detect_domain, Detector.DOMAIN_KEYWORDS. cbn [find snd fst].
  destruct (Detector.any_in _ (Str.lower (Str.strip claim))); [left; reflexivity |].
  right.
  replace (Detector.any_in _ (Str.lower (Str.strip claim))) with true; [reflexivity |].
  symmetry. unfold Detector.any_in. apply existsb_exists.
  exists "bill". split; [cbn; tauto | exact Hbillion].
Qed.

Lemma billion_is_not_finance_witness :
  exists r,
    Detector.detect Sample.insertion_order "The bank lost 5 billion rupees" = Exn.Ok r
    /\ Detector.domain r = Detector.politics.
Proof.
  eexists.
  assert (Hok : Detector.detect Sample.insertion_order "The bank lost 5 billion rupees"
                = Exn.Ok _) by (vm_compute; reflexivity).
  split; [exact Hok |].
  pose proof (billion_is_not_finance Sample.insertion_order _ _ Hok) as Hdomain.
  destruct Hdomain as [H|H]; [vm_compute; reflexivity | |].
  - vm_compute in H. discriminate H.
  - exact H.
Defined.

(* Entities *)

Lemma insert_by_key_sorted (x : nat * string) (l : list (nat * string)) :
  StronglySorted Entities.by_index l -> StronglySorted Entities.by_index (Detector.insert_by_key x l).
Proof.
  induction l as [|y l IH]; intros Hsorted; cbn.
  - constructor; constructor.
  - destruct (fst y <=? fst x)%nat eqn:Hle.
    + apply Nat.leb_le in Hle. inversion Hsorted as [|? ? Hl Hy]; subst.
      constructor; [apply IH; exact Hl |].
      clear IH Hsorted Hl. induction l as [|z l IHl]; cbn.
      * constructor; [exact Hle | constructor].
      * inversion Hy as [|? ? Hz Hrest]; subst.
        destruct (fst z <=? fst x)%nat.
        -- constructor; [exact Hz | apply IHl; exact Hrest].
        -- constructor; [exact Hle | constructor; assumption].
    + apply Nat.leb_gt in Hle. constructor; [exact Hsorted |].
      inversion Hsorted as [|? ? Hl Hy]; subst.
      constructor; [unfold Entities.by_index; lia |].
      apply List.Forall_forall. intros z Hz.
      rewrite List.Forall_forall in Hy. specialize (Hy z Hz).
      unfold Entities.by_index in *. lia.
Qed.

Lemma insert_by_key_in (x y : nat * string) (l : list (nat * string)) :
  In y (Detector.insert_by_key x l) -> y = x \/ In y l.
Proof.
  induction l as [|z l IH]; cbn.
  - intros [<-|[]]. left. reflexivity.
  - destruct (fst z <=? fst x)%nat; cbn.
    + intros [<-|H]; [right; left; reflexivity |].
      destruct (IH H) as [->|Hin]; [left; reflexivity | right; right; exact Hin].
    + intros [<-|H]; [left; reflexivity | right; exact H].
Qed.

Lemma sort_by_key_spec (l : list (nat * string)) :
  forall acc,
    StronglySorted Entities.by_index acc ->
    StronglySorted Entities.by_index (fold_left (fun acc x => Detector.insert_by_key x acc) l acc)
    /\ forall y, In y (fold_left (fun acc x => Detector.insert_by_key x acc) l acc) ->
                 In y l \/ In y acc.
Proof.
  induction l as [|x l IH]; intros acc Hacc; cbn.
  - split; [exact Hacc | intros y Hy; right; exact Hy].
  - destruct (IH _ (insert_by_key_sorted x acc Hacc)) as [Hsorted Hin].
    split; [exact Hsorted |].
    intros y Hy. destruct (Hin y Hy) as [H|H]; [left; right; exact H |].
    destruct (insert_by_key_in _ _ _ H) as [->|H']; [left; left; reflexivity | right; exact H'].
Qed.

Lemma indexed_spec (claim : string) (found : list string) :
  forall p, In p (Detector.indexed claim found) ->
            Str.index (snd p) claim = Some (fst p) /\ In (snd p) found.
Proof.
  induction found as [|entity rest IH]; cbn; [intros p [] |].
  destruct (Str.index entity claim) as [index|] eqn:Hindex.
  - intros p [<-|Hp]; [split; [exact Hindex | left; reflexivity] |].
    destruct (IH p Hp) as [H1 H2]. split; [exact H1 | right; exact H2].
  - intros p Hp. destruct (IH p Hp) as [H1 H2]. split; [exact H1 | right; exact H2].
Qed.

Lemma StronglySorted_firstn {A : Type} (R : A -> A -> Prop) (n : nat) (l : list A) :
  StronglySorted R l -> StronglySorted R (firstn n l).
Proof.
  revert n. induction l as [|x l IH]; intros [|n] H; cbn; try constructor.
  - inversion H; subst. apply IH. assumption.
  - inversion H as [|? ? Hl Hx]; subst. apply List.Forall_forall. intros y Hy.
    rewrite List.Forall_forall in Hx. apply Hx. exact (In_firstn A n l y Hy).
Qed.

(** The pairs from which [_extract_entities] takes its result. *)
Lemma entities_pairs (iter_set : list string -> list string) (claim : string) :
  exists pairs,
    Detector._extract_entities iter_set claim = map snd pairs
    /\ StronglySorted Entities.by_index pairs
    /\ forall p, In p pairs -> Str.index (snd p) claim = Some (fst p).
Proof.
  unfold Detector._extract_entities. cbv zeta.
  set (found := iter_set _).
  destruct (sort_by_key_spec (Detector.indexed claim found) [] (SSorted_nil _))
    as [Hsorted Hin].
  fold (Detector.sort_by_key (Detector.indexed claim found)) in Hsorted, Hin.
  exists (firstn 5 (Detector.sort_by_key (Detector.indexed claim found))).
  split; [reflexivity | split].
  - apply StronglySorted_firstn. exact Hsorted.
  - intros p Hp. apply In_firstn in Hp. destruct (Hin p Hp) as [H|[]].
    apply (indexed_spec claim found p H).
Qed.

(** X15.  The entities are returned in the order of their first occurrence
    in the claim: each one occurs in the claim, and the offsets of their
    first occurrences never decrease along the list.  This holds whatever
    the order in which the set of matched texts is iterated. *)
Theorem entities_in_order_of_occurrence (iter_set : list string -> list string)
  (claim : string) :
  exists offsets,
    Forall2 (fun offset entity => Str.index entity claim = Some offset)
            offsets (Detector._extract_entities iter_set claim)
    /\ StronglySorted le offsets.
Proof.
  destruct (entities_pairs iter_set claim) as (l & -> & Hsorted & Hall).
  exists (map fst l). split.
  - clear Hsorted. induction l as [|p l IH]; cbn; constructor.
    + apply Hall. left. reflexivity.
    + apply IH. intros q Hq. apply Hall. right. exact Hq.
  - induction Hsorted as [|p l Hl IH Hp]; cbn; constructor.
    + apply IH. intros q Hq. apply Hall. right. exact Hq.
    + apply List.Forall_forall. intros i Hi. apply in_map_iff in Hi.
      destruct Hi as (q & <- & Hq). rewrite List.Forall_forall in Hp. exact (Hp q Hq).
Qed.

(** X16.  The three scoring methods keep their results in range for every
    argument, also for a risk that is no number or lies outside its own
    range and for any number of entities and evidence types:
    [_score_risk] between 0.1 and 1.0, [_score_confidence] between 0.35
    and 0.85, [_calculate_evidence_confidence] at most 0.25. *)
Theorem scores_are_clamped (claim claim_type : string) (risk : float)
  (entity_count : nat) (supporting_types temporal_indicators : list string) :
  Flt.within 0.1 1.0 (Detector._score_risk claim claim_type) = true
  /\ Flt.within 0.35 0.85 (Detector._score_confidence claim_type risk entity_count) = true
  /\ (Detector._calculate_evidence_confidence supporting_types temporal_indicators
      <=? 0.25)%float = true.
Proof.
  split; [| split].
  - unfold Detector._score_risk. cbv zeta. apply clamp_within; reflexivity.
  - unfold Detector._score_confidence. cbv zeta. apply clamp_within; reflexivity.
  - unfold Detector._calculate_evidence_confidence. cbv zeta. unfold Flt.min.
    match goal with
    | |- ((if (?x <? _)%float then _ else _) <=? _)%float = true =>
        destruct (x <? 0.25)%float eqn:Hlt; [apply ltb_leb; exact Hlt | reflexivity]
    end.
Qed.

Lemma sublist_firstn {A : Type} (n : nat) (l : list A) : sublist (firstn n l) l.
Proof.
  revert n. induction l as [|x l IH]; intros [|n]; cbn.
  - constructor.
  - constructor.
  - apply sublist_nil_l.
  - apply sublist_skip. apply IH.
Qed.

Lemma first_per_category_occurs (iter_set : list string -> list string)
  (cats : list (string * list string)) (claim_lower : string) :
  List.Forall (fun indicator => Str.contains indicator claim_lower = true)
              (Detector.first_per_category iter_set cats claim_lower).
Proof.
  induction cats as [|[name indicators] cats IH]; cbn; [constructor |].
  destruct (find _ (iter_set indicators)) as [indicator|] eqn:Hfind; [| exact IH].
  constructor; [| exact IH].
  apply find_some in Hfind. apply Hfind.
Qed.

Lemma supporting_types_sublist (claim_lower : string) (cats : list (string * list string)) :
  sublist (map fst (filter (fun ti => Detector.any_in (snd ti) claim_lower) cats))
          (map fst cats).
Proof.
  induction cats as [|[name indicators] cats IH]; [constructor |].
  rewrite filter_cons. cbn [snd].
  destruct (decide (Detector.any_in indicators claim_lower)); cbn [map fst].
  - apply sublist_skip. exact IH.
  - apply sublist_cons. exact IH.
Qed.

(** X17.  In every detection result the claim type is one of "question",
    "numerical_claim", "action_claim", "narrative_claim"; the supporting
    evidence types are taken, in this order and without repetition, from
    "official", "statistical", "eyewitness", "media", "expert"; and every
    temporal indicator is a phrase that occurs in the lower-cased claim,
    whatever the order in which the sets of indicators are iterated. *)
Theorem detection_labels (iter_set : list string -> list string)
  (claim : string) (r : Detector.DetectionResult) :
  Detector.detect iter_set claim = Exn.Ok r ->
  In (Detector.claim_type r)
     ["question"; "numerical_claim"; "action_claim"; "narrative_claim"]
  /\ sublist (Detector.supporting_evidence_types r)
             ["official"; "statistical"; "eyewitness"; "media"; "expert"]
  /\ List.Forall (fun indicator =>
                    Str.contains indicator (Str.lower (Detector.claim r)) = true)
                 (Detector.temporal_indicators r).
Proof.
  intros Hok.
  destruct (detect_fields iter_set _ _ Hok)
    as (_ & Hclaim & _ & Htype & _ & _ & _ & _ & _ & _ & _ & Htypes & Htemporal & _).
  rewrite Htype, Htypes, Htemporal, Hclaim.
  split; [| split].
  - unfold Detector._classify_claim.
    destruct (_ || _); [cbn; tauto |].
    destruct (Re.is_match _); [cbn; tauto |].
    destruct (existsb _ _); cbn; tauto.
  - unfold Detector._identify_supporting_evidence_types. cbv zeta.
    etransitivity; [apply sublist_firstn |].
    apply (supporting_types_sublist _ Detector.SUPPORT_EVIDENCE_INDICATORS).
  - unfold Detector._extract_temporal_indicators.
    apply Forall_firstn. apply first_per_category_occurs.
Qed.

Lemma detection_labels_witness :
  exists r,
    Detector.detect Sample.insertion_order Sample.schools_claim = Exn.Ok r
    /\ In (Detector.claim_type r)
          ["question"; "numerical_claim"; "action_claim"; "narrative_claim"].
Proof.
  eexists.
  assert (Hok : Detector.detect Sample.insertion_order Sample.schools_claim = Exn.Ok _)
    by (vm_compute; reflexivity).
  split; [exact Hok |].
  destruct (detection_labels Sample.insertion_order _ _ Hok) as (Htype & _).
  exact Htype.
Defined.

(** *** Occurrence of one text in another *)

Lemma chars_substring (s : string) :
  forall i n, Str.chars (substring i n s) = firstn n (skipn i (Str.chars s)).
Proof.
  induction s as [|c s IH]; intros [|i] [|n]; cbn; try reflexivity.
  - f_equal. apply (IH 0%nat n).
  - apply (IH i 0%nat).
  - apply (IH i (S n)).
Qed.

Lemma chars_length (s : string) : length (Str.chars s) = String.length s.
Proof. induction s as [|c s IH]; cbn; [reflexivity | f_equal; exact IH]. Qed.

Lemma of_chars_chars (s : string) : Str.of_chars (Str.chars s) = s.
Proof. apply string_of_list_ascii_of_string. Qed.

Lemma contains_empty (s : string) : Str.contains "" s = true.
Proof. destruct s; reflexivity. Qed.

(** [sub in s] holds exactly when [s] is some text, then [sub], then some
    text. *)
Lemma contains_iff (sub s : string) :
  Str.contains sub s = true
  <-> exists pre post, Str.chars s = pre ++ Str.chars sub ++ post.
Proof.
  split.
  - unfold Str.contains, Str.index.
    destruct (String.index 0 sub s) as [m|] eqn:Hidx; [intros _ | discriminate].
    apply index_correct1 in Hidx. apply (f_equal Str.chars) in Hidx.
    rewrite chars_substring in Hidx.
    exists (firstn m (Str.chars s)),
           (skipn (String.length sub) (skipn m (Str.chars s))).
    rewrite <- Hidx at 1. rewrite !firstn_skipn. reflexivity.
  - intros (pre & post & Hs).
    destruct sub as [|c sub]; [apply contains_empty |].
    unfold Str.contains, Str.index.
    destruct (String.index 0 (String c sub) s) eqn:Hidx; [reflexivity |].
    exfalso.
    apply (index_correct3 0 (length pre) (String c sub) s Hidx);
      [discriminate | lia |].
    pose proof (substring_skipn (length pre) s (Str.chars (String c sub)) post) as Hsub.
    rewrite chars_length, of_chars_chars in Hsub. apply Hsub.
    rewrite Hs, skipn_app, skipn_all, Nat.sub_diag. reflexivity.
Qed.

Lemma contains_trans (a b c : string) :
  Str.contains a b = true -> Str.contains b c = true -> Str.contains a c = true.
Proof.
  rewrite !contains_iff.
  intros (p1 & q1 & H1) (p2 & q2 & H2).
  exists (p2 ++ p1), (q1 ++ q2). rewrite H2, H1, <- !app_assoc. reflexivity.
Qed.

Lemma contains_substring (i n : nat) (s : string) :
  Str.contains (substring i n s) s = true.
Proof.
  apply contains_iff.
  exists (firstn i (Str.chars s)), (skipn n (skipn i (Str.chars s))).
  rewrite chars_substring, !firstn_skipn. reflexivity.
Qed.

Lemma contains_strip (s : string) : Str.contains (Str.strip s) s = true.
Proof.
  apply contains_iff. unfold Str.strip. rewrite chars_of_chars.
  destruct (lstrip_chars_suffix (Str.chars s)) as [p Hp].
  destruct (lstrip_chars_suffix (rev (Str.lstrip_chars (Str.chars s)))) as [q Hq].
  exists p, (rev q).
  rewrite <- rev_app_distr, <- Hq, rev_involutive. exact Hp.
Qed.

Lemma contains_group0 (s : string) (m : Re.rmatch) :
  Str.contains (Re.group0 s m) s = true.
Proof. apply contains_substring. Qed.

Lemma contains_group1 (s : string) (m : Re.rmatch) :
  Str.contains (Re.group1 s m) s = true.
Proof.
  unfold Re.group1. destruct (Re.m_group m) as [[i j]|].
  - apply contains_substring.
  - apply contains_empty.
Qed.

Section StructuredClaimFacts.

Variable iter_set : list string -> list string.

Lemma entity_occurs (claim entity : string) :
  In entity (Detector._extract_entities iter_set claim) ->
  Str.contains entity claim = true.
Proof.
  destruct (entities_pairs iter_set claim) as (pairs & -> & _ & Hall).
  intros Hin. apply in_map_iff in Hin. destruct Hin as (p & <- & Hp).
  unfold Str.contains. rewrite (Hall p Hp). reflexivity.
Qed.

Lemma location_occurs (claim location : string) :
  Detector._extract_location claim (Detector._extract_entities iter_set claim)
  = Some location ->
  Str.contains location claim = true.
Proof.
  unfold Detector._extract_location.
  destruct (Detector.first_match Detector.location_patterns claim) as [m|].
  - intros [= <-].
    apply (contains_trans _ (Re.group1 claim m)); [apply contains_strip | apply contains_group1].
  - destruct (1 <? _)%nat; [| discriminate].
    intros Hnth. apply entity_occurs. apply (nth_error_In _ _ Hnth).
Qed.

Lemma time_phrase_occurs (claim_lower phrase : string) :
  Detector._extract_time_phrase claim_lower = Some phrase ->
  Str.contains phrase claim_lower = true.
Proof.
  unfold Detector._extract_time_phrase.
  destruct (Re.search Detector.clock_time claim_lower) as [m|].
  - intros [= <-]. apply contains_group1.
  - intros Hfind. apply find_some in Hfind. apply Hfind.
Qed.

Lemma action_occurs (claim_lower action : string) :
  Detector._extract_action claim_lower = Some action ->
  Str.contains action claim_lower = true.
Proof.
  unfold Detector._extract_action.
  destruct (find _ Detector.ACTION_PATTERNS) as [phrase|] eqn:Hfind.
  - intros [= <-]. apply find_some in Hfind. apply Hfind.
  - destruct (Re.search Detector.single_word_action claim_lower) as [m|]; [| discriminate].
    intros [= <-]. apply contains_group1.
Qed.

(** X18.  The structured claim only quotes the claim: its subject and its
    location are texts that occur in the cleaned claim, its action and its
    time are texts that occur in the lower-cased claim, and its entities
    are the entities of the result. *)
Theorem structured_claim_quotes_claim (claim : string) (r : Detector.DetectionResult) :
  Detector.detect iter_set claim = Exn.Ok r ->
  (forall text,
      In (Some text) [Detector.subject (Detector.structured_claim r);
                      Detector.location (Detector.structured_claim r)] ->
      Str.contains text (Detector.claim r) = true)
  /\ (forall text,
        In (Some text) [Detector.action (Detector.structured_claim r);
                        Detector.time (Detector.structured_claim r)] ->
        Str.contains text (Str.lower (Detector.claim r)) = true)
  /\ Detector.sc_entities (Detector.structured_claim r) = Detector.entities r.
Proof.
  intros Hok.
  destruct (detect_fields iter_set _ _ Hok)
    as (_ & Hclaim & _ & _ & Hentities & _ & Hstructured & _).
  rewrite Hstructured, Hclaim, Hentities.
  unfold Detector._build_structured_claim. cbv zeta.
  cbn [Detector.subject Detector.location Detector.action Detector.time Detector.sc_entities].
  split; [| split; [| reflexivity]].
  - intros text [Hsubject|[Hlocation|[]]].
    + apply entity_occurs.
      destruct (Detector._extract_entities iter_set (Str.strip claim)) as [|e l];
        [discriminate |].
      injection Hsubject as ->. left. reflexivity.
    + apply location_occurs. exact Hlocation.
  - intros text [Haction|[Htime|[]]].
    + apply action_occurs. exact Haction.
    + apply time_phrase_occurs. exact Htime.
Qed.

End StructuredClaimFacts.

Lemma structured_claim_quotes_claim_witness :
  exists r,
    Detector.detect Sample.insertion_order Sample.schools_claim = Exn.Ok r
    /\ Detector.location (Detector.structured_claim r) = Some "Delhi"
    /\ Str.contains "Delhi" (Detector.claim r) = true.
Proof.
  eexists.
  assert (Hok : Detector.detect Sample.insertion_order Sample.schools_claim = Exn.Ok _)
    by (vm_compute; reflexivity).
  split; [exact Hok |]. split; [vm_compute; reflexivity |].
  destruct (structured_claim_quotes_claim Sample.insertion_order _ _ Hok) as (Hquote & _).
  apply Hquote. right. left. vm_compute. reflexivity.
Defined.

(* ===================================================================== *)
(** ** Properties of the explainer *)
(* ===================================================================== *)

Lemma rss_sources_spec (evidence : list Verifier.EvidenceItem) :
  Explainer.rss_sources evidence
  = if existsb (Explainer.origin_is "rss") evidence
    then Raised.Raise
           (Raised.AttributeError "'EvidenceItem' object has no attribute 'reliable'")
    else Raised.Ok [].
Proof.
  induction evidence as [|e evidence IH]; [reflexivity |].
  cbn [Explainer.rss_sources existsb]. unfold Explainer.origin_is at 1.
  destruct (String.eqb _ "rss"); [reflexivity | exact IH].
Qed.

Lemma count_without_feed (evidence : list Verifier.EvidenceItem) :
  existsb (Explainer.origin_is "rss") evidence = false ->
  Raised.count (Explainer.origin_is "dataset") evidence = length evidence
  /\ Raised.count (Explainer.origin_is "rss") evidence = 0%nat
  /\ Raised.count (Explainer.origin_is "fact_check") evidence = 0%nat.
Proof.
  unfold Raised.count, Explainer.origin_is.
  induction evidence as [|e evidence IH]; [intros _; repeat split |].
  cbn [existsb List.filter].
  destruct (Verifier.origin e); cbn; [| discriminate].
  intros H. destruct (IH H) as (H1 & H2 & H3).
  split; [f_equal; exact H1 | split; [exact H2 | exact H3]].
Qed.

(** X19.  [explain] raises AttributeError exactly when the evidence of the
    verification holds an item whose origin is "rss": the method reads the
    attribute [reliable], which an evidence item does not have.  Otherwise
    it returns, never names a source ("No verified sources available"), and
    its only key point counts the evidence as historical records. *)
Theorem explain_outcome (verification : Verifier.VerificationResult)
  (detection : option Detector.DetectionResult) :
  Explainer.explain verification detection
  = if existsb (Explainer.origin_is "rss") (Verifier.evidence verification)
    then Raised.Raise
           (Raised.AttributeError "'EvidenceItem' object has no attribute 'reliable'")
    else Raised.Ok
           {| Explainer.verdict := Verifier.verdict verification;
              Explainer.explanation := Explainer._build_explanation verification detection;
              Explainer.key_points :=
                match Verifier.evidence verification with
                | [] => []
                | _ => ["Checked "
                        +:+ Verifier.str_of_nat (length (Verifier.evidence verification))
                        +:+ " historical records"]
                end;
              Explainer.sources_summary := "No verified sources available";
              Explainer.confidence_note :=
                Explainer._build_confidence_note (Verifier.confidence verification) |}.
Proof.
  unfold Explainer.explain, Explainer._extract_key_points, Explainer._summarize_sources.
  cbv zeta. rewrite rss_sources_spec.
  destruct (existsb _ (Verifier.evidence verification)) eqn:Hfeed; [reflexivity |].
  destruct (count_without_feed _ Hfeed) as (-> & -> & ->).
  cbn [Raised.rbind Detector.nonempty Nat.ltb Nat.leb app].
  destruct (Verifier.evidence verification) as [|e l]; reflexivity.
Qed.

Lemma add_feed_extends (docs : list Verifier.Document) :
  forall (seen : gset string) evidence,
    exists more, Verifier.add_feed docs seen evidence = evidence ++ more.
Proof.
  induction docs as [|doc docs IH]; intros seen evidence; cbn [Verifier.add_feed].
  - exists []. rewrite app_nil_r. reflexivity.
  - cbv zeta. destruct (bool_decide _); [apply IH |].
    match goal with
    | |- exists more, Verifier.add_feed docs ?s (evidence ++ [?item]) = _ =>
        destruct (IH s (evidence ++ [item])) as [more Hmore];
        exists (item :: more); rewrite Hmore, <- app_assoc; reflexivity
    end.
Qed.

(** X20.  When the similarity searches find nothing and the news feed
    returns at least one document, the evidence of [verify_claim] begins
    with an item of the feed, and [explain] raises AttributeError on the
    result. *)
Theorem feed_item_breaks_explainer (env : Verifier.Collaborators) (claim : string)
  (doc : Verifier.Document) (docs : list Verifier.Document)
  (detection : option Detector.DetectionResult) :
  (forall query results,
      Verifier.similarity_search_with_score env query 50 = Exn.Ok results ->
      results = []) ->
  Verifier.fetch_recent env 120 30 = Exn.Ok (doc :: docs) ->
  exists r calls,
    Eff.run (Verifier.verify_claim env claim) = (Exn.Ok r, calls)
    /\ option_map Verifier.origin (List.head (Verifier.evidence r)) = Some Verifier.rss
    /\ Explainer.explain r detection
       = Raised.Raise
           (Raised.AttributeError "'EvidenceItem' object has no attribute 'reliable'").
Proof.
  intros Hempty Hfeed.
  destruct (verify_claim_evidence env claim (fun seen found => seen = ∅ /\ found = []))
    as (r & calls & seen & found & evidence & Hrun & [-> ->] & Hev & Hfirst & _).
  - intros query results seen found Hsearch [-> ->].
    rewrite (Hempty query results Hsearch). split; reflexivity.
  - split; reflexivity.
  - rewrite Hfeed in Hev. cbn [Verifier.add_feed] in Hev. cbv zeta in Hev.
    rewrite bool_decide_eq_false_2 in Hev by apply not_elem_of_empty.
    cbn [app] in Hev.
    match type of Hev with
    | evidence = Verifier.add_feed docs ?s [?item] =>
        destruct (add_feed_extends docs s [item]) as [more Hmore]
    end.
    rewrite Hmore in Hev. cbn [app] in Hev.
    exists r, calls. split; [exact Hrun |].
    unfold Explainer.explain, Explainer._extract_key_points. cbv zeta.
    rewrite rss_sources_spec, Hfirst, Hev. split; reflexivity.
Qed.

Lemma feed_item_breaks_explainer_witness :
  exists r calls,
    Eff.run (Verifier.verify_claim Scenario.feed_only Sample.schools_claim) = (Exn.Ok r, calls)
    /\ option_map Verifier.origin (List.head (Verifier.evidence r)) = Some Verifier.rss
    /\ Explainer.explain r None
       = Raised.Raise
           (Raised.AttributeError "'EvidenceItem' object has no attribute 'reliable'").
Proof.
  apply (feed_item_breaks_explainer Scenario.feed_only Sample.schools_claim
           Scenario.notice [] None).
  - intros query results Hsearch. cbn in Hsearch. discriminate Hsearch.
  - reflexivity.
Defined.

(* ===================================================================== *)
(** ** Properties of the communicator *)
(* ===================================================================== *)





(** X22.  [communicate] serves exactly the audiences "kids", "elderly",
    "general" and "expert", spelled so: for any other text it raises
    ValueError "Unsupported audience: ...".  The audience changes the
    explanation and the wording of the confidence only: the key points,
    the summary and the verdict explanation are the same for all four, and
    "general" and "expert" also share the wording of the confidence. *)
Theorem communicate_audiences (result : Verifier.VerificationResult) (audience : string) :
  match Communicator.communicate result audience with
  | Exn.Raise e =>
      ~ In audience ["kids"; "elderly"; "general"; "expert"]
      /\ e = Exn.ValueError ("Unsupported audience: " +:+ audience)
  | Exn.Ok t =>
      In audience ["kids"; "elderly"; "general"; "expert"]
      /\ Communicator.audience t = audience
      /\ Communicator.key_points t = Communicator._generate_key_points result
      /\ (forall other t',
             Communicator.communicate result other = Exn.Ok t' ->
             Communicator.key_points t' = Communicator.key_points t
             /\ Communicator.simple_summary t' = Communicator.simple_summary t
             /\ Communicator.verdict_explanation t' = Communicator.verdict_explanation t
             /\ (In audience ["general"; "expert"] -> In other ["general"; "expert"] ->
                 Communicator.confidence_level t' = Communicator.confidence_level t))
  end.
Proof.
  unfold Communicator.communicate at 1.
  destruct (Detector.lookup_str audience Communicator.audience_strategies) as [strategy|] eqn:Hlookup.
  - cbv zeta.
    assert (Hin : In audience ["kids"; "elderly"; "general"; "expert"]
                  /\ (In audience ["general"; "expert"] ->
                      Communicator.confidence_descriptors strategy
                      = [("high", "high confidence"); ("medium", "moderate confidence");
                         ("low", "low confidence")])).
    { unfold Communicator.audience_strategies in Hlookup. cbn [Detector.lookup_str] in Hlookup.
      destruct (String.eqb "kids" audience) eqn:H1.
      { apply String.eqb_eq in H1. subst audience. split; [cbn; tauto |].
        intros [H|[H|[]]]; discriminate H. }
      destruct (String.eqb "elderly" audience) eqn:H2.
      { apply String.eqb_eq in H2. subst audience. split; [cbn; tauto |].
        intros [H|[H|[]]]; discriminate H. }
      destruct (String.eqb "general" audience) eqn:H3.
      { apply String.eqb_eq in H3. subst audience. injection Hlookup as <-.
        split; [cbn; tauto | reflexivity]. }
      destruct (String.eqb "expert" audience) eqn:H4; [| discriminate].
      apply String.eqb_eq in H4. subst audience. injection Hlookup as <-.
      split; [cbn; tauto | reflexivity]. }
    destruct Hin as [Hin Hdesc].
    split; [exact Hin | split; [reflexivity | split; [reflexivity |]]].
    intros other t' Hother. unfold Communicator.communicate in Hother.
    destruct (Detector.lookup_str other Communicator.audience_strategies)
      as [strategy'|] eqn:Hlookup'; [| discriminate].
    cbv zeta in Hother. injection Hother as <-.
    cbn [Communicator.key_points Communicator.simple_summary
         Communicator.verdict_explanation Communicator.confidence_level].
    split; [reflexivity | split; [reflexivity | split; [reflexivity |]]].
    intros Ha Ho. unfold Communicator._format_confidence, Communicator.descriptor.
    rewrite (Hdesc Ha).
    assert (Hdesc' : Communicator.confidence_descriptors strategy'
                     = [("high", "high confidence"); ("medium", "moderate confidence");
                        ("low", "low confidence")]).
    { destruct Ho as [<-|[<-|[]]]; cbn in Hlookup'; injection Hlookup' as <-; reflexivity. }
    rewrite Hdesc'. reflexivity.
  - split; [| reflexivity].
    unfold Communicator.audience_strategies in Hlookup. cbn [Detector.lookup_str] in Hlookup.
    intros [<-|[<-|[<-|[<-|[]]]]]; cbn in Hlookup; discriminate Hlookup.
Qed.

(* ===================================================================== *)
(** ** The response of the workflow *)
(* ===================================================================== *)

(** X23.  Every run of [run_verification_workflow] ends in a state that
    keeps the claim and the two ids it was given, counts as unsuccessful,
    and has made no call to the vector store, the feed or the reasoning
    service; [create_verification_response] turns it into the failure
    response "Verification failed to complete", whose log is one system
    message. *)
Theorem workflow_response_is_failure
  (iter_set : list string -> list string) (env : Verifier.Collaborators)
  (claim : string) (user_id verification_id : option string) :
  exists st text,
    Eff.run (Workflow.run_verification_workflow iter_set env claim user_id verification_id)
    = (Exn.Ok st, [])
    /\ Workflow.claim st = claim
    /\ Workflow.user_id st = user_id
    /\ Workflow.verification_id st = verification_id
    /\ Workflow.is_verification_successful st = false
    /\ Workflow.extract_verification_result st = None
    /\ Workflow.retrieved_evidence st = None
    /\ Utilities.create_verification_response st
       = Raised.Ok (Utilities.Failure "Verification failed to complete"
                      [{| Workflow.role := "system"; Workflow.content := text |}]).
Proof.
  unfold Eff.run, Workflow.run_verification_workflow.
  destruct (Detector.detect iter_set claim) as [d|e] eqn:Hdetect.
  - eexists. eexists.
    rewrite (run_when_detect_returns iter_set env claim d _ user_id verification_id []
               Hdetect default_limit_suffices).
    repeat (split; [reflexivity |]). reflexivity.
  - eexists. eexists.
    rewrite (run_when_detect_raises iter_set env claim e _ user_id verification_id [] Hdetect).
    repeat (split; [reflexivity |]). reflexivity.
Qed.


(* ===================================================================== *)
(** ** Queries, digest and malformed urls in the verifier *)
(* ===================================================================== *)

(** X25.  [verify_claim] searches for between 5 and 12 queries, the first
    of which is the claim.  The state names are looked for as substrings,
    "up" among them: a claim that mentions "up board" or "upmsp" is also
    searched with the two school-calendar queries, for at least 8 queries
    in all. *)
Theorem queries_of_verify_claim (claim : string) :
  List.head (Evidence.all_queries claim) = Some claim
  /\ 5 <= length (Evidence.all_queries claim) <= 12
  /\ (Str.contains "up board" (Str.lower claim) = true
      \/ Str.contains "upmsp" (Str.lower claim) = true ->
      In (claim +:+ " school holiday calendar 2025-26") (Evidence.all_queries claim)
      /\ In (claim +:+ " education department circular") (Evidence.all_queries claim)
      /\ In "UP Board official announcement 2025-26" (Evidence.all_queries claim)
      /\ 8 <= length (Evidence.all_queries claim)).
Proof.
  unfold Evidence.all_queries, Verifier.extra_queries.
  split; [reflexivity | split].
  - rewrite !length_app.
    destruct (Detector.any_in _ _), (Str.contains "cbse" _), (_ || _), (_ || _); cbn; lia.
  - intros Hup.
    assert (Hstate : Str.contains "up" (Str.lower claim) = true).
    { destruct Hup as [H|H].
      - apply (contains_trans "up" "up board"); [reflexivity | exact H].
      - apply (contains_trans "up" "upmsp"); [reflexivity | exact H]. }
    assert (Hany : Detector.any_in ["delhi"; "up"; "uttar pradesh"; "maharashtra"; "bihar";
                                    "tamil nadu"; "kerala"; "gujarat"; "rajasthan"]
                                   (Str.lower claim) = true).
    { unfold Detector.any_in. apply existsb_exists. exists "up".
      split; [cbn; tauto | exact Hstate]. }
    rewrite Hany.
    assert (Hboard : Str.contains "up board" (Str.lower claim)
                     || Str.contains "upmsp" (Str.lower claim) = true).
    { destruct Hup as [-> | ->]; [reflexivity | apply orb_true_r]. }
    rewrite Hboard. rewrite !length_app.
    split; [cbn; tauto | split; [cbn; tauto | split]].
    + apply in_or_app. right. apply in_or_app. right. apply in_or_app. right.
      apply in_or_app. left. left. reflexivity.
    + destruct (Str.contains "cbse" _), (_ || _); cbn; lia.
Qed.

Lemma digest_firstn (evidence : list Verifier.EvidenceItem) :
  Verifier.evidence_digest (firstn 20 evidence) = Verifier.evidence_digest evidence.
Proof.
  unfold Verifier.evidence_digest. rewrite firstn_firstn.
  destruct evidence; reflexivity.
Qed.

Lemma digest_of_items (e : Verifier.EvidenceItem) (evidence : list Verifier.EvidenceItem) :
  exists text, Verifier.evidence_digest (e :: evidence) = String "[" text.
Proof.
  unfold Verifier.evidence_digest. cbn [Detector.nonempty firstn Verifier.enumerate_from map].
  destruct (map _ (Verifier.enumerate_from 1 (firstn 19 evidence))) as [|b l];
    cbn [Str.join]; unfold Verifier.evidence_block; cbn [fst snd];
    eexists; reflexivity.
Qed.

(** X26.  The reasoning service is shown the evidence that the result
    carries: the digest in the request is the digest of the (at most 20)
    evidence items of the result.  It is the sentence "No credible sources
    found." exactly when the result has no evidence. *)
Theorem digest_matches_evidence (env : Verifier.Collaborators) (claim : string) :
  exists r calls,
    Eff.run (Verifier.verify_claim env claim) = (Exn.Ok r, calls)
    /\ Verifier.digest_of env claim = Verifier.evidence_digest (Verifier.evidence r)
    /\ (Verifier.evidence r = []
        <-> Verifier.digest_of env claim = "No credible sources found.")
    /\ forall c, In c calls -> Eff.is_reasoning_call c = true ->
                 c = Eff.ChatCompletion claim (Verifier.evidence_digest (Verifier.evidence r)).
Proof.
  destruct (verify_claim_cases env claim)
    as (evidence & made & answer & made' & _ & Hmade & Hdigest & Hrun & Hcases).
  eexists. eexists. split; [exact Hrun |]. cbn [Verifier.evidence].
  rewrite digest_firstn.
  split; [exact Hdigest | split].
  - rewrite Hdigest. destruct evidence as [|e evidence].
    + split; reflexivity.
    + split; [discriminate |].
      destruct (digest_of_items e evidence) as [text ->]. discriminate.
  - intros c Hin Hc. apply in_app_or in Hin. destruct Hin as [Hin|Hin].
    + exfalso.
      assert (Hnone : forall x, In x made -> Eff.is_reasoning_call x = false).
      { clear -Hmade. induction made as [|y made IH]; intros x [].
        - subst. cbn in Hmade. apply orb_false_elim in Hmade. apply Hmade.
        - cbn in Hmade. apply orb_false_elim in Hmade. apply IH; [apply Hmade | assumption]. }
      rewrite (Hnone c Hin) in Hc. discriminate.
    + destruct Hcases
        as [(_ & _ & ->) | [(c1 & e1 & _ & _ & _ & ->) | (c2 & t2 & _ & _ & _ & ->)]].
      * destruct Hin.
      * destruct Hin as [<-|[]]. reflexivity.
      * destruct Hin as [<-|[]]. reflexivity.
Qed.

Lemma split_on_length (sep : ascii) (l : list ascii) :
  forall cur,
    length (Str.split_on_from sep cur l)
    = S (length (List.filter (Ascii.eqb sep) l)).
Proof.
  induction l as [|c l IH]; intros cur; cbn [Str.split_on_from List.filter].
  - reflexivity.
  - rewrite (Ascii.eqb_sym sep c). destruct (Ascii.eqb c sep); cbn [length]; rewrite IH; reflexivity.
Qed.

(** [url.split("/")[2]] raises IndexError exactly for a url with fewer
    than two slashes. *)
Lemma third_piece_raises (url : string) :
  Url.slashes url < 2 ->
  Verifier.third_piece url = Exn.Raise (Exn.IndexError "list index out of range").
Proof.
  unfold Url.slashes, Verifier.third_piece, Str.split_on. intros Hfew.
  destruct (nth_error _ 2) as [piece|] eqn:Hnth; [| reflexivity].
  exfalso.
  assert (Hlen : 2 < length (Str.split_on_from "/" [] (Str.chars url))).
  { apply nth_error_Some. rewrite Hnth. discriminate. }
  rewrite split_on_length in Hlen. lia.
Qed.

(** X27.  A search result whose url has fewer than two slashes (a url with
    no scheme, such as "example.org/page") ends the handling of its query:
    the url is recorded as seen, no evidence item is built for it, and the
    results that follow it in the same query are dropped. *)
Theorem url_without_host_ends_query (doc : Verifier.Document) (score : float)
  (rest : list (Verifier.Document * float))
  (seen : gset string) (evidence : list Verifier.EvidenceItem) :
  Str.truthy (Verifier.get_or (Verifier.metadata doc) "url" "") = true ->
  Url.slashes (Verifier.get_or (Verifier.metadata doc) "url" "") < 2 ->
  Verifier.get_or (Verifier.metadata doc) "url" "" ∉ seen ->
  (0.9 <? score)%float = false ->
  Verifier.add_results ((doc, score) :: rest) seen evidence
  = ({[ Verifier.get_or (Verifier.metadata doc) "url" "" ]} ∪ seen, evidence).
Proof.
  intros Hurl Hfew Hnew Hscore.
  cbn [Verifier.add_results]. cbv zeta.
  unfold Str.or_else. rewrite Hurl, Hscore.
  rewrite bool_decide_eq_false_2 by exact Hnew. cbn [orb].
  rewrite (third_piece_raises _ Hfew). reflexivity.
Qed.

Lemma url_without_host_ends_query_witness :
  Verifier.add_results
    [(Scenario.unhosted, 0.5%float); (Scenario.notice, 0.5%float)] ∅ []
  = ({[ Verifier.get_or (Verifier.metadata Scenario.unhosted) "url" "" ]} ∪ ∅, []).
Proof.
  apply (url_without_host_ends_query Scenario.unhosted
           0.5%float [(Scenario.notice, 0.5%float)] ∅ []).
  - vm_compute. reflexivity.
  - vm_compute. lia.
  - apply not_elem_of_empty.
  - reflexivity.
Defined.

(* ===================================================================== *)
(** ** The nodes of the workflow on any state *)
(* ===================================================================== *)

(** X28.  On every state, and whatever the claim, each of the two nodes
    returns a state (it never raises), makes no call to a collaborator,
    keeps the claim and the two ids, and either leaves the log as it is or
    appends one system message to it; node [verify] always appends the
    message of the failed call and clears the verification result. *)
Theorem nodes_extend_log (iter_set : list string -> list string)
  (env : Verifier.Collaborators) (state : Workflow.VerificationState)
  (calls : list Eff.call) :
  (exists st,
      Workflow.detect_claim iter_set state calls = (Exn.Ok st, calls)
      /\ Workflow.claim st = Workflow.claim state
      /\ Workflow.user_id st = Workflow.user_id state
      /\ Workflow.verification_id st = Workflow.verification_id state
      /\ (Workflow.messages st = Workflow.messages state
          \/ exists text,
               Workflow.messages st
               = Workflow.messages state
                 ++ [{| Workflow.role := "system"; Workflow.content := text |}]
               /\ Workflow.should_continue st = false))
  /\ (exists st text,
        Workflow.verify_claim env state calls = (Exn.Ok st, calls)
        /\ Workflow.claim st = Workflow.claim state
        /\ Workflow.user_id st = Workflow.user_id state
        /\ Workflow.verification_id st = Workflow.verification_id state
        /\ Workflow.detection_result st = Workflow.detection_result state
        /\ Workflow.verification_result st = None
        /\ Workflow.messages st
           = Workflow.messages state
             ++ [{| Workflow.role := "system"; Workflow.content := text |}]).
Proof.
  split.
  - destruct (Detector.detect iter_set (Workflow.claim state)) as [d|e] eqn:Hdetect.
    + eexists. rewrite (detect_node_ok iter_set state calls d Hdetect).
      repeat (split; [reflexivity |]). left. reflexivity.
    + eexists. rewrite (detect_node_raises iter_set state calls e Hdetect).
      repeat (split; [reflexivity |]). right. eexists. split; reflexivity.
  - eexists. eexists. rewrite verify_node_fails.
    repeat (split; [reflexivity |]). reflexivity.
Qed.

(* ===================================================================== *)
(** ** The tokens of [re.split] and the keywords *)
(* ===================================================================== *)

(** [search_from] returns the first offset at which [run] succeeds. *)
Lemma search_from_first (r : Re.regex) (l : list ascii) :
  forall (p : nat) (pv : option ascii) (m : Re.rmatch),
    Re.search_from r p pv l = Some m ->
    exists i pv' st,
      i <= length l
      /\ Re.run r (Re.MState (p + i) pv' (skipn i l) None) Some = Some st
      /\ m = Re.RMatch (p + i) (Re.pos st) (Re.grp st)
      /\ forall j, j < i ->
           exists q pvj, Re.run r (Re.MState q pvj (skipn j l) None) Some = None.
Proof.
  induction l as [|c l IH]; intros p pv m H; cbn [Re.search_from] in H.
  - destruct (Re.run r (Re.MState p pv [] None) Some) as [st|] eqn:Hrun; [| discriminate].
    injection H as <-. exists 0, pv, st. rewrite Nat.add_0_r.
    split; [cbn; lia | split; [exact Hrun | split; [reflexivity | intros j Hj; lia]]].
  - destruct (Re.run r (Re.MState p pv (c :: l) None) Some) as [st|] eqn:Hrun.
    + injection H as <-. exists 0, pv, st. rewrite Nat.add_0_r.
      split; [cbn; lia | split; [exact Hrun | split; [reflexivity | intros j Hj; lia]]].
    + apply IH in H. destruct H as (i & pv' & st & Hi & Hrun' & Hm & Hbefore).
      exists (S i), pv', st.
      replace (p + S i) with (S p + i) by lia.
      split; [cbn; lia | split; [exact Hrun' | split; [exact Hm |]]].
      intros [|j] Hj.
      * exists p, pv. exact Hrun.
      * apply (Hbefore j). lia.
Qed.

Lemma search_from_none (r : Re.regex) (l : list ascii) :
  forall (p : nat) (pv : option ascii),
    Re.search_from r p pv l = None ->
    forall j, j <= length l ->
      exists q pvj, Re.run r (Re.MState q pvj (skipn j l) None) Some = None.
Proof.
  induction l as [|c l IH]; intros p pv H j Hj; cbn [Re.search_from] in H.
  - destruct (Re.run r (Re.MState p pv [] None) Some) eqn:Hrun; [discriminate |].
    exists p, pv. destruct j; exact Hrun.
  - destruct (Re.run r (Re.MState p pv (c :: l) None) Some) eqn:Hrun; [discriminate |].
    destruct j as [|j].
    + exists p, pv. exact Hrun.
    + apply (IH (S p) (Some c) H j). cbn in Hj. lia.
Qed.

(** A repetition followed by nothing always matches. *)
Lemma run_star_some (a : Re.regex) (st : Re.mstate) :
  exists st', Re.run (Re.Star a) st Some = Some st'.
Proof.
  cbn [Re.run]. destruct (length (Re.rest st)) as [|fuel].
  - eexists. reflexivity.
  - match goal with
    | |- exists st', match ?x with _ => _ end = _ => destruct x
    end; eexists; reflexivity.
Qed.

(** [[...]+] matches wherever a character of the class stands. *)
Lemma run_plus_class_none (sep : ascii -> bool) (st : Re.mstate) :
  Re.run (Re.Plus (Re.Cls sep)) st Some = None ->
  match Re.rest st with
  | [] => True
  | c :: _ => sep c = false
  end.
Proof.
  unfold Re.Plus. rewrite run_seq. cbn [Re.run].
  destruct (Re.rest st) as [|c l]; [intros _; exact I |].
  destruct (sep c); [| reflexivity].
  intros H. exfalso.
  destruct (run_star_some (Re.Cls sep)
              (Re.MState (S (Re.pos st)) (Some c) l (Re.grp st))) as [st' Hst'].
  cbn [Re.run] in Hst'. rewrite Hst' in H. discriminate.
Qed.

Lemma gap_outside_class (sep : ascii -> bool) (i : nat) :
  forall l : list ascii,
    i <= length l ->
    (forall j, j < i ->
       exists q pvj,
         Re.run (Re.Plus (Re.Cls sep)) (Re.MState q pvj (skipn j l) None) Some = None) ->
    forallb (fun c => negb (sep c)) (firstn i l) = true.
Proof.
  induction i as [|i IH]; intros l Hi Hnone; [reflexivity |].
  destruct l as [|c l]; [cbn in Hi; lia |].
  cbn [firstn forallb]. apply andb_true_intro. split.
  - destruct (Hnone 0) as (q & pvj & Hrun); [lia |].
    apply run_plus_class_none in Hrun. cbn in Hrun. rewrite Hrun. reflexivity.
  - apply IH; [cbn in Hi; lia |].
    intros j Hj. apply (Hnone (S j)). lia.
Qed.

(** A match of [[...]+] is not empty and lies within the text. *)
Lemma run_plus_class_some (sep : ascii -> bool) (st st' : Re.mstate) :
  Re.run (Re.Plus (Re.Cls sep)) st Some = Some st' ->
  Re.pos st < Re.pos st' <= Re.pos st + length (Re.rest st).
Proof.
  intros H. apply run_sound in H. destruct H as (w & st1 & Hw & Hrest & Hpos & Hk).
  injection Hk as ->. rewrite Hrest, length_app, Hpos.
  inversion Hw as [| |a b u v Hu Hv| | | | | |]; subst.
  inversion Hu; subst. cbn. lia.
Qed.

(** The pieces of [re.split] for a pattern [[...]+] hold no character of
    the class. *)
Lemma pieces_outside_class (sep : ascii -> bool) (s : string) (fuel : nat) :
  forall (p : nat) (pv : option ascii) (l : list ascii),
    l = skipn p (Str.chars s) ->
    p <= Str.len s ->
    length l < fuel ->
    List.Forall (fun piece => forallb (fun c => negb (sep c)) (Str.chars piece) = true)
      (Re.pieces s p (Re.finditer_from fuel (Re.Plus (Re.Cls sep)) p pv l)).
Proof.
  induction fuel as [|fuel IH]; intros p pv l Hl Hp Hfuel; [lia |].
  assert (Hlen : length l = Str.len s - p).
  { rewrite Hl, length_skipn, chars_length. reflexivity. }
  cbn [Re.finditer_from].
  destruct (Re.search_from (Re.Plus (Re.Cls sep)) p pv l) as [m|] eqn:Hsearch.
  - destruct (search_from_first _ _ _ _ _ Hsearch) as (i & pv' & st & Hi & Hrun & -> & Hbefore).
    apply run_plus_class_some in Hrun. cbn [Re.pos Re.rest] in Hrun.
    rewrite length_skipn in Hrun.
    cbv zeta. cbn [Re.m_start Re.m_end Re.pieces].
    replace (Nat.max (Re.pos st) (S (p + i))) with (Re.pos st) by lia.
    constructor.
    + unfold Str.slice. rewrite chars_substring, <- Hl.
      replace (p + i - p) with i by lia.
      apply gap_outside_class; assumption.
    + apply IH.
      * rewrite Hl, skipn_skipn. f_equal. lia.
      * lia.
      * rewrite length_skipn. lia.
  - cbn [Re.pieces]. constructor; [| constructor].
    unfold Str.slice. rewrite chars_substring, <- Hl, <- Hlen.
    apply gap_outside_class; [lia |].
    intros j Hj. apply (search_from_none _ _ _ _ Hsearch). lia.
Qed.

Lemma forallb_same {A : Type} (f g : A -> bool) (l : list A) :
  (forall x, f x = g x) -> forallb f l = forallb g l.
Proof.
  intros Hfg. induction l as [|x l IH]; [reflexivity |].
  cbn. rewrite Hfg, IH. reflexivity.
Qed.

(** X29.  Every keyword of [_extract_keywords] is a stretch of the text
    made of word characters, "@" and "#" only (so it holds no white space
    and no punctuation), has more than three characters, and is not a stop
    word. *)
Theorem keywords_are_words (claim_lower : string) :
  List.Forall
    (fun keyword =>
       forallb (fun c => Str.isword c || Ascii.eqb c "@" || Ascii.eqb c "#")
               (Str.chars keyword) = true
       /\ 3 < Str.len keyword
       /\ keyword ∉ Detector.STOPWORDS)
    (Detector._extract_keywords claim_lower).
Proof.
  unfold Detector._extract_keywords. cbv zeta. apply Forall_firstn.
  apply List.Forall_forall. intros keyword Hin.
  apply list_elem_of_In, list_elem_of_filter in Hin. destruct Hin as [Hkeep Hin].
  apply list_elem_of_In in Hin.
  apply Is_true_true in Hkeep. apply andb_prop in Hkeep. destruct Hkeep as [Hkeep Hstop].
  apply andb_prop in Hkeep. destruct Hkeep as [_ Hlong].
  split; [| split].
  - pose proof (pieces_outside_class
                  (fun c => negb (Str.isword c || Ascii.eqb c "@" || Ascii.eqb c "#"))
                  claim_lower (S (Str.len claim_lower)) 0 None (Str.chars claim_lower)
                  eq_refl (Nat.le_0_l _)) as Hpieces.
    rewrite chars_length in Hpieces. specialize (Hpieces (Nat.lt_succ_diag_r _)).
    rewrite List.Forall_forall in Hpieces. specialize (Hpieces keyword Hin).
    erewrite forallb_same; [exact Hpieces |]. intros c. apply negb_involutive_reverse.
  - apply Nat.ltb_lt in Hlong. exact Hlong.
  - apply negb_true_iff, bool_decide_eq_false in Hstop. exact Hstop.
Qed.

Lemma pieces_occur (s : string) (ms : list Re.rmatch) :
  forall from,
    List.Forall (fun piece => Str.contains piece s = true) (Re.pieces s from ms).
Proof.
  induction ms as [|m ms IH]; intros from; cbn [Re.pieces].
  - constructor; [apply contains_substring | constructor].
  - constructor; [apply contains_substring | apply IH].
Qed.

(** X30.  What [detect] extracts is quoted from the claim: every keyword
    of the result occurs in the lower-cased claim, and every quantitative
    element occurs in the cleaned claim. *)
Theorem extracted_texts_occur_in_claim (iter_set : list string -> list string)
  (claim : string) (r : Detector.DetectionResult) :
  Detector.detect iter_set claim = Exn.Ok r ->
  List.Forall (fun keyword => Str.contains keyword (Str.lower (Detector.claim r)) = true)
              (Detector.keywords r)
  /\ List.Forall (fun element => Str.contains element (Detector.claim r) = true)
                 (Detector.quantitative_elements r).
Proof.
  intros Hok.
  destruct (detect_fields iter_set _ _ Hok)
    as (_ & Hclaim & _ & _ & _ & Hkeywords & _ & _ & _ & _ & _ & _ & _ & Hquantitative).
  rewrite Hkeywords, Hquantitative, Hclaim. split.
  - unfold Detector._extract_keywords. cbv zeta. apply Forall_firstn.
    apply List.Forall_forall. intros keyword Hin.
    apply list_elem_of_In, list_elem_of_filter in Hin. destruct Hin as [_ Hin].
    apply list_elem_of_In in Hin.
    pose proof (pieces_occur (Str.lower (Str.strip claim))
                  (Re.finditer Detector.token_separator (Str.lower (Str.strip claim))) 0)
      as Hpieces.
    rewrite List.Forall_forall in Hpieces. apply Hpieces. exact Hin.
  - unfold Detector._extract_quantitative_elements. cbv zeta. apply Forall_firstn.
    apply List.Forall_forall. intros element Hin.
    apply in_flat_map in Hin. destruct Hin as (pattern & _ & Hin).
    apply in_map_iff in Hin. destruct Hin as (m & <- & _).
    apply (contains_trans _ (Re.group0 (Str.strip claim) m));
      [apply contains_strip | apply contains_group0].
Qed.

Lemma extracted_texts_occur_in_claim_witness :
  exists r,
    Detector.detect Sample.insertion_order "The bank lost 5 billion rupees" = Exn.Ok r
    /\ List.Forall (fun element => Str.contains element (Detector.claim r) = true)
                   (Detector.quantitative_elements r).
Proof.
  eexists.
  assert (Hok : Detector.detect Sample.insertion_order "The bank lost 5 billion rupees"
                = Exn.Ok _) by (vm_compute; reflexivity).
  split; [exact Hok |].
  destruct (extracted_texts_occur_in_claim Sample.insertion_order _ _ Hok) as (_ & H).
  exact H.
Defined.
